(** * cfb-pick-em: the pick session and the visibility policy

    A shallow embedding of the two screens that hold the pick logic of the
    mobile client:

    - [LeagueSlateScreen] (the weekly slate): [handlePickSide],
      [submitAllPicks], [loadSlateAndPicks] and the derived values of the
      render ([pickLimit], [canSubmit]);
    - [MemberPicksScreen] (another member's picks): [isPickVisible].

    React state is a record; a handler is a function of the render it was
    created in (its closure), of the replies of the outside world, and
    returns the [setState] calls it makes.  The platform's [Date] follows
    ECMA-262 (section "Date Objects") over integer time values. *)

From Stdlib Require Import ZArith List String Bool Lia QArith_base.
From Stdlib Require Import Permutation Sorted.
Import ListNotations.
Local Open Scope Z_scope.

(* ================================================================== *)
(** * The platform: ECMAScript time values                              *)
(* ================================================================== *)

(** A [Date] is its time value: milliseconds since 1970-01-01T00:00Z.
    The abstract operations below are those of ECMA-262.  The zone of the
    device is read as ECMA-262 reads it, through the offset of local time
    in force at each instant, so that a computation that crosses a
    transition of the offset (daylight saving time) is followed step by
    step. *)
Module JSDate.

Definition msPerSecond : Z := 1000.
Definition msPerMinute : Z := 60000.
Definition msPerHour : Z := 3600000.
Definition msPerDay : Z := 86400000.

Definition Day (t : Z) : Z := t / msPerDay.
Definition TimeWithinDay (t : Z) : Z := t mod msPerDay.

Definition isLeapYear (y : Z) : bool :=
  (y mod 4 =? 0) && (negb (y mod 100 =? 0) || (y mod 400 =? 0)).

Definition DayFromYear (y : Z) : Z :=
  365 * (y - 1970) + (y - 1969) / 4 - (y - 1901) / 100 + (y - 1601) / 400.

(** The largest [y] with [DayFromYear y <= Day t]: an estimate from the
    mean length of the Gregorian year, corrected by at most one. *)
Definition YearFromTime (t : Z) : Z :=
  let d := Day t in
  let y := 1970 + (d * 400) / 146097 in
  if DayFromYear (y + 1) <=? d then y + 1
  else if DayFromYear y <=? d then y
  else y - 1.

Definition InLeapYear (t : Z) : bool := isLeapYear (YearFromTime t).

Definition DayWithinYear (t : Z) : Z := Day t - DayFromYear (YearFromTime t).

(** Day within the year on which month [m] (0 = January) begins. *)
Definition monthStart (m : Z) (leap : bool) : Z :=
  let l := if leap then 1 else 0 in
  match m with
  | 0 => 0
  | 1 => 31
  | 2 => 59 + l
  | 3 => 90 + l
  | 4 => 120 + l
  | 5 => 151 + l
  | 6 => 181 + l
  | 7 => 212 + l
  | 8 => 243 + l
  | 9 => 273 + l
  | 10 => 304 + l
  | _ => 334 + l
  end.

Definition MonthFromTime (t : Z) : Z :=
  let d := DayWithinYear t in
  let l := if InLeapYear t then 1 else 0 in
  if d <? 31 then 0
  else if d <? 59 + l then 1
  else if d <? 90 + l then 2
  else if d <? 120 + l then 3
  else if d <? 151 + l then 4
  else if d <? 181 + l then 5
  else if d <? 212 + l then 6
  else if d <? 243 + l then 7
  else if d <? 273 + l then 8
  else if d <? 304 + l then 9
  else if d <? 334 + l then 10
  else 11.

Definition DateFromTime (t : Z) : Z :=
  DayWithinYear t - monthStart (MonthFromTime t) (InLeapYear t) + 1.

Definition WeekDay (t : Z) : Z := (Day t + 4) mod 7.

Definition HourFromTime (t : Z) : Z := (t / msPerHour) mod 24.
Definition MinFromTime (t : Z) : Z := (t / msPerMinute) mod 60.
Definition SecFromTime (t : Z) : Z := (t / msPerSecond) mod 60.
Definition msFromTime (t : Z) : Z := t mod msPerSecond.

Definition MakeTime (hour min sec ms : Z) : Z :=
  hour * msPerHour + min * msPerMinute + sec * msPerSecond + ms.

(** [MakeDay]: the day number of the first of the (normalised) month,
    plus [date - 1]; dates outside the month roll over. *)
Definition MakeDay (year month date : Z) : Z :=
  let ym := year + month / 12 in
  let mn := month mod 12 in
  DayFromYear ym + monthStart mn (isLeapYear ym) + date - 1.

Definition MakeDate (day time : Z) : Z := day * msPerDay + time.

(** The zone of the device, in milliseconds east of UTC.  [offsetAt t]
    is the offset in force at the instant [t] ([LocalTZA(t, true)]);
    [offsetOfLocal t] is the offset under which the local time value [t]
    is read ([LocalTZA(t, false)]): a local time that a transition skips
    or repeats is read under the offset before the transition. *)
Record Zone : Type := mkZone {
  offsetAt : Z -> Z;
  offsetOfLocal : Z -> Z
}.

Section Zone.
Variable z : Zone.

Definition LocalTime (t : Z) : Z := t + offsetAt z t.
Definition UTC (t : Z) : Z := t - offsetOfLocal z t.

Definition getDate (d : Z) : Z := DateFromTime (LocalTime d).
Definition getDay (d : Z) : Z := WeekDay (LocalTime d).
Definition getHours (d : Z) : Z := HourFromTime (LocalTime d).

(** [d.setDate(date)] *)
Definition setDate (d date : Z) : Z :=
  let t := LocalTime d in
  UTC (MakeDate (MakeDay (YearFromTime t) (MonthFromTime t) date)
                (TimeWithinDay t)).

(** [d.setHours(hour, min, sec, ms)] *)
Definition setHours4 (d hour min sec ms : Z) : Z :=
  let t := LocalTime d in
  UTC (MakeDate (Day t) (MakeTime hour min sec ms)).

(** [d.setHours(hour)]: the other fields are kept. *)
Definition setHours (d hour : Z) : Z :=
  let t := LocalTime d in
  UTC (MakeDate (Day t)
         (MakeTime hour (MinFromTime t) (SecFromTime t) (msFromTime t))).

(** The local time that a [Date] shows after a set method has asked for
    the local time [t]: [t] itself, unless a transition of the zone
    skips it. *)
Definition readBack (t : Z) : Z := LocalTime (UTC t).
End Zone.

(** A zone without transitions. *)
Definition fixedZone (tza : Z) : Zone := mkZone (fun _ => tza) (fun _ => tza).

(** A zone that is at the offset [daylight] from the instant [spring] to
    the instant [fall] and at the offset [standard] outside (one year of
    a northern zone with daylight saving time).  The local times that
    the change at [spring] skips and those that the change at [fall]
    repeats are read under the offset before the change. *)
Definition dstZone (standard daylight spring fall : Z) : Zone :=
  mkZone
    (fun t => if (spring <=? t) && (t <? fall) then daylight else standard)
    (fun t => if t <? spring + daylight then standard
              else if t <? fall + daylight then daylight
              else standard).

(** The day number of the Saturday that closes the week, Sunday to
    Saturday, of the local time [t]. *)
Definition saturdayOf (t : Z) : Z := Day t - WeekDay t + 6.

(** The zone is regular over the week of the instant [now], for the
    steps of a computation that goes from [now] to the Sunday of its
    week, on to the Saturday, to noon and five hours on: the two changes
    of date do not fall into a skipped stretch that runs over midnight,
    Saturday noon is a local time of the device, and the offset is the
    same at noon and at 17:00 of that Saturday. *)
Definition regularWeek (z : Zone) (now : Z) : bool :=
  let local := LocalTime z now in
  let sunday := local - WeekDay local * msPerDay in
  let saturday := readBack z sunday + 6 * msPerDay in
  let noon := MakeDate (saturdayOf local) (12 * msPerHour) in
  (Day (readBack z sunday) =? Day sunday)
  && (Day (readBack z saturday) =? Day saturday)
  && (readBack z noon =? noon)
  && (offsetOfLocal z (noon + 5 * msPerHour) =? offsetOfLocal z noon).

End JSDate.

(** A string that is meant to hold a timestamp, told apart by what
    [new Date(s)] makes of it: the ISO rendering of a time value
    ([toISOString], or a [timestamptz] column as the data service returns
    it), or any other text, which [Date] cannot parse.  Only the empty
    text is falsy. *)
Inductive DateString : Type :=
  | IsoInstant (ms : Z)
  | OtherText (s : string).

Definition toISOString (d : Z) : DateString := IsoInstant d.

(** [new Date(s).valueOf()]; [None] is [NaN] (an invalid date). *)
Definition parseDate (s : DateString) : option Z :=
  match s with
  | IsoInstant ms => Some ms
  | OtherText _ => None
  end.

Definition truthyDateString (s : DateString) : bool :=
  match s with
  | IsoInstant _ => true
  | OtherText s => negb (String.eqb s EmptyString)
  end.


(* ================================================================== *)
(** * The data model (the types of [lib/supabase])                      *)
(* ================================================================== *)

Inductive Side : Type := HOME | AWAY.
Inductive PickResult : Type := WIN | LOSS | PUSH.
Inductive Role : Type := commish | player.

(** A field typed [number] that is tested for truthiness ([x || 5]):
    the value as JavaScript may find it in the row. *)
Inductive JsNumber : Type :=
  | JsUndefined
  | JsNull
  | JsNum (n : Z).

(** [x || d] on such a field: [undefined], [null] and [0] are falsy. *)
Definition orDefault (x : JsNumber) (d : Z) : Z :=
  match x with
  | JsNum n => if n =? 0 then d else n
  | JsUndefined | JsNull => d
  end.

Module League.
Record t : Type := mk {
  id : string;
  name : string;
  invite_code : string;
  created_by : string;
  pick_limit : JsNumber;
  push_points : Q;
  created_at : DateString;
  role : Role                      (* [LeagueWithRole] *)
}.
End League.

Module Game.
Record t : Type := mk {
  id : string;
  season : Z;
  week : Z;
  home : string;
  away : string;
  kickoff : DateString;
  status : string
}.
End Game.

Module Line.
Record t : Type := mk {
  league_id : string;
  season : Z;
  week : Z;
  game_id : string;
  spread_home : option Q;
  spread_away : option Q;
  source : string;
  snapped_at : DateString
}.
End Line.

Record Pick : Type := mkPick {
  league_id : string;
  user_id : string;
  season : Z;
  week : Z;
  game_id : string;
  side : Side;
  line_value : Q;
  locked : bool;
  unlock_at : option DateString;
  result : option PickResult;
  points : option Q;
  created_at : DateString;
  updated_at : DateString
}.

Record GameWithLine : Type := mkGameWithLine {
  game : Game.t;
  line : Line.t;
  existingPick : option Pick
}.

(* ================================================================== *)
(** * The data service                                                  *)
(* ================================================================== *)

(** One object of the array passed to [upsert] by [submitAllPicks]. *)
Record PickWrite : Type := mkPickWrite {
  w_league_id : string;
  w_user_id : string;
  w_season : Z;
  w_week : Z;
  w_game_id : string;
  w_side : Side;
  w_line_value : Q;
  w_unlock_at : option DateString;
  w_locked : bool
}.

(** A row of [league_slate_lines] with its embedded game
    ([games:game_id (...)], [null] when the game is missing). *)
Record SlateRow : Type := mkSlateRow {
  slate : Line.t;
  games : option Game.t
}.

Record Database : Type := mkDatabase {
  picks_table : list Pick;
  slate_table : list SlateRow
}.

(** Modelled from the spec: the durable [picks] table and its upsert are
    the external data service ([upsertPicks], "keyed by
    (league,user,season,week,game)"; "a pick already durably present for
    the same key is overwritten rather than duplicated").  The request
    names its conflict columns; two rows conflict when they agree on each
    of them. *)
Definition sameColumn (col : string) (w : PickWrite) (row : Pick) : bool :=
  if String.eqb col "league_id" then String.eqb (w_league_id w) (league_id row)
  else if String.eqb col "user_id" then String.eqb (w_user_id w) (user_id row)
  else if String.eqb col "season" then w_season w =? season row
  else if String.eqb col "week" then w_week w =? week row
  else if String.eqb col "game_id" then String.eqb (w_game_id w) (game_id row)
  else false.

Definition conflicts (cols : list string) (w : PickWrite) (row : Pick) : bool :=
  forallb (fun c => sameColumn c w row) cols.

(** Modelled from the spec: on conflict the columns of the request are
    overwritten and the columns it does not carry (the fields "produced
    externally", and the creation time) are kept. *)
Definition overwriteRow (w : PickWrite) (serverNow : Z) (row : Pick) : Pick :=
  {| league_id := w_league_id w;
     user_id := w_user_id w;
     season := w_season w;
     week := w_week w;
     game_id := w_game_id w;
     side := w_side w;
     line_value := w_line_value w;
     locked := w_locked w;
     unlock_at := w_unlock_at w;
     result := result row;
     points := points row;
     created_at := created_at row;
     updated_at := toISOString serverNow |}.

(** Modelled from the spec: a row inserted without conflict. *)
Definition insertedRow (w : PickWrite) (serverNow : Z) : Pick :=
  {| league_id := w_league_id w;
     user_id := w_user_id w;
     season := w_season w;
     week := w_week w;
     game_id := w_game_id w;
     side := w_side w;
     line_value := w_line_value w;
     locked := w_locked w;
     unlock_at := w_unlock_at w;
     result := None;
     points := None;
     created_at := toISOString serverNow;
     updated_at := toISOString serverNow |}.

(** Modelled from the spec: upsert of one row, then of the array in order. *)
Definition upsertRow (cols : list string) (serverNow : Z)
    (table : list Pick) (w : PickWrite) : list Pick :=
  if existsb (conflicts cols w) table
  then map (fun row => if conflicts cols w row
                       then overwriteRow w serverNow row else row) table
  else table ++ [insertedRow w serverNow].

Definition upsertRows (cols : list string) (serverNow : Z)
    (rows : list PickWrite) (table : list Pick) : list Pick :=
  fold_left (upsertRow cols serverNow) rows table.

(** The row carries the columns of the request. *)
Definition carries (w : PickWrite) (row : Pick) : Prop :=
  league_id row = w_league_id w /\ user_id row = w_user_id w
  /\ season row = w_season w /\ week row = w_week w
  /\ game_id row = w_game_id w /\ side row = w_side w
  /\ line_value row = w_line_value w /\ unlock_at row = w_unlock_at w
  /\ locked row = w_locked w.

(** Two picks have the same composite identity: league, user, season,
    week and game. *)
Definition sameKey (p row : Pick) : bool :=
  String.eqb (league_id p) (league_id row)
  && String.eqb (user_id p) (user_id row)
  && (season p =? season row)
  && (week p =? week row)
  && String.eqb (game_id p) (game_id row).

(** The calls a handler makes to the outside, in order. *)
Inductive Request : Type :=
  | ReqGetUser
  | ReqSelectSlate (leagueId : string) (season week : Z)
  | ReqSelectPicks (leagueId userId : string) (season week : Z)
  | ReqUpsertPicks (rows : list PickWrite) (onConflict : list string).

(** [supabase.auth.getUser()]: a user, no user, or a rejected promise. *)
Inductive AuthReply : Type :=
  | AuthUser (id : string)
  | AuthNoUser
  | AuthThrows.

(* ================================================================== *)
(** * LeagueSlateScreen: state                                          *)
(* ================================================================== *)

(** The route parameter and the [useState] cells of the component, as one
    render sees them. *)
Record Screen : Type := mkScreen {
  leagueId : option string;
  league : option League.t;
  gamesWithLines : list GameWithLine;
  picks : list Pick;
  tempPicks : list Pick;
  loading : bool;
  refreshing : bool;
  submitting : bool;
  currentSeason : Z;
  currentWeek : Z
}.

(** The state setters a handler may call. *)
Inductive Update : Type :=
  | SetGamesWithLines (v : list GameWithLine)
  | SetPicks (v : list Pick)
  | SetTempPicks (v : list Pick)
  | SetLoading (v : bool)
  | SetRefreshing (v : bool)
  | SetSubmitting (v : bool).

Definition applyUpdate (s : Screen) (u : Update) : Screen :=
  match u with
  | SetGamesWithLines v =>
      mkScreen (leagueId s) (league s) v (picks s) (tempPicks s)
               (loading s) (refreshing s) (submitting s)
               (currentSeason s) (currentWeek s)
  | SetPicks v =>
      mkScreen (leagueId s) (league s) (gamesWithLines s) v (tempPicks s)
               (loading s) (refreshing s) (submitting s)
               (currentSeason s) (currentWeek s)
  | SetTempPicks v =>
      mkScreen (leagueId s) (league s) (gamesWithLines s) (picks s) v
               (loading s) (refreshing s) (submitting s)
               (currentSeason s) (currentWeek s)
  | SetLoading v =>
      mkScreen (leagueId s) (league s) (gamesWithLines s) (picks s)
               (tempPicks s) v (refreshing s) (submitting s)
               (currentSeason s) (currentWeek s)
  | SetRefreshing v =>
      mkScreen (leagueId s) (league s) (gamesWithLines s) (picks s)
               (tempPicks s) (loading s) v (submitting s)
               (currentSeason s) (currentWeek s)
  | SetSubmitting v =>
      mkScreen (leagueId s) (league s) (gamesWithLines s) (picks s)
               (tempPicks s) (loading s) (refreshing s) v
               (currentSeason s) (currentWeek s)
  end.

Definition applyUpdates (us : list Update) (s : Screen) : Screen :=
  fold_left applyUpdate us s.

(** The initial render: [useState] defaults. *)
Definition initialScreen (leagueId : option string) : Screen :=
  mkScreen leagueId None [] [] [] false false false 2025 1.

(** Values derived in the render (after [renderGame]). *)
Definition submittedPicksCount (r : Screen) : Z := Z.of_nat (List.length (picks r)).
Definition tempPicksCount (r : Screen) : Z := Z.of_nat (List.length (tempPicks r)).
Definition pickLimit (r : Screen) : Z :=
  orDefault (match league r with
             | Some lg => League.pick_limit lg
             | None => JsUndefined
             end) 5.
Definition hasSubmittedPicks (r : Screen) : bool := 0 <? submittedPicksCount r.
Definition canSubmit (r : Screen) : bool := tempPicksCount r =? pickLimit r.

(* ================================================================== *)
(** * LeagueSlateScreen: handlePickSide                                 *)
(* ================================================================== *)

(** What the outside world answers during one call of [handlePickSide]:
    the auth reply, the zone of the device and the three readings of the
    clock ([new Date()] for [currentDate], [created_at], [updated_at]). *)
Record PickEnv : Type := mkPickEnv {
  pe_auth : AuthReply;
  pe_zone : JSDate.Zone;
  pe_now : Z;
  pe_created : Z;
  pe_updated : Z
}.

(** The way a call of [handlePickSide] ends. *)
Inductive SelectResult : Type :=
  | NoLeague                       (* [if (!league) return] *)
  | NoUser                         (* [if (!user) return] *)
  | AlreadySubmitted               (* alert 'Pick Already Submitted' *)
  | LimitReached (limit : Z)       (* alert 'Pick Limit Reached' *)
  | Selected (count limit : Z) (promptSubmit : bool)
                                   (* alert 'Pick Selected', and when
                                      [promptSubmit] the deferred alert
                                      'All Picks Selected!' *)
  | SelectError.                   (* [catch]: alert 'Failed to select pick' *)

Definition isSome {A : Type} (o : option A) : bool :=
  match o with Some _ => true | None => false end.

(** [pick => pick.game_id === gameId] *)
Definition isGame (gameId : string) (pick : Pick) : bool :=
  String.eqb (game_id pick) gameId.

(** "Calculate unlock_at": the four [Date] statements, in order. *)
Definition saturdayUnlock (z : JSDate.Zone) (now : Z) : Z :=
  let currentDate := now in
  let currentWeekStart := currentDate in
  let currentWeekStart :=
    JSDate.setDate z currentWeekStart
      (JSDate.getDate z currentDate - JSDate.getDay z currentDate) in
  let saturdayUnlock := currentWeekStart in
  let saturdayUnlock :=
    JSDate.setDate z saturdayUnlock
      (JSDate.getDate z currentWeekStart + 6) in
  let saturdayUnlock := JSDate.setHours4 z saturdayUnlock 12 0 0 0 in
  JSDate.setHours z saturdayUnlock (JSDate.getHours z saturdayUnlock + 5).

Definition handlePickSide (r : Screen) (e : PickEnv)
    (gameId : string) (side : Side) (lineValue : Q)
  : SelectResult * list Update :=
  match league r with
  | None => (NoLeague, [])
  | Some lg =>
    match pe_auth e with
    | AuthThrows => (SelectError, [])
    | AuthNoUser => (NoUser, [])
    | AuthUser uid =>
      let pickLimit := orDefault (League.pick_limit lg) 5 in
      let existingTempPickForGame :=
        find (isGame gameId) (tempPicks r) in
      let existingSubmittedPick :=
        find (isGame gameId) (picks r) in
      let currentTempPicksCount := Z.of_nat (List.length (tempPicks r)) in
      if isSome existingSubmittedPick then (AlreadySubmitted, [])
      else if negb (isSome existingTempPickForGame)
              && (currentTempPicksCount >=? pickLimit)
      then (LimitReached pickLimit, [])
      else
        let newTempPick :=
          {| league_id := League.id lg;
             user_id := uid;
             season := currentSeason r;
             week := currentWeek r;
             game_id := gameId;
             side := side;
             line_value := lineValue;
             unlock_at := Some (toISOString (saturdayUnlock (pe_zone e) (pe_now e)));
             locked := false;
             result := None;
             points := None;
             created_at := toISOString (pe_created e);
             updated_at := toISOString (pe_updated e) |} in
        let updatedTempPicks :=
          if isSome existingTempPickForGame
          then map (fun p => if isGame gameId p then newTempPick else p)
                   (tempPicks r)
          else tempPicks r ++ [newTempPick] in
        let updatedGames :=
          map (fun gwl => if String.eqb (Game.id (game gwl)) gameId
                          then mkGameWithLine (game gwl) (line gwl)
                                              (Some newTempPick)
                          else gwl) (gamesWithLines r) in
        (Selected (Z.of_nat (List.length updatedTempPicks)) pickLimit
                  (Z.of_nat (List.length updatedTempPicks) =? pickLimit),
         [SetTempPicks updatedTempPicks; SetGamesWithLines updatedGames])
    end
  end.

(** A tap on a game card: the handler of the current render runs and its
    updates are applied to that same state. *)
Definition selectSide (e : PickEnv) (gameId : string) (side : Side)
    (lineValue : Q) (s : Screen) : SelectResult * Screen :=
  let '(res, us) := handlePickSide s e gameId side lineValue in
  (res, applyUpdates us s).

(** One tap of a sequence, with the replies of the world at that tap. *)
Record Tap : Type := mkTap {
  tap_env : PickEnv;
  tap_game : string;
  tap_side : Side;
  tap_value : Q
}.

Definition tap (s : Screen) (t : Tap) : Screen :=
  snd (selectSide (tap_env t) (tap_game t) (tap_side t) (tap_value t) s).

(** A sequence of taps handled one after the other, each on the render
    that shows what the one before has set. *)
Definition taps (ts : list Tap) (s : Screen) : Screen := fold_left tap ts s.

(* ================================================================== *)
(** * LeagueSlateScreen: loadSlateAndPicks and submitAllPicks           *)
(* ================================================================== *)

(** What the world answers during [loadSlateAndPicks]: the auth reply and
    whether each of the two queries comes back with an error. *)
Record LoadEnv : Type := mkLoadEnv {
  le_auth : AuthReply;
  le_slateError : bool;
  le_picksError : bool
}.

Inductive LoadResult : Type :=
  | LoadSkipped                    (* [if (!leagueId) return] *)
  | LoadNoUser                     (* [if (!user) return] *)
  | LoadFailed                     (* [catch]: alert 'Failed to load slate' *)
  | Loaded.

Record LoadOutcome : Type := mkLoadOutcome {
  lo_result : LoadResult;
  lo_updates : list Update;
  lo_requests : list Request
}.

Definition truthyString (s : option string) : option string :=
  match s with
  | Some v => if String.eqb v EmptyString then None else Some v
  | None => None
  end.

Definition loadSlateAndPicks (r : Screen) (e : LoadEnv) (db : Database)
  : LoadOutcome :=
  match truthyString (leagueId r) with
  | None => mkLoadOutcome LoadSkipped [] []
  | Some lid =>
    let finally := [SetLoading false; SetRefreshing false] in
    match le_auth e with
    | AuthThrows =>
        mkLoadOutcome LoadFailed (SetLoading true :: finally) [ReqGetUser]
    | AuthNoUser =>
        mkLoadOutcome LoadNoUser (SetLoading true :: finally) [ReqGetUser]
    | AuthUser uid =>
      let slateReq := ReqSelectSlate lid (currentSeason r) (currentWeek r) in
      let picksReq :=
        ReqSelectPicks lid uid (currentSeason r) (currentWeek r) in
      if le_slateError e
      then mkLoadOutcome LoadFailed (SetLoading true :: finally)
                         [ReqGetUser; slateReq]
      else if le_picksError e
      then mkLoadOutcome LoadFailed (SetLoading true :: finally)
                         [ReqGetUser; slateReq; picksReq]
      else
        let slateData :=
          filter (fun row => String.eqb (Line.league_id (slate row)) lid
                             && (Line.season (slate row) =? currentSeason r)
                             && (Line.week (slate row) =? currentWeek r))
                 (slate_table db) in
        let picksData :=
          filter (fun pick => String.eqb (league_id pick) lid
                              && String.eqb (user_id pick) uid
                              && (season pick =? currentSeason r)
                              && (week pick =? currentWeek r))
                 (picks_table db) in
        let gamesWithLines :=
          flat_map (fun row =>
            match games row with
            | None => []
            | Some g =>
                [mkGameWithLine g (slate row)
                   (find (fun pick => String.eqb (game_id pick)
                                        (Line.game_id (slate row)))
                         picksData)]
            end) slateData in
        mkLoadOutcome Loaded
          ([SetLoading true; SetGamesWithLines gamesWithLines;
            SetPicks picksData; SetTempPicks []] ++ finally)
          [ReqGetUser; slateReq; picksReq]
    end
  end.

(** What the world answers during [submitAllPicks]: the auth reply,
    whether the upsert comes back with an error, the clock of the server,
    and the replies to the reload that follows a success. *)
Record SubmitEnv : Type := mkSubmitEnv {
  se_auth : AuthReply;
  se_upsertError : bool;
  se_serverNow : Z;
  se_load : LoadEnv
}.

Inductive SubmitResult : Type :=
  | SubmitSkipped                  (* [if (!league || tempPicks.length === 0) return] *)
  | SubmitNoUser                   (* [if (!user) return] *)
  | SubmitFailed                   (* [catch]: alert 'Failed to submit picks' *)
  | Submitted (count : Z) (leagueName : string) (reload : LoadResult).
                                   (* alert 'Picks Submitted!' *)

Record SubmitOutcome : Type := mkSubmitOutcome {
  so_result : SubmitResult;
  so_updates : list Update;
  so_requests : list Request;
  so_db : Database
}.

(** The object literal built for each temporary pick. *)
Definition pickWrite (pick : Pick) : PickWrite :=
  {| w_league_id := league_id pick;
     w_user_id := user_id pick;
     w_season := season pick;
     w_week := week pick;
     w_game_id := game_id pick;
     w_side := side pick;
     w_line_value := line_value pick;
     w_unlock_at := unlock_at pick;
     w_locked := false |}.

(** ['league_id,user_id,season,week,game_id'] *)
Definition onConflict : list string :=
  ["league_id"; "user_id"; "season"; "week"; "game_id"]%string.

Definition submitAllPicks (r : Screen) (e : SubmitEnv) (db : Database)
  : SubmitOutcome :=
  match league r with
  | None => mkSubmitOutcome SubmitSkipped [] [] db
  | Some lg =>
    if Z.of_nat (List.length (tempPicks r)) =? 0
    then mkSubmitOutcome SubmitSkipped [] [] db
    else
      match se_auth e with
      | AuthThrows =>
          mkSubmitOutcome SubmitFailed
            [SetSubmitting true; SetSubmitting false] [ReqGetUser] db
      | AuthNoUser =>
          mkSubmitOutcome SubmitNoUser
            [SetSubmitting true; SetSubmitting false] [ReqGetUser] db
      | AuthUser _ =>
        let rows := map pickWrite (tempPicks r) in
        let upsertReq := ReqUpsertPicks rows onConflict in
        if se_upsertError e
        then mkSubmitOutcome SubmitFailed
               [SetSubmitting true; SetSubmitting false]
               [ReqGetUser; upsertReq] db
        else
          let db' :=
            mkDatabase (upsertRows onConflict (se_serverNow e) rows
                                   (picks_table db))
                       (slate_table db) in
          let reload := loadSlateAndPicks r (se_load e) db' in
          mkSubmitOutcome
            (Submitted (Z.of_nat (List.length (tempPicks r))) (League.name lg)
                       (lo_result reload))
            ([SetSubmitting true; SetTempPicks []] ++ lo_updates reload
               ++ [SetSubmitting false])
            ([ReqGetUser; upsertReq] ++ lo_requests reload)
            db'
      end
  end.

(** The screen together with the durable storage behind it. *)
Record World : Type := mkWorld {
  screen : Screen;
  database : Database
}.

(** [submitAllPicks] of render [r] runs while the state is [w]. *)
Definition runSubmit (r : Screen) (e : SubmitEnv) (w : World)
  : SubmitResult * World :=
  let o := submitAllPicks r e (database w) in
  (so_result o, mkWorld (applyUpdates (so_updates o) (screen w)) (so_db o)).

(** The 'Submit N Picks' button of the summary: [onPress={submitAllPicks}]
    of the render on display. *)
Definition pressSubmitButton (e : SubmitEnv) (w : World)
  : SubmitResult * World :=
  runSubmit (screen w) e w.

(** The 'Submit Picks' button of the alert 'All Picks Selected!':
    [onPress: submitAllPicks] inside [handlePickSide], that is the
    [submitAllPicks] of the render [r] in which the tap was handled. *)
Definition pressPromptSubmit (r : Screen) (e : SubmitEnv) (w : World)
  : SubmitResult * World :=
  runSubmit r e w.

(** A tap that fills the session, followed by 'Submit Picks' on the alert
    it raises. *)
Definition tapThenPromptSubmit (t : Tap) (e : SubmitEnv) (w : World)
  : option (SubmitResult * World) :=
  let r := screen w in
  match selectSide (tap_env t) (tap_game t) (tap_side t) (tap_value t) r with
  | (Selected _ _ true, s') =>
      Some (pressPromptSubmit r e (mkWorld s' (database w)))
  | _ => None
  end.

(* ================================================================== *)
(** * MemberPicksScreen: isPickVisible                                  *)
(* ================================================================== *)

(** What the closure of [isPickVisible] holds: the signed-in user
    ([null] until [getCurrentUser] has answered) and the route parameter
    naming the member whose picks are listed. *)
Record MemberPicksScreen : Type := mkMemberPicksScreen {
  currentUserId : option string;
  userId : option string
}.

(** [a === b] for [a : string | null] and [b : string | undefined]. *)
Definition strictEq (a b : option string) : bool :=
  match a, b with
  | Some x, Some y => String.eqb x y
  | _, _ => false
  end.

(** [isPickVisible(pick)] in render [r]; [clock] is what [new Date()]
    reads inside the function. *)
Definition isPickVisible (r : MemberPicksScreen) (clock : Z) (pick : Pick)
  : bool :=
  if strictEq (currentUserId r) (userId r) then true
  else
    match unlock_at pick with
    | None => true
    | Some s =>
        if negb (truthyDateString s) then true
        else
          let now := clock in
          match parseDate s with
          | Some unlockTime => now >=? unlockTime
          | None => false
          end
    end.

(* ================================================================== *)
(** * LeagueSlateScreen: the rest of the screen                         *)
(* ================================================================== *)

(** The object literal [newTempPick] of [handlePickSide], for league
    [lg] and user [uid]. *)
Definition newTempPick (lg : League.t) (uid : string) (r : Screen)
    (e : PickEnv) (gameId : string) (side : Side) (lineValue : Q) : Pick :=
  {| league_id := League.id lg;
     user_id := uid;
     season := currentSeason r;
     week := currentWeek r;
     game_id := gameId;
     side := side;
     line_value := lineValue;
     unlock_at := Some (toISOString (saturdayUnlock (pe_zone e) (pe_now e)));
     locked := false;
     result := None;
     points := None;
     created_at := toISOString (pe_created e);
     updated_at := toISOString (pe_updated e) |}.

(** [loadSlateAndPicks] of render [r], run while the state is [w]. *)
Definition runLoad (r : Screen) (e : LoadEnv) (w : World) : LoadResult * World :=
  let o := loadSlateAndPicks r e (database w) in
  (lo_result o, mkWorld (applyUpdates (lo_updates o) (screen w)) (database w)).

(** Pull to refresh: [setRefreshing(true); loadSlateAndPicks()]. *)
Definition onRefresh (e : LoadEnv) (w : World) : LoadResult * World :=
  let r := screen w in
  runLoad r e (mkWorld (applyUpdates [SetRefreshing true] (screen w)) (database w)).

(** The 'Clear' button of the alert 'Clear Selections':
    [setTempPicks([]); loadSlateAndPicks()]. *)
Definition clearSelections (e : LoadEnv) (w : World) : LoadResult * World :=
  let r := screen w in
  runLoad r e (mkWorld (applyUpdates [SetTempPicks []] (screen w)) (database w)).

(** The week buttons of the header: [setCurrentWeek(Math.max(1,
    currentWeek - 1))] and [setCurrentWeek(Math.min(15, currentWeek + 1))];
    a disabled button does not call its handler. *)
Definition setCurrentWeek (v : Z) (s : Screen) : Screen :=
  mkScreen (leagueId s) (league s) (gamesWithLines s) (picks s) (tempPicks s)
           (loading s) (refreshing s) (submitting s) (currentSeason s) v.

Definition pressPreviousWeek (s : Screen) : Screen :=
  if currentWeek s <=? 1 then s
  else setCurrentWeek (Z.max 1 (currentWeek s - 1)) s.

Definition pressNextWeek (s : Screen) : Screen :=
  if currentWeek s >=? 15 then s
  else setCurrentWeek (Z.min 15 (currentWeek s + 1)) s.

Inductive WeekButton : Type := PreviousWeek | NextWeek.

(** The [onPress] of a week button by itself.  A press that changes the
    week is followed by the effect on [currentWeek], which reloads the
    slate: [changeWeek] below. *)
Definition pressWeekButton (s : Screen) (b : WeekButton) : Screen :=
  match b with
  | PreviousWeek => pressPreviousWeek s
  | NextWeek => pressNextWeek s
  end.

(** "Pick Summary and Submission": what the bottom of the screen shows. *)
Inductive PickSummary : Type :=
  | SubmittedSection (submitted week : Z)
  | SelectionSection
      (selected limit : Z)
      (needMore : option Z)          (* 'Need N more picks to submit' *)
      (submitButton : option bool)   (* shown; the flag is [disabled] *)
      (clearButton : bool).

Definition pickSummary (r : Screen) : PickSummary :=
  if hasSubmittedPicks r
  then SubmittedSection (submittedPicksCount r) (currentWeek r)
  else SelectionSection
         (tempPicksCount r) (pickLimit r)
         (if (0 <? tempPicksCount r) && (tempPicksCount r <? pickLimit r)
          then Some (pickLimit r - tempPicksCount r) else None)
         (if canSubmit r then Some (submitting r) else None)
         ((0 <? tempPicksCount r) && negb (canSubmit r)).

(* ================================================================== *)
(** * GameCard                                                          *)
(* ================================================================== *)

(** The props of a card.  [lines_available] is the optional column of
    the line that the card reads through [(line as any)]; the record of
    the line above does not carry it. *)
Record GameCardProps : Type := mkGameCardProps {
  gameWithLine : GameWithLine;
  lines_available : option bool;
  disabled : bool
}.

(** [kickoffDate <= new Date()]; an invalid date compares false. *)
Definition isGameStarted (clock : Z) (p : GameCardProps) : bool :=
  match parseDate (Game.kickoff (game (gameWithLine p))) with
  | Some kickoffDate => kickoffDate <=? clock
  | None => false
  end.

(** [lines_available !== false && (spread_home !== null || spread_away
    !== null)] *)
Definition linesAvailable (p : GameCardProps) : bool :=
  negb (match lines_available p with Some false => true | _ => false end)
  && (isSome (Line.spread_home (line (gameWithLine p)))
      || isSome (Line.spread_away (line (gameWithLine p)))).

(** The spread of a side on the line of the card. *)
Definition spreadOf (side : Side) (l : Line.t) : option Q :=
  match side with
  | HOME => Line.spread_home l
  | AWAY => Line.spread_away l
  end.

(** [handlePickHome] and [handlePickAway]: the call of [onPickSide] they
    make, if any.  [clock] is the reading taken when the card rendered. *)
Definition handlePick (side : Side) (clock : Z) (p : GameCardProps)
  : option (string * Side * Q) :=
  if negb (disabled p) && negb (isGameStarted clock p) && linesAvailable p
  then match spreadOf side (line (gameWithLine p)) with
       | Some v => Some (Game.id (game (gameWithLine p)), side, v)
       | None => None
       end
  else None.

(** [isGameStarted || existingPick?.locked] *)
Definition isLocked (clock : Z) (p : GameCardProps) : bool :=
  isGameStarted clock p
  || match existingPick (gameWithLine p) with
     | Some pick => locked pick
     | None => false
     end.

(** A press on a team button: [disabled={disabled || isLocked}], then
    the handler. *)
Definition pressTeam (side : Side) (clock : Z) (p : GameCardProps)
  : option (string * Side * Q) :=
  if disabled p || isLocked clock p then None else handlePick side clock p.

(** What a spread pill shows: the signed spread, or the fallback text. *)
Inductive SpreadDisplay : Type :=
  | ShowPlus (v : Q)                 (* [`+${spread}`] *)
  | ShowNumber (v : Q)               (* [spread.toString()] *)
  | ShowFallback (text : string).

(** The weekday of the kickoff as [toLocaleDateString] gives it,
    upper-cased; a card reads it from the platform. *)
Definition getPublishMessage (gameDay : string) (p : GameCardProps)
  : option string :=
  if linesAvailable p then None
  else if String.eqb gameDay "MON" then Some "Lines drop Mon 10 AM ET"%string
  else if String.eqb gameDay "TUE" then Some "Lines drop Tue 10 AM ET"%string
  else if String.eqb gameDay "WED" then Some "Lines drop Wed 10 AM ET"%string
  else Some "Lines drop Thu 10 AM ET"%string.

Definition getSpreadFallback (gameDay : string) (p : GameCardProps) : string :=
  match getPublishMessage gameDay p with
  | None => "N/A"%string
  | Some _ =>
      if String.eqb gameDay "MON" then "Lines Mon 10 AM"%string
      else if String.eqb gameDay "TUE" then "Lines Tue 10 AM"%string
      else if String.eqb gameDay "WED" then "Lines Wed 10 AM"%string
      else "Lines Thu 10 AM"%string
  end.

(** A number is truthy when it is not zero. *)
Definition truthyNumber (v : Q) : bool := negb (Z.eqb (Qnum v) 0).

Definition positiveNumber (v : Q) : bool := 0 <? Qnum v.

(** [homeSpreadDisplay] and [awaySpreadDisplay]. *)
Definition spreadDisplay (side : Side) (gameDay : string) (p : GameCardProps)
  : SpreadDisplay :=
  match spreadOf side (line (gameWithLine p)) with
  | Some v =>
      if truthyNumber v
      then if positiveNumber v then ShowPlus v else ShowNumber v
      else ShowFallback (getSpreadFallback gameDay p)
  | None => ShowFallback (getSpreadFallback gameDay p)
  end.

(** [renderGame]: the props the slate gives the card of [item]. *)
Definition renderGame (r : Screen) (available : option bool)
    (item : GameWithLine) : GameCardProps :=
  mkGameCardProps item available (loading r || isSome (existingPick item)).

(** A press on the team [cp_side] of the card at position [cp_index] of
    the list, with the replies of the world: the reading of the clock at
    the render of the card, the [lines_available] column of its line,
    and what [handlePickSide] is answered. *)
Record CardPress : Type := mkCardPress {
  cp_index : nat;
  cp_side : Side;
  cp_clock : Z;
  cp_lines_available : option bool;
  cp_env : PickEnv
}.

Definition pressCard (s : Screen) (c : CardPress) : Screen :=
  match nth_error (gamesWithLines s) (cp_index c) with
  | None => s
  | Some item =>
      match pressTeam (cp_side c) (cp_clock c)
                      (renderGame s (cp_lines_available c) item) with
      | Some (gameId, side, lineValue) =>
          snd (selectSide (cp_env c) gameId side lineValue s)
      | None => s
      end
  end.

(** Presses handled one after the other: each is made on the render
    that shows what the one before has set. *)
Definition pressCards (cs : list CardPress) (s : Screen) : Screen :=
  fold_left pressCard cs s.

(** A press whose handler finishes late.  The card pressed and the
    [handlePickSide] it calls are those of the render [r] on display at
    the press; the handler awaits the auth service before it sets the
    state, and by then the state is [cur], which other presses may have
    set in between.  What it sets is computed from [r] alone. *)
Definition pressCardOn (r : Screen) (c : CardPress) (cur : Screen) : Screen :=
  match nth_error (gamesWithLines r) (cp_index c) with
  | None => cur
  | Some item =>
      match pressTeam (cp_side c) (cp_clock c)
                      (renderGame r (cp_lines_available c) item) with
      | Some (gameId, side, lineValue) =>
          applyUpdates
            (snd (handlePickSide r (cp_env c) gameId side lineValue)) cur
      | None => cur
      end
  end.

(** A press of a run in which handlers may overlap: [lp_behind] is the
    number of presses that have set the state between the render on
    which this press was made and the moment its own handler sets it
    (0: none, the press is handled on the render on display). *)
Record LatePress : Type := mkLatePress {
  lp_behind : nat;
  lp_press : CardPress
}.

(** The states of the screen during a run, the latest first; a number
    [lp_behind] that goes back beyond the first state is read as 0. *)
Definition latePress (history : list Screen) (p : LatePress) : list Screen :=
  match history with
  | [] => []
  | cur :: _ =>
      pressCardOn (nth (lp_behind p) history cur) (lp_press p) cur :: history
  end.

Definition latePresses (ps : list LatePress) (s : Screen) : list Screen :=
  fold_left latePress ps [s].

(** The cards show the session: a card whose game has a temporary pick
    shows a pick. *)
Definition cardsShowSession (s : Screen) : Prop :=
  forall pick card,
    In pick (tempPicks s) -> In card (gamesWithLines s) ->
    Game.id (game card) = game_id pick ->
    isSome (existingPick card) = true.

(** A temporary pick as [handlePickSide] makes them for league [lg] on
    screen [s]: of that league, season and week, neither locked nor
    graded, with an unlock time. *)
Definition sessionPick (lg : League.t) (s : Screen) (pick : Pick) : Prop :=
  league_id pick = League.id lg
  /\ season pick = currentSeason s /\ week pick = currentWeek s
  /\ locked pick = false /\ result pick = None /\ points pick = None
  /\ exists t, unlock_at pick = Some (IsoInstant t).

(** The rows a load asks the data service for. *)
Definition inScope (lid uid : string) (r : Screen) (pick : Pick) : Prop :=
  league_id pick = lid /\ user_id pick = uid
  /\ season pick = currentSeason r /\ week pick = currentWeek r.

(** The answer of the data service to the picks query of a load. *)
Definition storedPicks (lid uid : string) (r : Screen) (db : Database)
  : list Pick :=
  filter (fun pick => String.eqb (league_id pick) lid
                      && String.eqb (user_id pick) uid
                      && (season pick =? currentSeason r)
                      && (week pick =? currentWeek r))
         (picks_table db).

(** The cards a load builds from the slate rows and the picks. *)
Definition slateCards (lid : string) (r : Screen) (db : Database)
    (picksData : list Pick) : list GameWithLine :=
  flat_map (fun row =>
    match games row with
    | None => []
    | Some g =>
        [mkGameWithLine g (slate row)
           (find (fun pick => String.eqb (game_id pick)
                                (Line.game_id (slate row)))
                 picksData)]
    end)
    (filter (fun row => String.eqb (Line.league_id (slate row)) lid
                        && (Line.season (slate row) =? currentSeason r)
                        && (Line.week (slate row) =? currentWeek r))
            (slate_table db)).

(* ================================================================== *)
(** * MemberPicksScreen: the weeks and their cards                      *)
(* ================================================================== *)

(** A row of the picks query with its embedded game
    ([games:game_id (home, away, kickoff, status)]).  The data service
    answers with every column of the row: a column without value comes
    as [null], so that in [pick] a [None] stands for [null], never for a
    missing key. *)
Module PickWithGame.
Record Games : Type := mkGames {
  home : string;
  away : string;
  kickoff : DateString;
  status : string
}.
Record t : Type := mk {
  pick : Pick;
  games : option Games
}.
End PickWithGame.

Record WeeklyPicks : Type := mkWeeklyPicks {
  wp_week : Z;
  wp_season : Z;
  wp_picks : list PickWithGame.t
}.

(** The key [`${pick.season}-${pick.week}`] of [groupedPicks]: two rows
    have the same key when they have the same season and week (the
    decimal forms of two integers joined by a dash tell the pair). *)
Definition sameWeek (season week : Z) (g : WeeklyPicks) : bool :=
  (wp_season g =? season) && (wp_week g =? week).

(** One turn of the [forEach]: the group of the key is created when
    missing, at the end of the object, and the row is pushed onto it. *)
Fixpoint addToGroups (row : PickWithGame.t) (groups : list WeeklyPicks)
  : list WeeklyPicks :=
  match groups with
  | [] => [mkWeeklyPicks (week (PickWithGame.pick row))
                         (season (PickWithGame.pick row)) [row]]
  | g :: rest =>
      if sameWeek (season (PickWithGame.pick row))
                  (week (PickWithGame.pick row)) g
      then mkWeeklyPicks (wp_week g) (wp_season g) (wp_picks g ++ [row]) :: rest
      else g :: addToGroups row rest
  end.

(** [Object.values(groupedPicks)] after the [forEach]: the groups in the
    order of their creation. *)
Definition groupedPicks (data : list PickWithGame.t) : list WeeklyPicks :=
  fold_left (fun groups row => addToGroups row groups) data [].

(** The comparator of the sort: most recent first. *)
Definition compareWeeks (a b : WeeklyPicks) : Z :=
  if negb (wp_season a =? wp_season b)
  then wp_season b - wp_season a
  else wp_week b - wp_week a.

(** [Array.prototype.sort] is stable; under a comparator that orders its
    arguments consistently every stable sort gives the same array, and
    insertion is the one written here. *)
Fixpoint insertWeek (x : WeeklyPicks) (l : list WeeklyPicks) : list WeeklyPicks :=
  match l with
  | [] => [x]
  | y :: rest =>
      if compareWeeks x y <=? 0 then x :: y :: rest
      else y :: insertWeek x rest
  end.

Fixpoint sortWeeks (l : list WeeklyPicks) : list WeeklyPicks :=
  match l with
  | [] => []
  | x :: rest => insertWeek x (sortWeeks rest)
  end.

(** What [fetchMemberPicks] (and [fetchPicks] of the 'My Picks' tab)
    passes to [setWeeklyPicks] for the rows [data]. *)
Definition weeklyPicksArray (data : list PickWithGame.t) : list WeeklyPicks :=
  sortWeeks (groupedPicks data).

(** [a] comes before [b]: a later season, or the season of [b] and a
    later week. *)
Definition moreRecent (a b : WeeklyPicks) : Prop :=
  wp_season b < wp_season a
  \/ (wp_season a = wp_season b /\ wp_week b < wp_week a).

Definition inWeek (g : WeeklyPicks) (row : PickWithGame.t) : bool :=
  (season (PickWithGame.pick row) =? wp_season g)
  && (week (PickWithGame.pick row) =? wp_week g).

(** The badge of a pick card. *)
Inductive Icon : Type := Padlock | CheckMark | CrossMark | MinusSign | Hourglass.

Record Badge : Type := mkBadge {
  badgeColor : string;
  badgeIcon : Icon;
  badgeText : string
}.

Definition resultText (r : PickResult) : string :=
  match r with
  | WIN => "WIN"
  | LOSS => "LOSS"
  | PUSH => "PUSH"
  end.

Definition getStatusColor (visible : bool) (item : PickWithGame.t) : string :=
  if negb visible then "#6c757d"
  else match result (PickWithGame.pick item) with
       | Some WIN => "#28a745"
       | Some LOSS => "#dc3545"
       | Some PUSH => "#ffc107"
       | None => if locked (PickWithGame.pick item) then "#6c757d" else "#007bff"
       end.

Definition getStatusText (visible : bool) (item : PickWithGame.t) : string :=
  if negb visible then "LOCKED"
  else match result (PickWithGame.pick item) with
       | Some r => resultText r
       | None => if locked (PickWithGame.pick item) then "LOCKED" else "PENDING"
       end.

Definition getStatusIcon (visible : bool) (item : PickWithGame.t) : Icon :=
  if negb visible then Padlock
  else match result (PickWithGame.pick item) with
       | Some WIN => CheckMark
       | Some LOSS => CrossMark
       | Some PUSH => MinusSign
       | None => if locked (PickWithGame.pick item) then Padlock else Hourglass
       end.

(** The lower part of a pick card: the pick, or the notice that it is
    hidden with its unlock time. *)
Inductive PickDetails : Type :=
  | Picked (side : Side) (plusSign : bool) (lineValue : Q)
           (pointsLine : string * bool * option Q)
                                   (* colour, '+', and the number *)
           (pendingText : option string)
  | PickHidden (unlocks : option DateString).

Record PickCard : Type := mkPickCard {
  cardAway : option string;
  cardHome : option string;
  cardBadge : Badge;
  cardDetails : PickDetails
}.

(** [renderPick]; [clock] is the reading [isPickVisible] takes.  The
    line 'Points:' is drawn under [item.points !== undefined], which
    holds of every row of the query, also of a row whose points are
    [null]: that line is red ([null > 0] is false) and shows no number. *)
Definition renderPick (r : MemberPicksScreen) (clock : Z)
    (item : PickWithGame.t) : PickCard :=
  let visible := isPickVisible r clock (PickWithGame.pick item) in
  let p := PickWithGame.pick item in
  mkPickCard
    (option_map PickWithGame.away (PickWithGame.games item))
    (option_map PickWithGame.home (PickWithGame.games item))
    (mkBadge (getStatusColor visible item) (getStatusIcon visible item)
             (getStatusText visible item))
    (if visible
     then Picked (side p) (positiveNumber (line_value p)) (line_value p)
            (match points p with
             | Some pts =>
                 (if positiveNumber pts then "#28a745"%string
                  else "#dc3545"%string,
                  positiveNumber pts, Some pts)
             | None => ("#dc3545"%string, false, None)
             end)
            (match result p with
             | Some _ => None
             | None => Some (if locked p then "Waiting for game result"%string
                             else "Pick submitted"%string)
             end)
     else PickHidden (match unlock_at p with
                      | Some s => if truthyDateString s then Some s else None
                      | None => None
                      end)).

(** The readings of the clock during one pass over a week: [clock k] is
    the [k]-th one. *)
Fixpoint filterVisible (r : MemberPicksScreen) (clock : nat -> Z) (k : nat)
    (l : list PickWithGame.t) : list PickWithGame.t :=
  match l with
  | [] => []
  | item :: rest =>
      if isPickVisible r (clock k) (PickWithGame.pick item)
      then item :: filterVisible r clock (S k) rest
      else filterVisible r clock (S k) rest
  end.

Fixpoint renderPicks (r : MemberPicksScreen) (clock : nat -> Z) (k : nat)
    (l : list PickWithGame.t) : list PickCard :=
  match l with
  | [] => []
  | item :: rest => renderPick r (clock k) item :: renderPicks r clock (S k) rest
  end.

Definition hasResult (res : PickResult) (item : PickWithGame.t) : bool :=
  match result (PickWithGame.pick item), res with
  | Some WIN, WIN | Some LOSS, LOSS | Some PUSH, PUSH => true
  | _, _ => false
  end.

Definition noResult (item : PickWithGame.t) : bool :=
  negb (isSome (result (PickWithGame.pick item))).

Record WeekSection : Type := mkWeekSection {
  weekWins : nat;
  weekLosses : nat;
  weekPushes : nat;
  weekPending : nat;
  lockedCount : nat;
  weekCards : list PickCard
}.

(** [renderWeekSection]: the filter takes the first readings of the
    pass, one for each pick, and the cards the readings after them. *)
Definition renderWeekSection (r : MemberPicksScreen) (clock : nat -> Z)
    (item : WeeklyPicks) : WeekSection :=
  let visiblePicks := filterVisible r clock 0 (wp_picks item) in
  mkWeekSection
    (List.length (filter (hasResult WIN) visiblePicks))
    (List.length (filter (hasResult LOSS) visiblePicks))
    (List.length (filter (hasResult PUSH) visiblePicks))
    (List.length (filter noResult visiblePicks))
    (List.length (wp_picks item) - List.length visiblePicks)
    (renderPicks r clock (List.length (wp_picks item)) (wp_picks item)).

(** The pick is hidden at every reading of the pass. *)
Definition neverVisible (r : MemberPicksScreen) (clock : nat -> Z)
    (item : PickWithGame.t) : Prop :=
  forall k, isPickVisible r (clock k) (PickWithGame.pick item) = false.

Definition isPicked (d : PickDetails) : bool :=
  match d with
  | Picked _ _ _ _ _ => true
  | PickHidden _ => false
  end.

Definition weekKey (g : WeeklyPicks) : Z * Z := (wp_season g, wp_week g).

(** The groups hold the rows [data], week by week. *)
Definition groupsOf (data : list PickWithGame.t) (groups : list WeeklyPicks)
  : Prop :=
  NoDup (map weekKey groups)
  /\ (forall g, In g groups ->
        wp_picks g = filter (inWeek g) data /\ wp_picks g <> [])
  /\ (forall row, In row data ->
        exists g, In g groups /\ inWeek g row = true).

(** The comparator puts [a] before [b], or ranks them alike. *)
Definition notAfter (a b : WeeklyPicks) : Prop := compareWeeks a b <= 0.


(* ================================================================== *)
(** * LeagueSlateScreen: loadLeague and the effect                      *)
(* ================================================================== *)

(** What the world answers during [loadLeague]: the auth reply, whether
    the membership query comes back with an error, and the row, with its
    role and its embedded league ([null] when missing). *)
Record LeagueEnv : Type := mkLeagueEnv {
  ge_auth : AuthReply;
  ge_error : bool;
  ge_role : Role;
  ge_leagues : option League.t
}.

Definition setLeague (v : option League.t) (s : Screen) : Screen :=
  mkScreen (leagueId s) v (gamesWithLines s) (picks s) (tempPicks s)
           (loading s) (refreshing s) (submitting s)
           (currentSeason s) (currentWeek s).

(** [{ ...memberData.leagues, role: memberData.role }] *)
Definition withRole (lg : League.t) (role : Role) : League.t :=
  League.mk (League.id lg) (League.name lg) (League.invite_code lg)
            (League.created_by lg) (League.pick_limit lg)
            (League.push_points lg) (League.created_at lg) role.

Definition loadLeague (e : LeagueEnv) (s : Screen) : Screen :=
  match ge_auth e with
  | AuthUser _ =>
      if ge_error e then s
      else match ge_leagues e with
           | Some lg => setLeague (Some (withRole lg (ge_role e))) s
           | None => s
           end
  | AuthNoUser | AuthThrows => s
  end.

(** The effect on [leagueId] and [currentWeek]: both loads of the render
    [screen w], when the route has a league. *)
Definition slateEffect (ge : LeagueEnv) (le : LoadEnv) (w : World) : World :=
  let r := screen w in
  match truthyString (leagueId r) with
  | None => w
  | Some _ =>
      snd (runLoad r le (mkWorld (loadLeague ge (screen w)) (database w)))
  end.

(** A press on a week button, and the effect when the week has changed. *)
Definition changeWeek (b : WeekButton) (ge : LeagueEnv) (le : LoadEnv)
    (w : World) : World :=
  let s' := pressWeekButton (screen w) b in
  if currentWeek s' =? currentWeek (screen w)
  then mkWorld s' (database w)
  else slateEffect ge le (mkWorld s' (database w)).

(** What sets the state of the slate, one at a time: a press on a week
    button, the setters of a load or of a handler, and the league that
    [loadLeague] sets.  Loads that overlap set the state in any order;
    none of them sets the week. *)
Inductive ScreenEvent : Type :=
  | WeekPressed (b : WeekButton)
  | StateSet (us : list Update)
  | LeagueSet (v : option League.t).

Definition screenEvent (s : Screen) (ev : ScreenEvent) : Screen :=
  match ev with
  | WeekPressed b => pressWeekButton s b
  | StateSet us => applyUpdates us s
  | LeagueSet v => setLeague v s
  end.

Definition isWeekPressed (ev : ScreenEvent) : bool :=
  match ev with WeekPressed _ => true | _ => false end.

(* ================================================================== *)
(** * LeagueStandingsScreen: from a row to a member's picks             *)
(* ================================================================== *)

(** Where a press on a row of the standings leads. *)
Inductive MemberClick : Type :=
  | ClickIgnored                   (* [if (!leagueId) return], or the
                                      promise of [getUser] rejected *)
  | GoToMyPicks (leagueId : string)
  | AskToViewPicks (userId userName leagueId : string).
                                   (* the alert; 'View Picks' opens
                                      [/member-picks/${userId}] *)

Definition handleMemberClick (leagueId : option string) (auth : AuthReply)
    (userId userName : string) : MemberClick :=
  match truthyString leagueId with
  | None => ClickIgnored
  | Some lid =>
      match auth with
      | AuthThrows => ClickIgnored
      | AuthUser id =>
          if String.eqb userId id then GoToMyPicks lid
          else AskToViewPicks userId userName lid
      | AuthNoUser => AskToViewPicks userId userName lid
      end
  end.

(** [getCurrentUser] of the member screen: [user?.id || null]. *)
Definition getCurrentUser (auth : AuthReply) : option string :=
  match auth with
  | AuthUser id => truthyString (Some id)
  | AuthNoUser | AuthThrows => None
  end.

(** The member screen that 'View Picks' opens, once [getCurrentUser]
    has answered. *)
Definition memberScreenOf (click : MemberClick) (auth : AuthReply)
  : option MemberPicksScreen :=
  match click with
  | AskToViewPicks userId _ _ =>
      Some (mkMemberPicksScreen (getCurrentUser auth) (Some userId))
  | ClickIgnored | GoToMyPicks _ => None
  end.

(* ================================================================== *)
(** * HomeScreen: the countdown                                         *)
(* ================================================================== *)

(** The text of [formatTimeUntil]. *)
Inductive TimeLabel : Type :=
  | GameTime                       (* 'Game time!' *)
  | DaysHours (days hours : Z)     (* [`${days}d ${hours}h`] *)
  | HoursMinutes (hours minutes : Z)
  | Minutes (minutes : Z)
  | MinutesNaN.                    (* an invalid date: ['NaNm'] *)

(** [formatTimeUntil(date)]; [date] is the time value of the argument,
    [None] for an invalid date, and [clock] the reading of [new Date()]. *)
Definition formatTimeUntil (clock : Z) (date : option Z) : TimeLabel :=
  match date with
  | None => MinutesNaN
  | Some t =>
      let diff := t - clock in
      if diff <=? 0 then GameTime
      else
        let days := diff / (1000 * 60 * 60 * 24) in
        let hours := Z.rem diff (1000 * 60 * 60 * 24) / (1000 * 60 * 60) in
        let minutes := Z.rem diff (1000 * 60 * 60) / (1000 * 60) in
        if 0 <? days then DaysHours days hours
        else if 0 <? hours then HoursMinutes hours minutes
        else Minutes minutes
  end.

(* ================================================================== *)
(** * A league of three games, for the examples                         *)
(* ================================================================== *)

Definition demoLeague (limit : JsNumber) : League.t :=
  League.mk "lg1" "Friends" "ABC123" "u0" limit (1 # 2)%Q
            (IsoInstant 1756598400000) player.

Definition demoGame (id : string) : GameWithLine :=
  mkGameWithLine
    (Game.mk id 2025 1 "Home U" "Away U" (IsoInstant 1757188800000) "scheduled")
    (Line.mk "lg1" 2025 1 id (Some (-3 # 1)%Q) (Some (3 # 1)%Q) "consensus"
             (IsoInstant 1756598400000))
    None.

Definition demoScreen (limit : JsNumber) : Screen :=
  mkScreen (Some "lg1"%string) (Some (demoLeague limit))
           [demoGame "g1"; demoGame "g2"; demoGame "g3"] [] []
           false false false 2025 1.

(** New York in 2026: UTC-5, and UTC-4 from 2026-03-08T07:00Z to
    2026-11-01T06:00Z. *)
Definition easternZone2026 : JSDate.Zone :=
  JSDate.dstZone (-5 * 3600000) (-4 * 3600000) 1772953200000 1793512800000.

(** Tuesday 2025-09-02 15:00Z, on a device at UTC-4, signed in as [u1]. *)
Definition demoPickEnv : PickEnv :=
  mkPickEnv (AuthUser "u1") (JSDate.fixedZone (-4 * 3600000))
            1756825200000 1756825200001 1756825200001.


Definition demoTap (gameId : string) (side : Side) (value : Q) : Tap :=
  mkTap demoPickEnv gameId side value.

Definition demoLoadEnv : LoadEnv := mkLoadEnv (AuthUser "u1") false false.

Definition demoSubmitEnv (upsertError : bool) : SubmitEnv :=
  mkSubmitEnv (AuthUser "u1") upsertError 1756825260000 demoLoadEnv.

Definition demoDatabase : Database :=
  mkDatabase []
    (map (fun g => mkSlateRow (line g) (Some (game g)))
         [demoGame "g1"; demoGame "g2"; demoGame "g3"]).

(** A pick as the data service returns it for member [owner]. *)
Definition demoPick (owner : string) (unlock : option DateString) : Pick :=
  mkPick "lg1" owner 2025 1 "g1" HOME (-3 # 1)%Q false unlock None None
         (IsoInstant 1756825200001) (IsoInstant 1756825200001).

(** The session of a league of limit 3 after two taps, over an empty
    storage; the third tap fills it. *)
Definition demoTwoPicked : World :=
  mkWorld (taps [demoTap "g1" HOME (-3 # 1)%Q; demoTap "g2" AWAY (3 # 1)%Q]
                (demoScreen (JsNum 3)))
          demoDatabase.

Definition demoThirdTap : Tap := demoTap "g3" HOME (7 # 2)%Q.

(** The session once the third tap has filled it, over the empty
    storage. *)
Definition demoFilled : World :=
  mkWorld (tap (screen demoTwoPicked) demoThirdTap) (database demoTwoPicked).

(** A submit whose upsert succeeds and whose reload then fails on the
    slate query. *)
Definition demoReloadFails : SubmitEnv :=
  mkSubmitEnv (AuthUser "u1") false 1756825260000
              (mkLoadEnv (AuthUser "u1") true false).

(** The world of [demoPickEnv] with nobody signed in. *)
Definition demoSignedOutEnv : PickEnv :=
  mkPickEnv AuthNoUser (JSDate.fixedZone (-4 * 3600000))
            1756825200000 1756825200001 1756825200001.

(** The slate of a member whose pick for g1 is in storage. *)
Definition demoSubmittedScreen : Screen :=
  applyUpdates
    [SetPicks [demoPick "u1" (Some (IsoInstant 1757192400000))]]
    (demoScreen (JsNum 3)).

(** Member [u1]'s picks on the screen of [viewer]. *)
Definition demoMemberScreen (viewer : option string) : MemberPicksScreen :=
  mkMemberPicksScreen viewer (Some "u1"%string).

(** A storage that already holds, for member [u1], a locked and graded
    pick of the away side for g1, and a pick of member [u2] for the same
    game. *)
Definition demoPriorDatabase : Database :=
  mkDatabase
    [mkPick "lg1" "u1" 2025 1 "g1" AWAY (3 # 1)%Q true
            (Some (IsoInstant 1756587600000)) (Some WIN) (Some (1 # 1)%Q)
            (IsoInstant 1756500000000) (IsoInstant 1756500000000);
     mkPick "lg1" "u2" 2025 1 "g1" AWAY (3 # 1)%Q true
            (Some (IsoInstant 1756587600000)) None None
            (IsoInstant 1756500000000) (IsoInstant 1756500000000)]
    (slate_table demoDatabase).

(** The storage once member [u1] has submitted a pick for g1. *)
Definition demoStoredDatabase : Database :=
  mkDatabase [demoPick "u1" (Some (IsoInstant 1757192400000))]
             (slate_table demoDatabase).

(** A press on a side of the card at position [i], on Tuesday
    2025-09-02 15:00Z, the line carrying no [lines_available] column. *)
Definition demoCardPress (i : nat) (side : Side) : CardPress :=
  mkCardPress i side 1756825200000 None demoPickEnv.

Definition demoLeagueEnv : LeagueEnv :=
  mkLeagueEnv (AuthUser "u1") false player (Some (demoLeague (JsNum 3))).

(** A row of member [u1] for a game of a season and week, graded or not,
    with the unlock time of Saturday 2025-09-06 17:00 at UTC-4. *)
Definition demoRow (season week : Z) (gameId : string)
    (res : option PickResult) : PickWithGame.t :=
  PickWithGame.mk
    (mkPick "lg1" "u1" season week gameId HOME (-3 # 1)%Q true
            (Some (IsoInstant 1757192400000)) res None
            (IsoInstant 1756825200001) (IsoInstant 1756825200001))
    (Some (PickWithGame.mkGames "Home U" "Away U"
             (IsoInstant 1757188800000) "final")).

Definition demoRows : list PickWithGame.t :=
  [demoRow 2025 1 "g1" (Some WIN); demoRow 2025 2 "g4" None;
   demoRow 2024 15 "g9" (Some LOSS); demoRow 2025 1 "g2" (Some PUSH);
   demoRow 2025 2 "g5" None].

Definition demoWeek : WeeklyPicks :=
  mkWeeklyPicks 1 2025
    [demoRow 2025 1 "g1" (Some WIN); demoRow 2025 1 "g2" (Some PUSH)].

(** A clock that advances by one millisecond at each reading, from
    Saturday 2025-09-06 20:59:59.999Z: the unlock time falls on the
    second reading. *)
Definition demoClock (k : nat) : Z := 1757192399999 + Z.of_nat k.

(** A card of the slate whose home line is a pick'em. *)
Definition demoPickEmCard : GameCardProps :=
  mkGameCardProps
    (mkGameWithLine
       (Game.mk "g7" 2025 1 "Home U" "Away U" (IsoInstant 1757188800000)
                "scheduled")
       (Line.mk "lg1" 2025 1 "g7" (Some (0 # 1)%Q) (Some (0 # 1)%Q)
                "consensus" (IsoInstant 1756598400000))
       None)
    (Some true) false.

(* ================================================================== *)
(** * The platform model on known dates                                 *)
(* ================================================================== *)

Example date_2025_09_02 :
  let t := 1756825200000 in
  (JSDate.YearFromTime t, JSDate.MonthFromTime t, JSDate.DateFromTime t,
   JSDate.WeekDay t, JSDate.HourFromTime t) = (2025, 8, 2, 2, 15).
Proof. vm_compute. reflexivity. Qed.

Example date_2024_02_29 :
  let t := 1709251199000 in
  (JSDate.YearFromTime t, JSDate.MonthFromTime t, JSDate.DateFromTime t,
   JSDate.WeekDay t, JSDate.HourFromTime t, JSDate.MinFromTime t,
   JSDate.SecFromTime t) = (2024, 1, 29, 4, 23, 59, 59).
Proof. vm_compute. reflexivity. Qed.

Example date_1969_12_31 :
  let t := -3600000 in
  (JSDate.YearFromTime t, JSDate.MonthFromTime t, JSDate.DateFromTime t,
   JSDate.WeekDay t, JSDate.HourFromTime t) = (1969, 11, 31, 3, 23).
Proof. vm_compute. reflexivity. Qed.

Example date_rollover :
  JSDate.setDate (JSDate.fixedZone 0) 1735646400000 (31 + 1) = 1735732800000
  /\ JSDate.setDate (JSDate.fixedZone 0) 1735689600000 (1 - 3)
     = 1735689600000 - 3 * 86400000.
Proof. vm_compute. split; reflexivity. Qed.

(** Tuesday 2025-09-02 15:00Z on a device at UTC-4 (US Eastern, summer):
    the unlock time is Saturday 2025-09-06 17:00 local, 21:00Z. *)
Example saturdayUnlock_2025_09_02 :
  saturdayUnlock (JSDate.fixedZone (-4 * 3600000)) 1756825200000
  = 1757178000000 + 4 * 3600000.
Proof. vm_compute. reflexivity. Qed.

(** The zone of New York in 2026: at 2026-03-08T07:00Z the clocks go
    from 02:00 to 03:00, at 2026-11-01T06:00Z from 02:00 back to 01:00.
    02:30 of the first night is skipped and read back as 03:30; 01:30 of
    the second comes twice and is read as the first of the two. *)
Example easternZone2026_transitions :
  let z := easternZone2026 in
  JSDate.LocalTime z (1772953200000 - 1) = 1772953200000 - 1 - 5 * 3600000
  /\ JSDate.LocalTime z 1772953200000 = 1772953200000 - 4 * 3600000
  /\ JSDate.readBack z (1772928000000 + 2 * 3600000 + 1800000)
     = 1772928000000 + 3 * 3600000 + 1800000
  /\ JSDate.UTC z (1793491200000 + 3600000 + 1800000)
     = 1793491200000 + 5 * 3600000 + 1800000
  /\ JSDate.readBack z (1793491200000 + 3600000 + 1800000)
     = 1793491200000 + 3600000 + 1800000.
Proof. vm_compute. repeat split; reflexivity. Qed.

(** The week in which the clocks go forward.  A call on Sunday
    2026-03-08 at 00:30 local (05:30Z, still at UTC-5) gets Saturday
    2026-03-14 17:00 local, which is 21:00Z at UTC-4: one hour less than
    the offset of the call would give. *)
Example saturdayUnlock_2026_03_08 :
  saturdayUnlock easternZone2026 1772947800000 = 1773522000000
  /\ saturdayUnlock (JSDate.fixedZone (-5 * 3600000)) 1772947800000
     = 1773522000000 + 3600000
  /\ JSDate.regularWeek easternZone2026 1772947800000 = true.
Proof. vm_compute. repeat split; reflexivity. Qed.

(** The week in which the clocks go back.  A call on Sunday 2026-11-01
    at 00:30 local (04:30Z, still at UTC-4) gets Saturday 2026-11-07
    17:00 local, which is 22:00Z at UTC-5: 6 days, 17 hours and 30
    minutes after the call. *)
Example saturdayUnlock_2026_11_01 :
  saturdayUnlock easternZone2026 1793507400000 = 1794088800000
  /\ 1794088800000 - 1793507400000
     = 6 * 86400000 + 17 * 3600000 + 30 * 60000.
Proof. vm_compute. split; reflexivity. Qed.

(** A call in the hour that the clocks skip is not possible, but the
    computation can ask for it: on Saturday 2026-03-14 at 02:30 local
    the Sunday of the week at 02:30 does not exist and is read back as
    03:30; the Saturday is found all the same. *)
Example saturdayUnlock_2026_03_14 :
  saturdayUnlock easternZone2026 1773469800000 = 1773522000000
  /\ JSDate.regularWeek easternZone2026 1773469800000 = true.
Proof. vm_compute. split; reflexivity. Qed.

(* ================================================================== *)
(** * Time values: arithmetic                                           *)
(* ================================================================== *)

Section DateFacts.
Import JSDate.
Variable z : Zone.

Lemma MonthFromTime_range (t : Z) : 0 <= MonthFromTime t <= 11.
Proof.
  unfold MonthFromTime.
  repeat match goal with
         | |- context [if ?c then _ else _] => destruct c
         end; lia.
Qed.

(** [YearFromTime] is the year of the day: the largest [y] whose first
    day is not after it. *)
Lemma YearFromTime_spec (t : Z) :
  DayFromYear (YearFromTime t) <= Day t < DayFromYear (YearFromTime t + 1).
Proof.
  unfold YearFromTime.
  set (d := Day t).
  set (y := 1970 + d * 400 / 146097).
  assert (Hlo : DayFromYear (y - 1) <= d).
  { unfold DayFromYear, y. Z.div_mod_to_equations. lia. }
  assert (Hhi : d < DayFromYear (y + 2)).
  { unfold DayFromYear, y. Z.div_mod_to_equations. lia. }
  destruct (DayFromYear (y + 1) <=? d) eqn:H1.
  - apply Z.leb_le in H1. replace (y + 1 + 1) with (y + 2) by lia. lia.
  - apply Z.leb_gt in H1.
    destruct (DayFromYear y <=? d) eqn:H0.
    + apply Z.leb_le in H0. lia.
    + apply Z.leb_gt in H0. replace (y - 1 + 1) with y by lia. lia.
Qed.

(** A year has 366 days when it is leap and 365 otherwise, and the day
    within the year lies in that range. *)
Lemma DayWithinYear_range (t : Z) :
  0 <= DayWithinYear t < if InLeapYear t then 366 else 365.
Proof.
  pose proof (YearFromTime_spec t) as H.
  unfold DayWithinYear, InLeapYear, isLeapYear.
  set (y := YearFromTime t) in *.
  assert (Hlen : DayFromYear (y + 1) - DayFromYear y
                 = if (y mod 4 =? 0) && (negb (y mod 100 =? 0) || (y mod 400 =? 0))
                   then 366 else 365).
  { unfold DayFromYear. clear H.
    destruct (Z.eqb_spec (y mod 4) 0) as [H4 | H4];
      destruct (Z.eqb_spec (y mod 100) 0) as [H100 | H100];
      destruct (Z.eqb_spec (y mod 400) 0) as [H400 | H400]; cbn [andb orb negb];
      clearbody y; clear t; Z.div_mod_to_equations; lia. }
  destruct ((y mod 4 =? 0) && (negb (y mod 100 =? 0) || (y mod 400 =? 0))); lia.
Qed.

(** Asking for a date [k] days off the current one asks for the local
    time [k] whole days off, across the ends of months and years. *)
Lemma setDate_getDate_plus (d k : Z) :
  setDate z d (getDate z d + k) = UTC z (LocalTime z d + k * msPerDay).
Proof.
  unfold setDate, getDate, MakeDate, MakeDay, DateFromTime,
    DayWithinYear, InLeapYear.
  set (t := LocalTime z d).
  pose proof (MonthFromTime_range t) as Hm.
  rewrite (Z.div_small (MonthFromTime t) 12) by lia.
  rewrite (Z.mod_small (MonthFromTime t) 12) by lia.
  rewrite Z.add_0_r.
  unfold TimeWithinDay, Day.
  pose proof (Z.div_mod t msPerDay ltac:(unfold msPerDay; lia)) as Hdm.
  f_equal. unfold msPerDay in *. lia.
Qed.

(** A time value is made of its day, hour, minute, second and
    millisecond. *)
Lemma MakeDate_fields (t : Z) :
  MakeDate (Day t)
    (MakeTime (HourFromTime t) (MinFromTime t) (SecFromTime t) (msFromTime t))
  = t.
Proof.
  unfold MakeDate, MakeTime, Day, HourFromTime, MinFromTime, SecFromTime,
    msFromTime, msPerDay, msPerHour, msPerMinute, msPerSecond.
  Z.div_mod_to_equations. lia.
Qed.

(** Asking for the hour [k] hours off the current one asks for the
    local time [k] hours off. *)
Lemma setHours_getHours_plus (d k : Z) :
  setHours z d (getHours z d + k) = UTC z (LocalTime z d + k * msPerHour).
Proof.
  unfold setHours, getHours.
  set (t := LocalTime z d).
  pose proof (MakeDate_fields t) as H.
  f_equal. unfold MakeDate, MakeTime in *. lia.
Qed.



Lemma WeekDay_range (t : Z) : 0 <= WeekDay t <= 6.
Proof.
  unfold WeekDay. pose proof (Z.mod_pos_bound (Day t + 4) 7). lia.
Qed.

Lemma Day_plus_days (t k : Z) : Day (t + k * msPerDay) = Day t + k.
Proof.
  unfold Day. apply Z.div_add. unfold msPerDay. lia.
Qed.


(** The four statements of "Calculate unlock_at", step by step: the
    local times that the set methods ask for, each read back through the
    zone before the next step. *)
Lemma saturdayUnlock_steps (now : Z) :
  let local := LocalTime z now in
  let sunday := local - WeekDay local * msPerDay in
  let saturday := readBack z sunday + 6 * msPerDay in
  let noon := MakeDate (Day (readBack z saturday)) (12 * msPerHour) in
  saturdayUnlock z now = UTC z (readBack z noon + 5 * msPerHour).
Proof.
  intros local sunday saturday noon.
  unfold saturdayUnlock.
  replace (getDate z now - getDay z now)
    with (getDate z now + - getDay z now) by lia.
  rewrite setDate_getDate_plus.
  rewrite setDate_getDate_plus.
  rewrite setHours_getHours_plus.
  unfold setHours4.
  replace (LocalTime z now + - getDay z now * msPerDay) with sunday
    by (unfold sunday, local, getDay; lia).
  fold (readBack z sunday). fold saturday. fold (readBack z saturday).
  replace (MakeTime 12 0 0 0) with (12 * msPerHour)
    by (unfold MakeTime; lia).
  fold noon. reflexivity.
Qed.

(** In a week over which the zone is regular the unlock time is the
    instant at which the device shows 17:00 of the Saturday of the week,
    five hours after the instant at which it shows noon. *)
Lemma saturdayUnlock_closed (now : Z) :
  regularWeek z now = true ->
  let noon := MakeDate (saturdayOf (LocalTime z now)) (12 * msPerHour) in
  saturdayUnlock z now = UTC z (noon + 5 * msPerHour)
  /\ saturdayUnlock z now = UTC z noon + 5 * msPerHour
  /\ LocalTime z (saturdayUnlock z now - 5 * msPerHour) = noon.
Proof.
  intros Hreg noon.
  unfold regularWeek in Hreg.
  apply andb_prop in Hreg. destruct Hreg as [Hreg Hoff].
  apply andb_prop in Hreg. destruct Hreg as [Hreg Hnoon].
  apply andb_prop in Hreg. destruct Hreg as [Hsun Hsat].
  apply Z.eqb_eq in Hsun, Hsat, Hnoon, Hoff. fold noon in Hnoon, Hoff.
  assert (Hday : Day (readBack z (readBack z (LocalTime z now
                        - WeekDay (LocalTime z now) * msPerDay)
                      + 6 * msPerDay)) = saturdayOf (LocalTime z now)).
  { rewrite Hsat, Day_plus_days, Hsun.
    replace (LocalTime z now - WeekDay (LocalTime z now) * msPerDay)
      with (LocalTime z now + - WeekDay (LocalTime z now) * msPerDay) by lia.
    rewrite Day_plus_days. unfold saturdayOf. lia. }
  assert (Hu : saturdayUnlock z now = UTC z (noon + 5 * msPerHour)).
  { rewrite saturdayUnlock_steps. cbv zeta. rewrite Hday. fold noon.
    rewrite Hnoon. reflexivity. }
  assert (Hu' : saturdayUnlock z now = UTC z noon + 5 * msPerHour).
  { rewrite Hu. unfold UTC. rewrite Hoff. lia. }
  split; [exact Hu | split; [exact Hu' |]].
  rewrite Hu'. replace (UTC z noon + 5 * msPerHour - 5 * msPerHour)
    with (UTC z noon) by lia.
  exact Hnoon.
Qed.


(** A zone without transitions is regular over every week. *)
Lemma fixedZone_regular (tza now : Z) : regularWeek (fixedZone tza) now = true.
Proof.
  assert (Hback : forall t, readBack (fixedZone tza) t = t).
  { intros t. unfold readBack, LocalTime, UTC, fixedZone.
    cbn [offsetAt offsetOfLocal]. lia. }
  unfold regularWeek. rewrite !Hback.
  repeat (apply andb_true_intro; split); apply Z.eqb_eq; reflexivity.
Qed.
End DateFacts.

(** In the zone of New York a local time is read back as it is, but for
    the hour that the clocks skip on 2026-03-08, which is read back one
    hour later. *)
Lemma readBack_eastern (t : Z) :
  JSDate.readBack easternZone2026 t = t
  \/ (JSDate.readBack easternZone2026 t = t + 3600000
      /\ 20520 * 86400000 + 2 * 3600000 <= t < 20520 * 86400000 + 3 * 3600000).
Proof.
  unfold JSDate.readBack, JSDate.LocalTime, JSDate.UTC, easternZone2026,
    JSDate.dstZone.
  cbn [JSDate.offsetAt JSDate.offsetOfLocal].
  repeat match goal with
         | |- context [Z.ltb ?a ?b] => destruct (Z.ltb_spec a b)
         | |- context [Z.leb ?a ?b] => destruct (Z.leb_spec a b)
         end; cbn [andb]; lia.
Qed.

(** The zone of New York is regular over every week of 2026, those of
    its two transitions included. *)
Lemma easternZone2026_regular (now : Z) :
  JSDate.regularWeek easternZone2026 now = true.
Proof.
  unfold JSDate.regularWeek.
  set (local := JSDate.LocalTime easternZone2026 now).
  set (sunday := local - JSDate.WeekDay local * JSDate.msPerDay).
  set (noon := JSDate.MakeDate (JSDate.saturdayOf local) (12 * JSDate.msPerHour)).
  assert (Hday : forall t, JSDate.Day (JSDate.readBack easternZone2026 t) = JSDate.Day t).
  { intros t. destruct (readBack_eastern t) as [H | [H Hgap]]; rewrite H; [reflexivity |].
    unfold JSDate.Day, JSDate.msPerDay. Z.div_mod_to_equations. lia. }
  rewrite !Hday, !Z.eqb_refl. cbn [andb].
  apply andb_true_intro. split; apply Z.eqb_eq.
  - destruct (readBack_eastern noon) as [H | [H Hgap]]; [exact H |].
    exfalso. unfold noon, JSDate.MakeDate, JSDate.msPerDay, JSDate.msPerHour in Hgap.
    lia.
  - unfold easternZone2026, JSDate.dstZone. cbn [JSDate.offsetOfLocal].
    unfold noon, JSDate.MakeDate, JSDate.msPerDay, JSDate.msPerHour.
    generalize (JSDate.saturdayOf local). intros d.
    repeat match goal with
           | |- context [Z.ltb ?a ?b] => destruct (Z.ltb_spec a b)
           end; try reflexivity; lia.
Qed.


(* ================================================================== *)
(** * handlePickSide: what a tap changes                                *)
(* ================================================================== *)

Lemma length_app_one {A : Type} (l : list A) (x : A) :
  Z.of_nat (List.length (l ++ [x])) = Z.of_nat (List.length l) + 1.
Proof.
  rewrite length_app. simpl. lia.
Qed.

Lemma find_isSome_filter (f : Pick -> bool) (l : list Pick) :
  isSome (find f l) = negb (Nat.eqb (List.length (filter f l)) 0).
Proof.
  induction l as [| a l IH]; simpl; [reflexivity |].
  destruct (f a); simpl; [reflexivity | exact IH].
Qed.

Lemma find_none_filter (f : Pick -> bool) (l : list Pick) :
  find f l = None -> filter f l = [].
Proof.
  induction l as [| a l IH]; simpl; [reflexivity |].
  destruct (f a); [discriminate | exact IH].
Qed.

(** Replacing the picks of a game by [n] leaves, for that game, as many
    copies of [n] as there were picks. *)
Lemma filter_replace (g : string) (n : Pick) (l : list Pick) :
  isGame g n = true ->
  filter (isGame g) (map (fun p => if isGame g p then n else p) l)
  = map (fun _ => n) (filter (isGame g) l).
Proof.
  intros Hn. induction l as [| a l IH]; simpl; [reflexivity |].
  destruct (isGame g a) eqn:Ha; simpl.
  - rewrite Hn. simpl. f_equal. exact IH.
  - rewrite Ha. exact IH.
Qed.

(** For another game the replacement is not seen. *)
Lemma filter_replace_other (g g' : string) (n : Pick) (l : list Pick) :
  isGame g n = true -> g' <> g ->
  filter (isGame g') (map (fun p => if isGame g p then n else p) l)
  = filter (isGame g') l.
Proof.
  intros Hn Hne. induction l as [| a l IH]; simpl; [reflexivity |].
  destruct (isGame g a) eqn:Ha.
  - unfold isGame in Hn, Ha. apply String.eqb_eq in Hn, Ha.
    assert (Hf : forall p, game_id p = g -> isGame g' p = false).
    { intros p Hp. unfold isGame. rewrite Hp. apply String.eqb_neq.
      congruence. }
    simpl. rewrite (Hf n Hn), (Hf a Ha). exact IH.
  - simpl. destruct (isGame g' a); [f_equal |]; exact IH.
Qed.

(** The effect of a tap, by the way the call ends: either nothing is set,
    or the temporary picks and the cards are set and nothing else. *)
Lemma handlePickSide_updates (r : Screen) (e : PickEnv) (g : string)
    (sd : Side) (v : Q) :
  snd (handlePickSide r e g sd v) = []
  \/ exists tp gl, snd (handlePickSide r e g sd v)
                   = [SetTempPicks tp; SetGamesWithLines gl].
Proof.
  unfold handlePickSide.
  destruct (league r); [| left; reflexivity].
  destruct (pe_auth e); try (left; reflexivity).
  destruct (isSome (find (isGame g) (picks r))); [left; reflexivity |].
  destruct (negb (isSome (find (isGame g) (tempPicks r)))
            && (Z.of_nat (List.length (tempPicks r)) >=? _));
    [left; reflexivity |].
  right. eexists. eexists. reflexivity.
Qed.

Lemma selectSide_frame (e : PickEnv) (g : string) (sd : Side) (v : Q)
    (s : Screen) :
  let s' := snd (selectSide e g sd v s) in
  leagueId s' = leagueId s /\ league s' = league s /\ picks s' = picks s
  /\ loading s' = loading s /\ refreshing s' = refreshing s
  /\ submitting s' = submitting s
  /\ currentSeason s' = currentSeason s /\ currentWeek s' = currentWeek s.
Proof.
  unfold selectSide.
  destruct (handlePickSide s e g sd v) as [res us] eqn:Hh.
  destruct (handlePickSide_updates s e g sd v) as [H | (tp & gl & H)];
    rewrite Hh in H; simpl in H; subst us; simpl; repeat split.
Qed.

(** A tap keeps the session within its limit. *)
Lemma selectSide_within_limit (e : PickEnv) (g : string) (sd : Side) (v : Q)
    (s : Screen) :
  tempPicksCount s <= pickLimit s ->
  tempPicksCount (snd (selectSide e g sd v s)) <= pickLimit s.
Proof.
  intros Hinv. unfold selectSide, handlePickSide, pickLimit, tempPicksCount in *.
  destruct (league s) as [lg |]; [| exact Hinv].
  destruct (pe_auth e); try exact Hinv.
  destruct (isSome (find (isGame g) (picks s))); [exact Hinv |].
  destruct (isSome (find (isGame g) (tempPicks s))); simpl.
  - rewrite length_map. exact Hinv.
  - destruct (Z.of_nat (List.length (tempPicks s)) >=? orDefault (League.pick_limit lg) 5)
      eqn:Hge; simpl; [exact Hinv |].
    rewrite length_app_one. lia.
Qed.

Lemma pickLimit_selectSide (e : PickEnv) (g : string) (sd : Side) (v : Q)
    (s : Screen) :
  pickLimit (snd (selectSide e g sd v s)) = pickLimit s.
Proof.
  unfold pickLimit.
  destruct (selectSide_frame e g sd v s) as (_ & Hl & _).
  rewrite Hl. reflexivity.
Qed.

Lemma taps_within_limit (ts : list Tap) (s : Screen) :
  tempPicksCount s <= pickLimit s ->
  tempPicksCount (taps ts s) <= pickLimit s /\ pickLimit (taps ts s) = pickLimit s.
Proof.
  revert s. induction ts as [| t ts IH]; intros s Hinv; [split; [exact Hinv | reflexivity] |].
  unfold taps in *. simpl.
  assert (Hl : pickLimit (tap s t) = pickLimit s) by apply pickLimit_selectSide.
  assert (Hs : tempPicksCount (tap s t) <= pickLimit (tap s t)).
  { rewrite Hl. apply selectSide_within_limit, Hinv. }
  destruct (IH (tap s t) Hs) as [H1 H2].
  split; congruence.
Qed.

(* ================================================================== *)
(** * The session: limit, immutability, upsert by game                  *)
(* ================================================================== *)

(** C1.  In a session whose effective limit is [L] and which is within it
    (as the empty session of a league is), the number of temporary picks
    stays at most [L] after every sequence of taps, whatever the world
    answers at each of them.  With the session established (league
    loaded, user signed in) and the game not yet submitted: a tap on a
    game without a temporary pick, when [L] picks are held, ends with
    'Pick Limit Reached' and leaves the state as it was; a tap on a game
    with a temporary pick replaces that pick, the count unchanged. *)
Theorem limit_invariant (s : Screen) (L : Z) :
  pickLimit s = L ->
  tempPicksCount s <= L ->
  (forall ts, tempPicksCount (taps ts s) <= L)
  /\ (forall e g sd v lg uid,
        league s = Some lg -> pe_auth e = AuthUser uid ->
        find (isGame g) (picks s) = None ->
        find (isGame g) (tempPicks s) = None ->
        tempPicksCount s = L ->
        selectSide e g sd v s = (LimitReached L, s))
  /\ (forall e g sd v lg uid old,
        league s = Some lg -> pe_auth e = AuthUser uid ->
        find (isGame g) (picks s) = None ->
        find (isGame g) (tempPicks s) = Some old ->
        exists n,
          selectSide e g sd v s
          = (Selected (tempPicksCount s) L (tempPicksCount s =? L),
             applyUpdates
               [SetTempPicks (map (fun p => if isGame g p then n else p)
                                  (tempPicks s));
                SetGamesWithLines
                  (map (fun gwl => if String.eqb (Game.id (game gwl)) g
                                   then mkGameWithLine (game gwl) (line gwl) (Some n)
                                   else gwl) (gamesWithLines s))] s)
          /\ game_id n = g /\ side n = sd /\ line_value n = v
          /\ tempPicksCount (snd (selectSide e g sd v s)) = tempPicksCount s).
Proof.
  intros HL Hinv. split; [| split].
  - intros ts. rewrite <- HL. apply taps_within_limit. rewrite HL. exact Hinv.
  - intros e g sd v lg uid Hlg Hauth Hsub Htmp Hfull.
    unfold selectSide, handlePickSide.
    unfold pickLimit in HL. unfold tempPicksCount in Hfull.
    rewrite Hlg in *. rewrite Hauth, Hsub, Htmp. simpl.
    rewrite HL, Hfull.
    replace (L >=? L) with true by (symmetry; apply Z.geb_le; lia).
    reflexivity.
  - intros e g sd v lg uid old Hlg Hauth Hsub Htmp.
    unfold selectSide, handlePickSide.
    unfold pickLimit in HL.
    rewrite Hlg in *. rewrite Hauth, Hsub, Htmp. simpl.
    eexists. split; [| split; [| split; [| split]]].
    + unfold tempPicksCount. rewrite length_map, HL. reflexivity.
    + reflexivity.
    + reflexivity.
    + reflexivity.
    + unfold tempPicksCount. simpl. rewrite length_map. reflexivity.
Qed.

Lemma limit_invariant_witness :
  let s := taps [demoTap "g1" HOME (-3 # 1)%Q; demoTap "g2" AWAY (3 # 1)%Q]
                (demoScreen (JsNum 2)) in
  (pickLimit s = 2 /\ tempPicksCount s <= 2)
  /\ tempPicksCount
       (taps [demoTap "g3" HOME (7 # 2)%Q; demoTap "g1" AWAY (3 # 1)%Q] s) <= 2
  /\ selectSide demoPickEnv "g3" HOME (7 # 2)%Q s = (LimitReached 2, s)
  /\ tempPicksCount (snd (selectSide demoPickEnv "g1" AWAY (3 # 1)%Q s)) = 2.
Proof.
  intros s.
  assert (HL : pickLimit s = 2) by reflexivity.
  assert (Hc : tempPicksCount s <= 2) by (vm_compute; discriminate).
  destruct (limit_invariant s 2 HL Hc) as (Hruns & Hfull & Hreplace).
  split; [split; assumption | split; [apply Hruns | split]].
  - apply (Hfull demoPickEnv "g3"%string HOME (7 # 2)%Q (demoLeague (JsNum 2))
                 "u1"%string); reflexivity.
  - destruct (Hreplace demoPickEnv "g1"%string AWAY (3 # 1)%Q
                (demoLeague (JsNum 2)) "u1"%string
                (mkPick "lg1" "u1" 2025 1 "g1" HOME (-3 # 1)%Q false
                   (Some (IsoInstant 1757192400000)) None None
                   (IsoInstant 1756825200001) (IsoInstant 1756825200001))
                eq_refl eq_refl eq_refl eq_refl)
      as (n & _ & _ & _ & _ & Hcount).
    exact Hcount.
Defined.

(** C3, on the picks that the screen has loaded.  The guard of
    [handlePickSide] consults the state [picks], which the last load that
    succeeded has set from durable storage.  When these hold a pick for
    game [g], a call for [g] sets no state at all, whatever the world
    answers; with the league loaded and a user signed in it ends with
    'Pick Already Submitted'. *)
Theorem submitted_pick_immutable (s : Screen) (g : string) (durable : Pick) :
  find (isGame g) (picks s) = Some durable ->
  (forall e sd v,
      snd (handlePickSide s e g sd v) = []
      /\ snd (selectSide e g sd v s) = s)
  /\ (forall e sd v lg uid,
        league s = Some lg -> pe_auth e = AuthUser uid ->
        selectSide e g sd v s = (AlreadySubmitted, s)).
Proof.
  intros Hd. split.
  - intros e sd v. unfold selectSide, handlePickSide.
    destruct (league s); [| split; reflexivity].
    destruct (pe_auth e); try (split; reflexivity).
    rewrite Hd. simpl. split; reflexivity.
  - intros e sd v lg uid Hlg Hauth. unfold selectSide, handlePickSide.
    rewrite Hlg, Hauth, Hd. reflexivity.
Qed.

(** C3, where the claim as it stands fails.  A pick in durable storage
    that the screen has not loaded is not protected: the session of
    three is submitted, the upsert succeeds and the reload that follows
    fails, so that storage holds g1 while [picks] is still empty; a call
    for g1 is then accepted and puts a new pick for g1 into the session.
    And on a screen that has loaded the pick for g1, a call made while
    nobody is signed in returns at the guard on the user, without the
    alert 'Pick Already Submitted'. *)
Lemma stored_pick_not_loaded_is_open :
  (exists w',
      pressSubmitButton demoReloadFails demoFilled
      = (Submitted 3 "Friends" LoadFailed, w')
      /\ map game_id (picks_table (database w')) = ["g1"; "g2"; "g3"]%string
      /\ picks (screen w') = []
      /\ tempPicks (screen w') = []
      /\ fst (selectSide demoPickEnv "g1" AWAY (3 # 1)%Q (screen w'))
         = Selected 1 3 false
      /\ map (fun p => (game_id p, side p))
             (tempPicks (snd (selectSide demoPickEnv "g1" AWAY (3 # 1)%Q
                                (screen w'))))
         = [("g1"%string, AWAY)])
  /\ isSome (find (isGame "g1") (picks demoSubmittedScreen)) = true
  /\ selectSide demoSignedOutEnv "g1" AWAY (3 # 1)%Q demoSubmittedScreen
     = (NoUser, demoSubmittedScreen).
Proof.
  split; [| split; reflexivity].
  eexists. split; [vm_compute; reflexivity |].
  repeat split.
Qed.

(** The pick a call stores, in terms of the arguments and of the world. *)
Lemma selectSide_accepted (e : PickEnv) (g : string) (sd : Side) (v : Q)
    (s : Screen) (lg : League.t) (uid : string) :
  league s = Some lg -> pe_auth e = AuthUser uid ->
  find (isGame g) (picks s) = None ->
  isSome (find (isGame g) (tempPicks s)) = true
    \/ tempPicksCount s < pickLimit s ->
  exists n c b,
    fst (selectSide e g sd v s) = Selected c (pickLimit s) b
    /\ game_id n = g /\ side n = sd /\ line_value n = v
    /\ unlock_at n
       = Some (toISOString (saturdayUnlock (pe_zone e) (pe_now e)))
    /\ tempPicks (snd (selectSide e g sd v s))
       = if isSome (find (isGame g) (tempPicks s))
         then map (fun p => if isGame g p then n else p) (tempPicks s)
         else tempPicks s ++ [n].
Proof.
  intros Hlg Hauth Hsub Hroom.
  unfold selectSide, handlePickSide, pickLimit, tempPicksCount in *.
  rewrite Hlg in *. rewrite Hauth, Hsub. simpl.
  destruct (isSome (find (isGame g) (tempPicks s))) eqn:Htmp; simpl.
  - do 3 eexists. repeat split; reflexivity.
  - destruct Hroom as [Habs | Hlt]; [discriminate |].
    replace (Z.of_nat (List.length (tempPicks s)) >=? orDefault (League.pick_limit lg) 5)
      with false by (rewrite Z.geb_leb; symmetry; apply Z.leb_gt; lia).
    simpl. do 3 eexists. repeat split; reflexivity.
Qed.


(** After an accepted call the session holds, for the game, the pick of
    that call and no other, provided it held at most one before. *)
Lemma filter_after_select (g : string) (n : Pick) (l : list Pick) :
  isGame g n = true ->
  (List.length (filter (isGame g) l) <= 1)%nat ->
  filter (isGame g)
         (if isSome (find (isGame g) l)
          then map (fun p => if isGame g p then n else p) l
          else l ++ [n]) = [n].
Proof.
  intros Hn Hone.
  destruct (isSome (find (isGame g) l)) eqn:Hf.
  - rewrite filter_replace by exact Hn.
    rewrite find_isSome_filter in Hf.
    destruct (filter (isGame g) l) as [| a [| b t]]; simpl in *;
      [discriminate | reflexivity | lia].
  - rewrite filter_app. simpl. rewrite Hn.
    destruct (find (isGame g) l) eqn:Hfind; [discriminate |].
    rewrite (find_none_filter _ _ Hfind). reflexivity.
Qed.

Lemma filter_other_after_select (g g' : string) (n : Pick) (l : list Pick) :
  isGame g n = true -> g' <> g ->
  filter (isGame g')
         (if isSome (find (isGame g) l)
          then map (fun p => if isGame g p then n else p) l
          else l ++ [n]) = filter (isGame g') l.
Proof.
  intros Hn Hne.
  destruct (isSome (find (isGame g) l)).
  - apply filter_replace_other; assumption.
  - rewrite filter_app. simpl.
    replace (isGame g' n) with false; [apply app_nil_r |].
    symmetry. unfold isGame in *. apply String.eqb_eq in Hn.
    apply String.eqb_neq. congruence.
Qed.

Lemma isGame_self (g : string) (n : Pick) : game_id n = g -> isGame g n = true.
Proof.
  intros H. unfold isGame. rewrite H. apply String.eqb_refl.
Qed.

(** C5.  In an established session, for a game [g] not yet submitted
    whose first call is admitted (picked already, or room under the
    limit) and of which the session holds at most one temporary pick:
    [selectSide(g, HOME, -3)] then [selectSide(g, AWAY, 3)] leave exactly
    one temporary pick for [g], AWAY 3, and the picks of the other games
    as they were; and a call for a game without a temporary pick appends
    its pick to the end of the session. *)
Theorem upsert_by_game (s : Screen) (e1 e2 : PickEnv) (g : string)
    (lg : League.t) (u1 u2 : string) :
  league s = Some lg ->
  pe_auth e1 = AuthUser u1 -> pe_auth e2 = AuthUser u2 ->
  find (isGame g) (picks s) = None ->
  (List.length (filter (isGame g) (tempPicks s)) <= 1)%nat ->
  isSome (find (isGame g) (tempPicks s)) = true
    \/ tempPicksCount s < pickLimit s ->
  (let s1 := snd (selectSide e1 g HOME (-3 # 1)%Q s) in
   let s2 := snd (selectSide e2 g AWAY (3 # 1)%Q s1) in
   exists p,
     filter (isGame g) (tempPicks s2) = [p]
     /\ side p = AWAY /\ line_value p = (3 # 1)%Q
     /\ forall g', g' <> g ->
          filter (isGame g') (tempPicks s2) = filter (isGame g') (tempPicks s))
  /\ (forall sd v,
        find (isGame g) (tempPicks s) = None ->
        exists n,
          tempPicks (snd (selectSide e1 g sd v s)) = tempPicks s ++ [n]
          /\ game_id n = g /\ side n = sd /\ line_value n = v).
Proof.
  intros Hlg Ha1 Ha2 Hsub Hone Hroom. split.
  - intros s1 s2.
    destruct (selectSide_accepted e1 g HOME (-3 # 1)%Q s lg u1 Hlg Ha1 Hsub Hroom)
      as (n1 & c1 & b1 & _ & Hg1 & _ & _ & _ & Ht1).
    fold s1 in Ht1.
    destruct (selectSide_frame e1 g HOME (-3 # 1)%Q s) as (_ & Hl1 & Hp1 & _).
    fold s1 in Hl1, Hp1.
    assert (Hf1 : filter (isGame g) (tempPicks s1) = [n1]).
    { rewrite Ht1. apply filter_after_select; [apply isGame_self, Hg1 | exact Hone]. }
    assert (Hsome1 : isSome (find (isGame g) (tempPicks s1)) = true).
    { rewrite find_isSome_filter, Hf1. reflexivity. }
    assert (Hlg1 : league s1 = Some lg) by congruence.
    assert (Hsub1 : find (isGame g) (picks s1) = None) by congruence.
    destruct (selectSide_accepted e2 g AWAY (3 # 1)%Q s1 lg u2 Hlg1 Ha2 Hsub1
                (or_introl Hsome1))
      as (n2 & c2 & b2 & _ & Hg2 & Hs2 & Hv2 & _ & Ht2).
    fold s2 in Ht2.
    exists n2. split; [| split; [exact Hs2 | split; [exact Hv2 |]]].
    + rewrite Ht2. apply filter_after_select; [apply isGame_self, Hg2 |].
      rewrite Hf1. simpl. lia.
    + intros g' Hne. rewrite Ht2.
      rewrite filter_other_after_select by (try apply isGame_self; assumption).
      rewrite Ht1.
      apply filter_other_after_select; [apply isGame_self, Hg1 | exact Hne].
  - intros sd v Hnone.
    destruct (selectSide_accepted e1 g sd v s lg u1 Hlg Ha1 Hsub Hroom)
      as (n & c & b & _ & Hg & Hs & Hv & _ & Ht).
    rewrite Hnone in Ht. simpl in Ht.
    exists n. repeat split; assumption.
Qed.


(** C10.  When [pick_limit] is absent, [null] or [0], the limit of the
    render ([canSubmit]) and the limit of [handlePickSide] are 5: a call
    for a new game is accepted while fewer than 5 temporary picks are
    held, also under a configured 0, and is refused with limit 5 from
    then on. *)
Theorem falsy_pick_limit_is_five (s : Screen) (lg : League.t) :
  league s = Some lg ->
  League.pick_limit lg = JsUndefined \/ League.pick_limit lg = JsNull
    \/ League.pick_limit lg = JsNum 0 ->
  pickLimit s = 5
  /\ canSubmit s = (tempPicksCount s =? 5)
  /\ forall e g sd v uid,
       pe_auth e = AuthUser uid ->
       find (isGame g) (picks s) = None ->
       find (isGame g) (tempPicks s) = None ->
       (tempPicksCount s < 5 ->
        fst (selectSide e g sd v s)
        = Selected (tempPicksCount s + 1) 5 (tempPicksCount s + 1 =? 5))
       /\ (5 <= tempPicksCount s ->
           selectSide e g sd v s = (LimitReached 5, s)).
Proof.
  intros Hlg Hcfg.
  assert (H5 : orDefault (League.pick_limit lg) 5 = 5).
  { destruct Hcfg as [H | [H | H]]; rewrite H; reflexivity. }
  assert (HL : pickLimit s = 5) by (unfold pickLimit; rewrite Hlg; exact H5).
  split; [exact HL | split].
  - unfold canSubmit. rewrite HL. reflexivity.
  - intros e g sd v uid Hauth Hsub Htmp.
    unfold selectSide, handlePickSide, tempPicksCount.
    rewrite Hlg, Hauth, Hsub, Htmp, H5. simpl. split; intros Hc.
    + replace (Z.of_nat (List.length (tempPicks s)) >=? 5) with false
        by (rewrite Z.geb_leb; symmetry; apply Z.leb_gt; lia).
      simpl. rewrite length_app_one. reflexivity.
    + replace (Z.of_nat (List.length (tempPicks s)) >=? 5) with true
        by (rewrite Z.geb_leb; symmetry; apply Z.leb_le; lia).
      reflexivity.
Qed.

(* ================================================================== *)
(** * submitAllPicks                                                    *)
(* ================================================================== *)

(** C8.  [submitAllPicks] of a render without temporary picks returns at
    its first line: no request is made (neither to the auth service nor
    to the data service), no state is set, storage is as it was. *)
Theorem submit_empty_session (r : Screen) (e : SubmitEnv) (db : Database) :
  tempPicks r = [] ->
  submitAllPicks r e db = mkSubmitOutcome SubmitSkipped [] [] db
  /\ forall s, runSubmit r e (mkWorld s db) = (SubmitSkipped, mkWorld s db).
Proof.
  intros Hempty.
  assert (H : submitAllPicks r e db = mkSubmitOutcome SubmitSkipped [] [] db).
  { unfold submitAllPicks. rewrite Hempty. destruct (league r); reflexivity. }
  split; [exact H |].
  intros s. unfold runSubmit. simpl. rewrite H. reflexivity.
Qed.

(** What the five conflict columns compare. *)
Lemma conflicts_onConflict (w : PickWrite) (row : Pick) :
  conflicts onConflict w row
  = String.eqb (w_league_id w) (league_id row)
    && (String.eqb (w_user_id w) (user_id row)
    && ((w_season w =? season row)
    && ((w_week w =? week row)
    && (String.eqb (w_game_id w) (game_id row) && true)))).
Proof. reflexivity. Qed.

(** ** The storage model: one upsert *)

Lemma carries_overwriteRow (w : PickWrite) (now : Z) (row : Pick) :
  carries w (overwriteRow w now row).
Proof. repeat split. Qed.

Lemma carries_insertedRow (w : PickWrite) (now : Z) :
  carries w (insertedRow w now).
Proof. repeat split. Qed.

Lemma carries_conflicts (w : PickWrite) (row : Pick) :
  carries w row -> conflicts onConflict w row = true.
Proof.
  intros (H1 & H2 & H3 & H4 & H5 & _).
  rewrite conflicts_onConflict, H1, H2, H3, H4, H5.
  rewrite !String.eqb_refl, !Z.eqb_refl. reflexivity.
Qed.

Lemma conflicts_game_id (w : PickWrite) (row : Pick) :
  conflicts onConflict w row = true -> w_game_id w = game_id row.
Proof.
  rewrite conflicts_onConflict. intros H.
  do 4 (apply andb_prop in H; destruct H as [_ H]).
  apply andb_prop in H. destruct H as [H _]. apply String.eqb_eq, H.
Qed.

(** A row of the table after one upsert is a row left alone, which does
    not conflict, or carries the request. *)
Lemma upsertRow_origin (cols : list string) (now : Z) (table : list Pick)
    (w : PickWrite) (row : Pick) :
  In row (upsertRow cols now table w) ->
  (In row table /\ conflicts cols w row = false) \/ carries w row.
Proof.
  unfold upsertRow. destruct (existsb (conflicts cols w) table) eqn:Hex.
  - intros Hin. apply in_map_iff in Hin. destruct Hin as (old & Hrow & Hold).
    destruct (conflicts cols w old) eqn:Hc.
    + right. subst row. apply carries_overwriteRow.
    + left. subst row. split; assumption.
  - intros Hin. apply in_app_or in Hin. destruct Hin as [Hin | [Hin | []]].
    + left. split; [exact Hin |].
      destruct (conflicts cols w row) eqn:Hc; [| reflexivity].
      assert (existsb (conflicts cols w) table = true)
        by (apply existsb_exists; exists row; split; assumption).
      congruence.
    + right. subst row. apply carries_insertedRow.
Qed.

(** After one upsert the table holds a row that carries the request. *)
Lemma upsertRow_written (cols : list string) (now : Z) (table : list Pick)
    (w : PickWrite) :
  exists row, In row (upsertRow cols now table w) /\ carries w row.
Proof.
  unfold upsertRow. destruct (existsb (conflicts cols w) table) eqn:Hex.
  - apply existsb_exists in Hex. destruct Hex as (old & Hin & Hc).
    exists (overwriteRow w now old). split; [| apply carries_overwriteRow].
    apply in_map_iff. exists old. rewrite Hc. split; [reflexivity | exact Hin].
  - exists (insertedRow w now). split; [| apply carries_insertedRow].
    apply in_or_app. right. left. reflexivity.
Qed.

(** A row that does not conflict with the request stays. *)
Lemma upsertRow_keeps (cols : list string) (now : Z) (table : list Pick)
    (w : PickWrite) (row : Pick) :
  In row table -> conflicts cols w row = false ->
  In row (upsertRow cols now table w).
Proof.
  intros Hin Hc. unfold upsertRow.
  destruct (existsb (conflicts cols w) table).
  - apply in_map_iff. exists row. rewrite Hc. split; [reflexivity | exact Hin].
  - apply in_or_app. left. exact Hin.
Qed.

(** On conflict the table keeps its size, and the rows under the key of
    the request stay as many: overwritten, not duplicated. *)
Lemma upsertRow_overwrites (now : Z) (table : list Pick) (w : PickWrite) :
  existsb (conflicts onConflict w) table = true ->
  List.length (upsertRow onConflict now table w) = List.length table
  /\ List.length (filter (conflicts onConflict w)
                         (upsertRow onConflict now table w))
     = List.length (filter (conflicts onConflict w) table)
  /\ forall row, In row (upsertRow onConflict now table w) ->
       conflicts onConflict w row = true -> carries w row.
Proof.
  intros Hex. unfold upsertRow at 1 2. rewrite Hex.
  split; [apply length_map | split].
  - clear Hex. induction table as [| a t IH]; [reflexivity |].
    cbn [map filter]. destruct (conflicts onConflict w a) eqn:Hc.
    + rewrite (carries_conflicts w _ (carries_overwriteRow w now a)).
      cbn [List.length]. f_equal. exact IH.
    + rewrite Hc. exact IH.
  - intros row Hin Hc.
    destruct (upsertRow_origin _ _ _ _ _ Hin) as [[_ Hno] | Hcar];
      [congruence | exact Hcar].
Qed.

(** Without conflict the request is appended as a new row. *)
Lemma upsertRow_inserts (cols : list string) (now : Z) (table : list Pick)
    (w : PickWrite) :
  existsb (conflicts cols w) table = false ->
  upsertRow cols now table w = table ++ [insertedRow w now].
Proof.
  intros Hex. unfold upsertRow. rewrite Hex. reflexivity.
Qed.

(** ** The storage model: the array of requests *)

Lemma upsertRows_origin (cols : list string) (now : Z) (rows : list PickWrite) :
  forall (table : list Pick) (row : Pick),
    In row (upsertRows cols now rows table) ->
    (In row table /\ forall w, In w rows -> conflicts cols w row = false)
    \/ exists w, In w rows /\ carries w row.
Proof.
  induction rows as [| w0 rest IH]; intros table row Hin.
  - left. split; [exact Hin | intros w []].
  - unfold upsertRows in *. simpl in Hin.
    destruct (IH _ _ Hin) as [[Hin1 Hrest] | (w & Hw & Hcar)].
    + destruct (upsertRow_origin _ _ _ _ _ Hin1) as [[Hin0 Hc0] | Hcar].
      * left. split; [exact Hin0 |].
        intros w [Hw | Hw]; [subst w; exact Hc0 | apply Hrest, Hw].
      * right. exists w0. split; [left; reflexivity | exact Hcar].
    + right. exists w. split; [right; exact Hw | exact Hcar].
Qed.

Lemma upsertRows_keeps (now : Z) (rows : list PickWrite) :
  forall (table : list Pick) (row : Pick),
    In row table -> ~ In (game_id row) (map w_game_id rows) ->
    In row (upsertRows onConflict now rows table).
Proof.
  induction rows as [| w0 rest IH]; intros table row Hin Hnot; [exact Hin |].
  unfold upsertRows in *. simpl. apply IH.
  - apply upsertRow_keeps; [exact Hin |].
    destruct (conflicts onConflict w0 row) eqn:Hc; [| reflexivity].
    exfalso. apply Hnot. left. apply conflicts_game_id, Hc.
  - intros H. apply Hnot. right. exact H.
Qed.

(** A row that conflicts with no request of the array stays. *)
Lemma upsertRows_keeps_others (cols : list string) (now : Z)
    (rows : list PickWrite) :
  forall (table : list Pick) (row : Pick),
    In row table -> (forall w, In w rows -> conflicts cols w row = false) ->
    In row (upsertRows cols now rows table).
Proof.
  induction rows as [| w0 rest IH]; intros table row Hin Hno; [exact Hin |].
  change (upsertRows cols now (w0 :: rest) table)
    with (upsertRows cols now rest (upsertRow cols now table w0)).
  apply IH.
  - apply upsertRow_keeps; [exact Hin | apply Hno; left; reflexivity].
  - intros w Hw. apply Hno. right. exact Hw.
Qed.

(** With one request per game, every request of the array has its row in
    the table at the end. *)
Lemma upsertRows_written (now : Z) (rows : list PickWrite) :
  forall (table : list Pick) (w : PickWrite),
    NoDup (map w_game_id rows) -> In w rows ->
    exists row, In row (upsertRows onConflict now rows table) /\ carries w row.
Proof.
  induction rows as [| w0 rest IH]; intros table w Hnd Hin; [destruct Hin |].
  simpl in Hnd. inversion Hnd as [| x l Hnotin Hnd']; subst.
  unfold upsertRows in *. simpl.
  destruct Hin as [Heq | Hin].
  - subst w0.
    destruct (upsertRow_written onConflict now table w) as (row & Hrow & Hcar).
    exists row. split; [| exact Hcar].
    apply upsertRows_keeps; [exact Hrow |].
    destruct Hcar as (_ & _ & _ & _ & Hg & _). rewrite Hg. exact Hnotin.
  - apply IH; assumption.
Qed.

Lemma NoDup_map_inj {A B : Type} (f : A -> B) (l : list A) (a b : A) :
  NoDup (map f l) -> In a l -> In b l -> f a = f b -> a = b.
Proof.
  induction l as [| x l IH]; intros Hnd Ha Hb Hf; [destruct Ha |].
  simpl in Hnd. inversion Hnd as [| y m Hnot Hnd']; subst.
  destruct Ha as [Ha | Ha], Hb as [Hb | Hb]; subst.
  - reflexivity.
  - exfalso. apply Hnot. rewrite Hf. apply in_map, Hb.
  - exfalso. apply Hnot. rewrite <- Hf. apply in_map, Ha.
  - apply IH; assumption.
Qed.

Lemma conflicts_other_game (w w' : PickWrite) (row : Pick) :
  w_game_id w' <> w_game_id w ->
  conflicts onConflict w' row = true -> conflicts onConflict w row = false.
Proof.
  intros Hne Hc'. destruct (conflicts onConflict w row) eqn:Hc; [| reflexivity].
  apply conflicts_game_id in Hc, Hc'. congruence.
Qed.

(** The number of rows under the key of [w] is not changed by the upsert
    of a request for another game. *)
Lemma upsertRow_count_other (now : Z) (table : list Pick) (w w' : PickWrite) :
  w_game_id w' <> w_game_id w ->
  List.length (filter (conflicts onConflict w) (upsertRow onConflict now table w'))
  = List.length (filter (conflicts onConflict w) table).
Proof.
  intros Hne. unfold upsertRow.
  destruct (existsb (conflicts onConflict w') table).
  - induction table as [| a t IH]; [reflexivity |].
    cbn [map filter]. destruct (conflicts onConflict w' a) eqn:Hc'.
    + rewrite (conflicts_other_game w w' a Hne Hc').
      rewrite (conflicts_other_game w w' (overwriteRow w' now a) Hne
                 (carries_conflicts _ _ (carries_overwriteRow w' now a))).
      exact IH.
    + destruct (conflicts onConflict w a); cbn [List.length]; [f_equal |]; exact IH.
  - rewrite filter_app. cbn [filter].
    rewrite (conflicts_other_game w w' (insertedRow w' now) Hne
               (carries_conflicts _ _ (carries_insertedRow w' now))).
    rewrite app_nil_r. reflexivity.
Qed.

(** The upsert of [w] leaves one row under its key where there was none,
    and as many as before otherwise. *)
Lemma upsertRow_count_same (now : Z) (table : list Pick) (w : PickWrite) :
  List.length (filter (conflicts onConflict w) (upsertRow onConflict now table w))
  = Nat.max 1 (List.length (filter (conflicts onConflict w) table)).
Proof.
  destruct (existsb (conflicts onConflict w) table) eqn:Hex.
  - destruct (upsertRow_overwrites now table w Hex) as (_ & Hcount & _).
    rewrite Hcount.
    apply existsb_exists in Hex. destruct Hex as (row & Hin & Hc).
    assert (Hf : In row (filter (conflicts onConflict w) table))
      by (apply filter_In; split; assumption).
    destruct (filter (conflicts onConflict w) table); [destruct Hf |].
    cbn [List.length]. lia.
  - rewrite (upsertRow_inserts _ _ _ _ Hex), filter_app. cbn [filter].
    rewrite (carries_conflicts _ _ (carries_insertedRow w now)).
    assert (Hnil : filter (conflicts onConflict w) table = []).
    { destruct (filter (conflicts onConflict w) table) as [| row t] eqn:Hf;
        [reflexivity |].
      assert (Hin : In row (filter (conflicts onConflict w) table))
        by (rewrite Hf; left; reflexivity).
      apply filter_In in Hin.
      assert (existsb (conflicts onConflict w) table = true)
        by (apply existsb_exists; exists row; exact Hin).
      congruence. }
    rewrite Hnil. reflexivity.
Qed.

Lemma upsertRows_count_other (now : Z) (rows : list PickWrite) (w : PickWrite) :
  forall table : list Pick,
    ~ In (w_game_id w) (map w_game_id rows) ->
    List.length (filter (conflicts onConflict w)
                        (upsertRows onConflict now rows table))
    = List.length (filter (conflicts onConflict w) table).
Proof.
  induction rows as [| w0 rest IH]; intros table Hnot; [reflexivity |].
  unfold upsertRows in *. simpl.
  rewrite IH by (intros H; apply Hnot; right; exact H).
  apply upsertRow_count_other. intros H. apply Hnot. left. exact H.
Qed.

(** With one request per game: after the array is written, the key of
    each request holds one row if it held none, and as many as before
    otherwise. *)
Lemma upsertRows_count (now : Z) (rows : list PickWrite) :
  forall (table : list Pick) (w : PickWrite),
    NoDup (map w_game_id rows) -> In w rows ->
    List.length (filter (conflicts onConflict w)
                        (upsertRows onConflict now rows table))
    = Nat.max 1 (List.length (filter (conflicts onConflict w) table)).
Proof.
  induction rows as [| w0 rest IH]; intros table w Hnd Hin; [destruct Hin |].
  simpl in Hnd. inversion Hnd as [| x l Hnotin Hnd']; subst.
  change (upsertRows onConflict now (w0 :: rest) table)
    with (upsertRows onConflict now rest (upsertRow onConflict now table w0)).
  destruct Hin as [Heq | Hin].
  - subst w0. rewrite (upsertRows_count_other now rest w _ Hnotin).
    apply upsertRow_count_same.
  - rewrite (IH _ w Hnd' Hin). f_equal.
    apply upsertRow_count_other.
    intros Heq. apply Hnotin. rewrite Heq. apply in_map, Hin.
Qed.

(** ** What a run of submitAllPicks does *)

Lemma applyUpdates_app (a b : list Update) (s : Screen) :
  applyUpdates (a ++ b) s = applyUpdates b (applyUpdates a s).
Proof. apply fold_left_app. Qed.

(** A reload leaves an empty session empty. *)
Lemma reload_keeps_empty (r : Screen) (e : LoadEnv) (db : Database) (s : Screen) :
  tempPicks s = [] ->
  tempPicks (applyUpdates (lo_updates (loadSlateAndPicks r e db)) s) = [].
Proof.
  intros Hs. unfold loadSlateAndPicks.
  destruct (truthyString (leagueId r)); [| exact Hs].
  destruct (le_auth e); try exact Hs.
  destruct (le_slateError e); [exact Hs |].
  destruct (le_picksError e); [exact Hs |].
  reflexivity.
Qed.

(** A run that ends with 'Picks Submitted!' wrote the temporary picks of
    its render [r], with the five conflict columns, and nothing else. *)
Lemma submitted_inv (r : Screen) (e : SubmitEnv) (db : Database)
    (c : Z) (nm : string) (rl : LoadResult) :
  so_result (submitAllPicks r e db) = Submitted c nm rl ->
  c = tempPicksCount r
  /\ picks_table (so_db (submitAllPicks r e db))
     = upsertRows onConflict (se_serverNow e) (map pickWrite (tempPicks r))
                  (picks_table db)
  /\ slate_table (so_db (submitAllPicks r e db)) = slate_table db
  /\ forall s, tempPicks (applyUpdates (so_updates (submitAllPicks r e db)) s) = [].
Proof.
  unfold submitAllPicks, tempPicksCount.
  destruct (league r); [| discriminate].
  destruct (Z.of_nat (List.length (tempPicks r)) =? 0); [discriminate |].
  destruct (se_auth e); try discriminate.
  destruct (se_upsertError e); [discriminate |].
  cbn [so_result so_db so_updates picks_table slate_table].
  intros H. injection H as Hc _ _.
  repeat split; [congruence |].
  intros s. rewrite applyUpdates_app, applyUpdates_app.
  cbn [applyUpdates fold_left applyUpdate tempPicks].
  apply reload_keeps_empty. reflexivity.
Qed.

(** A run that does not end with 'Picks Submitted!' leaves the temporary
    picks and the storage as they were. *)
Lemma not_submitted_inv (r : Screen) (e : SubmitEnv) (db : Database) :
  (forall c nm rl, so_result (submitAllPicks r e db) <> Submitted c nm rl) ->
  so_db (submitAllPicks r e db) = db
  /\ forall s, tempPicks (applyUpdates (so_updates (submitAllPicks r e db)) s)
               = tempPicks s.
Proof.
  unfold submitAllPicks.
  destruct (league r); [| split; reflexivity].
  destruct (Z.of_nat (List.length (tempPicks r)) =? 0); [split; reflexivity |].
  destruct (se_auth e); try (split; reflexivity).
  destruct (se_upsertError e); [split; reflexivity |].
  intros H. exfalso. eapply H. reflexivity.
Qed.

(** On the 'Submit N Picks' button, where the render that submits is the
    render on display: a failure leaves session and storage as they
    were; a success empties the session and, with one temporary pick per
    game, leaves in storage a row for each of them. *)
Lemma submit_button_atomic (e : SubmitEnv) (w : World) :
  let res := fst (pressSubmitButton e w) in
  let w' := snd (pressSubmitButton e w) in
  ((forall c nm rl, res <> Submitted c nm rl) ->
   tempPicks (screen w') = tempPicks (screen w) /\ database w' = database w)
  /\ (forall c nm rl, res = Submitted c nm rl ->
      tempPicks (screen w') = []
      /\ c = tempPicksCount (screen w)
      /\ (NoDup (map game_id (tempPicks (screen w))) ->
          forall p, In p (tempPicks (screen w)) ->
            exists row, In row (picks_table (database w'))
                        /\ carries (pickWrite p) row)).
Proof.
  unfold pressSubmitButton, runSubmit. cbn [fst snd screen database]. split.
  - intros Hno. destruct (not_submitted_inv _ _ _ Hno) as [Hdb Htp].
    split; [apply Htp | exact Hdb].
  - intros c nm rl Hres.
    destruct (submitted_inv _ _ _ _ _ _ Hres) as (Hc & Hpt & _ & Htp).
    split; [apply Htp | split; [exact Hc |]].
    intros Hnd p Hin. rewrite Hpt.
    apply upsertRows_written.
    + rewrite map_map. exact Hnd.
    + apply in_map, Hin.
Qed.

(** The conflict target of the request built for a pick compares the
    composite identity of the pick. *)
Lemma conflicts_pickWrite (p row : Pick) :
  conflicts onConflict (pickWrite p) row = sameKey p row.
Proof.
  rewrite conflicts_onConflict. unfold sameKey, pickWrite.
  cbn [w_league_id w_user_id w_season w_week w_game_id].
  rewrite andb_true_r, !andb_assoc. reflexivity.
Qed.

(** A row carries the request built for a pick when it has the columns
    of the pick, and [locked] false. *)
Lemma carries_pickWrite (p row : Pick) :
  carries (pickWrite p) row ->
  league_id row = league_id p /\ user_id row = user_id p
  /\ season row = season p /\ week row = week p
  /\ game_id row = game_id p /\ side row = side p
  /\ line_value row = line_value p /\ unlock_at row = unlock_at p
  /\ locked row = false.
Proof. intros H. exact H. Qed.

(** The requests of a run that gets past its guards: the user, then the
    upsert, then those of the reload, which writes nothing. *)
Lemma submit_requests (r : Screen) (e : SubmitEnv) (db : Database)
    (lg : League.t) (uid : string) :
  league r = Some lg -> tempPicks r <> [] -> se_auth e = AuthUser uid ->
  exists rest,
    so_requests (submitAllPicks r e db)
    = ReqGetUser :: ReqUpsertPicks (map pickWrite (tempPicks r)) onConflict :: rest
    /\ (forall rows cols, ~ In (ReqUpsertPicks rows cols) rest)
    /\ (se_upsertError e = false ->
        exists rl, so_result (submitAllPicks r e db)
                   = Submitted (tempPicksCount r) (League.name lg) rl).
Proof.
  intros Hlg Hne Hauth. unfold submitAllPicks, tempPicksCount.
  rewrite Hlg, Hauth.
  destruct (tempPicks r) as [| p0 ps] eqn:Htp; [contradiction Hne; reflexivity |].
  assert (Hpos : (Z.of_nat (List.length (p0 :: ps)) =? 0) = false)
    by (apply Z.eqb_neq; cbn [List.length]; lia).
  rewrite Hpos.
  destruct (se_upsertError e); cbn [so_requests so_result].
  - exists []. split; [reflexivity | split; [intros rows cols [] | discriminate]].
  - eexists. split; [reflexivity | split].
    + intros rows cols Hin. unfold loadSlateAndPicks in Hin.
      destruct (truthyString (leagueId r)); [| destruct Hin].
      destruct (le_auth (se_load e)); cbn [lo_requests] in Hin;
        try (destruct Hin as [Hin | []]; discriminate).
      destruct (le_slateError (se_load e)); cbn [lo_requests] in Hin;
        [destruct Hin as [Hin | [Hin | []]]; discriminate |].
      destruct (le_picksError (se_load e)); cbn [lo_requests] in Hin;
        destruct Hin as [Hin | [Hin | [Hin | []]]]; discriminate.
    + intros _. eexists. reflexivity.
Qed.

(** A run that does not get past its guards sends no upsert. *)
Lemma submit_requests_only (r : Screen) (e : SubmitEnv) (db : Database)
    (rows : list PickWrite) (cols : list string) :
  In (ReqUpsertPicks rows cols) (so_requests (submitAllPicks r e db)) ->
  rows = map pickWrite (tempPicks r) /\ cols = onConflict
  /\ tempPicks r <> []
  /\ exists lg uid, league r = Some lg /\ se_auth e = AuthUser uid.
Proof.
  intros Hin.
  destruct (league r) as [lg |] eqn:Hlg;
    [| unfold submitAllPicks in Hin; rewrite Hlg in Hin; destruct Hin].
  destruct (tempPicks r) as [| p0 ps] eqn:Htp;
    [unfold submitAllPicks in Hin; rewrite Hlg, Htp in Hin; destruct Hin |].
  destruct (se_auth e) as [uid | |] eqn:Hauth;
    try (unfold submitAllPicks in Hin; rewrite Hlg, Htp, Hauth in Hin;
         cbn in Hin; destruct Hin as [Hin | []]; discriminate).
  assert (Hne : tempPicks r <> []) by (rewrite Htp; discriminate).
  destruct (submit_requests r e db lg uid Hlg Hne Hauth) as (rest & Hreq & Hrest & _).
  rewrite Hreq, Htp in Hin.
  destruct Hin as [Hin | [Hin | Hin]]; [discriminate | | destruct (Hrest _ _ Hin)].
  injection Hin as H1 H2.
  split; [symmetry; exact H1 | split; [symmetry; exact H2 |]].
  split; [discriminate |]. exists lg, uid. split; reflexivity.
Qed.

(** C6.  A run of [submitAllPicks] that gets past its guards (league
    loaded, session not empty, user signed in) sends one upsert request:
    it names the five columns league, user, season, week and game as its
    conflict target and carries, for each temporary pick of the render
    and in their order, a row with the league, user, season, week, game,
    side, line value and unlock time of that pick and with [locked]
    false; no run sends any other upsert.  When the upsert succeeds, the
    run ends with 'Picks Submitted!'; then, with one temporary pick per
    game: under the composite identity of each pick the table holds one
    row if it held none and as many as before otherwise (overwritten,
    not duplicated), every row under that identity has the side, line
    value and unlock time of the pick, with [locked] false, and the rows
    under the identity of no pick of the session are still there. *)
Theorem submit_upserts_unlocked (r : Screen) (e : SubmitEnv) (db : Database) :
  let written :=
    map (fun p => mkPickWrite (league_id p) (user_id p) (season p) (week p)
                              (game_id p) (side p) (line_value p)
                              (unlock_at p) false)
        (tempPicks r) in
  let key := ["league_id"; "user_id"; "season"; "week"; "game_id"]%string in
  let table' := picks_table (so_db (submitAllPicks r e db)) in
  (forall lg uid,
      league r = Some lg -> tempPicks r <> [] -> se_auth e = AuthUser uid ->
      (exists rest,
          so_requests (submitAllPicks r e db)
          = ReqGetUser :: ReqUpsertPicks written key :: rest
          /\ forall rows cols, ~ In (ReqUpsertPicks rows cols) rest)
      /\ (se_upsertError e = false ->
          exists rl, so_result (submitAllPicks r e db)
                     = Submitted (tempPicksCount r) (League.name lg) rl))
  /\ (forall rows cols,
        In (ReqUpsertPicks rows cols) (so_requests (submitAllPicks r e db)) ->
        rows = written /\ cols = key)
  /\ (forall c nm rl,
        so_result (submitAllPicks r e db) = Submitted c nm rl ->
        NoDup (map game_id (tempPicks r)) ->
        (forall p, In p (tempPicks r) ->
           List.length (filter (sameKey p) table')
           = Nat.max 1 (List.length (filter (sameKey p) (picks_table db)))
           /\ forall row, In row table' -> sameKey p row = true ->
                side row = side p /\ line_value row = line_value p
                /\ unlock_at row = unlock_at p /\ locked row = false)
        /\ (forall row, In row (picks_table db) ->
              (forall p, In p (tempPicks r) -> sameKey p row = false) ->
              In row table')).
Proof.
  intros written key table'.
  assert (Hwritten : written = map pickWrite (tempPicks r)) by reflexivity.
  assert (Hkey : key = onConflict) by reflexivity.
  split; [| split].
  - intros lg uid Hlg Hne Hauth.
    destruct (submit_requests r e db lg uid Hlg Hne Hauth)
      as (rest & Hreq & Hrest & Hres).
    split; [| exact Hres].
    exists rest. rewrite Hwritten, Hkey. split; assumption.
  - intros rows cols Hin.
    destruct (submit_requests_only r e db rows cols Hin) as (Hrows & Hcols & _).
    rewrite Hwritten, Hkey. split; assumption.
  - intros c nm rl Hres Hnd.
    destruct (submitted_inv _ _ _ _ _ _ Hres) as (_ & Hpt & _).
    assert (Hndw : NoDup (map w_game_id (map pickWrite (tempPicks r))))
      by (rewrite map_map; exact Hnd).
    unfold table'. rewrite Hpt. split.
    + intros p Hin.
      assert (Hinw : In (pickWrite p) (map pickWrite (tempPicks r)))
        by (apply in_map, Hin).
      split.
      * rewrite <- !(filter_ext _ _ (conflicts_pickWrite p)).
        apply upsertRows_count; assumption.
      * intros row Hrow Hc. rewrite <- conflicts_pickWrite in Hc.
        destruct (upsertRows_origin _ _ _ _ _ Hrow) as [[_ Hno] | (w & Hw & Hcar)].
        -- rewrite (Hno _ Hinw) in Hc. discriminate.
        -- assert (Hwp : w = pickWrite p).
           { apply (NoDup_map_inj w_game_id _ _ _ Hndw Hw Hinw).
             apply conflicts_game_id in Hc.
             destruct Hcar as (_ & _ & _ & _ & Hg & _). congruence. }
           subst w. apply carries_pickWrite in Hcar.
           destruct Hcar as (_ & _ & _ & _ & _ & Hs & Hv & Hu & Hl).
           repeat split; assumption.
    + intros row Hrow Hother.
      apply upsertRows_keeps_others; [exact Hrow |].
      intros w Hw. apply in_map_iff in Hw. destruct Hw as (p & Hp & Hin).
      subst w. rewrite conflicts_pickWrite. apply Hother, Hin.
Qed.

(** C2, on the alert 'All Picks Selected!'.  League of limit 3, games g1
    and g2 picked; the tap on g3 fills the session and raises the alert.
    'Submit Picks' on that alert runs the [submitAllPicks] of the render
    in which the tap was handled, whose [tempPicks] are still g1 and g2:
    it ends with 'Picks Submitted!' for 2 picks, the session of three is
    emptied, and storage holds g1 and g2 only.  The button 'Submit 3
    Picks' of the render on display writes all three. *)
Theorem prompt_submit_drops_last_pick :
  let filled := tap (screen demoTwoPicked) demoThirdTap in
  map game_id (tempPicks filled) = ["g1"; "g2"; "g3"]%string
  /\ (exists w',
        tapThenPromptSubmit demoThirdTap (demoSubmitEnv false) demoTwoPicked
        = Some (Submitted 2 "Friends" Loaded, w')
        /\ tempPicks (screen w') = []
        /\ map game_id (picks_table (database w')) = ["g1"; "g2"]%string
        /\ map game_id (picks (screen w')) = ["g1"; "g2"]%string)
  /\ (exists w',
        pressSubmitButton (demoSubmitEnv false)
                          (mkWorld filled (database demoTwoPicked))
        = (Submitted 3 "Friends" Loaded, w')
        /\ tempPicks (screen w') = []
        /\ map game_id (picks_table (database w'))
           = ["g1"; "g2"; "g3"]%string).
Proof.
  split; [vm_compute; reflexivity | split].
  - eexists. split; [vm_compute; reflexivity |].
    repeat split.
  - eexists. split; [vm_compute; reflexivity |].
    repeat split.
Qed.

(* ================================================================== *)
(** * isPickVisible                                                     *)
(* ================================================================== *)

Lemma strictEq_owner (viewer : option string) (owner : string) :
  strictEq viewer (Some owner) = true <-> viewer = Some owner.
Proof.
  destruct viewer as [x |]; simpl.
  - rewrite String.eqb_eq. split; congruence.
  - split; discriminate.
Qed.

(** C4.  A pick without [unlock_at] is visible on every screen at every
    reading of the clock.  On the screen of the member who owns the pick
    (the picks listed are those of the route's [userId]): to a viewer who
    is not the owner, a pick with [unlock_at = T] is hidden at every
    reading before [T] and visible at every reading from [T] on; to the
    owner it is visible at every reading. *)
Theorem visibility_window (r : MemberPicksScreen) (pick : Pick) :
  (forall t, unlock_at pick = None -> isPickVisible r t pick = true)
  /\ (userId r = Some (user_id pick) ->
      (forall T t,
          currentUserId r <> Some (user_id pick) ->
          unlock_at pick = Some (IsoInstant T) ->
          (t < T -> isPickVisible r t pick = false)
          /\ (T <= t -> isPickVisible r t pick = true))
      /\ (forall t,
            currentUserId r = Some (user_id pick) ->
            isPickVisible r t pick = true)).
Proof.
  split.
  - intros t Hnone. unfold isPickVisible. rewrite Hnone.
    destruct (strictEq _ _); reflexivity.
  - intros Hmember. split.
    + intros T t Hother Hunlock. unfold isPickVisible.
      rewrite Hmember, Hunlock.
      destruct (strictEq (currentUserId r) (Some (user_id pick))) eqn:Heq.
      * apply strictEq_owner in Heq. contradiction.
      * simpl. rewrite Z.geb_leb. split; intros Ht.
        -- apply Z.leb_gt. exact Ht.
        -- apply Z.leb_le. exact Ht.
    + intros t Howner. unfold isPickVisible. rewrite Hmember.
      replace (strictEq (currentUserId r) (Some (user_id pick))) with true
        by (symmetry; apply strictEq_owner; exact Howner).
      reflexivity.
Qed.

(** C9, as stated, fails: the call takes the pick alone, and reads the
    clock itself.  Two calls in one render, for one pick and one viewer,
    differ when the clock has moved between them. *)
Lemma visibility_reads_the_clock :
  isPickVisible (demoMemberScreen (Some "u2"%string)) 1756825200000
                (demoPick "u1" (Some (IsoInstant 1757192400000)))
  <> isPickVisible (demoMemberScreen (Some "u2"%string)) 1757192400000
                   (demoPick "u1" (Some (IsoInstant 1757192400000))).
Proof. vm_compute. discriminate. Qed.

(** C9, amended.  The result of [isPickVisible] is fixed by the signed-in
    user and the member of the route (the state of the render), the
    [unlock_at] of the pick, and the reading of the clock taken inside
    the call; and a pick visible at one reading is visible at every
    later one. *)
Theorem visibility_determined (r1 r2 : MemberPicksScreen) (p1 p2 : Pick)
    (t1 t2 : Z) :
  currentUserId r1 = currentUserId r2 -> userId r1 = userId r2 ->
  unlock_at p1 = unlock_at p2 ->
  (t1 = t2 -> isPickVisible r1 t1 p1 = isPickVisible r2 t2 p2)
  /\ (t1 <= t2 -> isPickVisible r1 t1 p1 = true ->
      isPickVisible r2 t2 p2 = true).
Proof.
  intros Hc Hu Hp. unfold isPickVisible. rewrite Hc, Hu, Hp. split.
  - intros Ht. rewrite Ht. reflexivity.
  - intros Ht.
    destruct (strictEq (currentUserId r2) (userId r2)); [reflexivity |].
    destruct (unlock_at p2) as [s |]; [| reflexivity].
    destruct (negb (truthyDateString s)); [reflexivity |].
    destruct (parseDate s) as [u |]; [| discriminate].
    rewrite !Z.geb_leb. intros H. apply Z.leb_le in H. apply Z.leb_le. lia.
Qed.

(* ================================================================== *)
(** * One temporary pick per game                                       *)
(* ================================================================== *)

Lemma selectSide_tempPicks (e : PickEnv) (g : string) (sd : Side) (v : Q)
    (s : Screen) :
  tempPicks (snd (selectSide e g sd v s)) = tempPicks s
  \/ exists n, game_id n = g
       /\ tempPicks (snd (selectSide e g sd v s))
          = if isSome (find (isGame g) (tempPicks s))
            then map (fun p => if isGame g p then n else p) (tempPicks s)
            else tempPicks s ++ [n].
Proof.
  unfold selectSide, handlePickSide.
  destruct (league s) as [lg |]; [| left; reflexivity].
  destruct (pe_auth e); try (left; reflexivity).
  destruct (isSome (find (isGame g) (picks s))); [left; reflexivity |].
  destruct (isSome (find (isGame g) (tempPicks s))); simpl.
  - right. eexists. split; [| reflexivity]. reflexivity.
  - destruct (Z.of_nat (List.length (tempPicks s)) >=? _); simpl;
      [left; reflexivity |].
    right. eexists. split; [| reflexivity]. reflexivity.
Qed.

(** The sessions reached by taps from a session with at most one
    temporary pick per game, as the empty one, have at most one per game. *)
Lemma taps_one_pick_per_game (ts : list Tap) :
  forall s : Screen,
    (forall g, (List.length (filter (isGame g) (tempPicks s)) <= 1)%nat) ->
    forall g, (List.length (filter (isGame g) (tempPicks (taps ts s))) <= 1)%nat.
Proof.
  induction ts as [| t ts IH]; intros s Hs; [exact Hs |].
  change (taps (t :: ts) s) with (taps ts (tap s t)).
  apply IH. intros g. unfold tap.
  destruct (selectSide_tempPicks (tap_env t) (tap_game t) (tap_side t)
              (tap_value t) s) as [Heq | (n & Hn & Heq)]; rewrite Heq.
  - apply Hs.
  - destruct (String.eqb g (tap_game t)) eqn:Hg.
    + apply String.eqb_eq in Hg. subst g.
      rewrite filter_after_select; [simpl; lia | apply isGame_self, Hn | apply Hs].
    + apply String.eqb_neq in Hg.
      rewrite filter_other_after_select; [apply Hs | apply isGame_self, Hn | exact Hg].
Qed.

(* ================================================================== *)
(** * The theorems at work on the league of three games                 *)
(* ================================================================== *)

Lemma submitted_pick_immutable_witness :
  find (isGame "g1") (picks demoSubmittedScreen)
  = Some (demoPick "u1" (Some (IsoInstant 1757192400000)))
  /\ snd (handlePickSide demoSubmittedScreen demoPickEnv "g1" AWAY (3 # 1)%Q) = []
  /\ selectSide demoPickEnv "g1" AWAY (3 # 1)%Q demoSubmittedScreen
     = (AlreadySubmitted, demoSubmittedScreen).
Proof.
  assert (Hd : find (isGame "g1") (picks demoSubmittedScreen)
               = Some (demoPick "u1" (Some (IsoInstant 1757192400000))))
    by reflexivity.
  destruct (submitted_pick_immutable demoSubmittedScreen "g1"%string _ Hd)
    as [Hnone Halert].
  split; [exact Hd | split].
  - apply Hnone.
  - apply (Halert demoPickEnv AWAY (3 # 1)%Q (demoLeague (JsNum 3)) "u1"%string);
      reflexivity.
Defined.

Lemma upsert_by_game_witness :
  let s := demoScreen (JsNum 3) in
  let s1 := snd (selectSide demoPickEnv "g1" HOME (-3 # 1)%Q s) in
  let s2 := snd (selectSide demoPickEnv "g1" AWAY (3 # 1)%Q s1) in
  tempPicksCount s < pickLimit s
  /\ exists p, filter (isGame "g1") (tempPicks s2) = [p]
               /\ side p = AWAY /\ line_value p = (3 # 1)%Q.
Proof.
  intros s s1 s2.
  assert (Hroom : tempPicksCount s < pickLimit s) by reflexivity.
  split; [exact Hroom |].
  destruct (upsert_by_game s demoPickEnv demoPickEnv "g1"%string
              (demoLeague (JsNum 3)) "u1"%string "u1"%string
              eq_refl eq_refl eq_refl eq_refl (le_S 0 0 (le_n 0))
              (or_intror Hroom))
    as [(p & Hf & Hs & Hv & _) _].
  exists p. repeat split; assumption.
Defined.


Lemma falsy_pick_limit_is_five_witness :
  let s := demoScreen (JsNum 0) in
  League.pick_limit (demoLeague (JsNum 0)) = JsNum 0
  /\ pickLimit s = 5
  /\ fst (selectSide demoPickEnv "g1" HOME (-3 # 1)%Q s) = Selected 1 5 false.
Proof.
  intros s.
  destruct (falsy_pick_limit_is_five s (demoLeague (JsNum 0)) eq_refl
              (or_intror (or_intror eq_refl)))
    as (HL & _ & Hsel).
  split; [reflexivity | split; [exact HL |]].
  destruct (Hsel demoPickEnv "g1"%string HOME (-3 # 1)%Q "u1"%string
              eq_refl eq_refl eq_refl) as [Hacc _].
  apply Hacc. reflexivity.
Defined.

Lemma submit_empty_session_witness :
  tempPicks (demoScreen (JsNum 3)) = []
  /\ submitAllPicks (demoScreen (JsNum 3)) (demoSubmitEnv false) demoDatabase
     = mkSubmitOutcome SubmitSkipped [] [] demoDatabase.
Proof.
  split; [reflexivity |].
  apply (submit_empty_session (demoScreen (JsNum 3)) (demoSubmitEnv false)
           demoDatabase eq_refl).
Defined.

Lemma demo_games_distinct :
  NoDup (map game_id (tempPicks (tap (screen demoTwoPicked) demoThirdTap))).
Proof.
  change (NoDup ["g1"; "g2"; "g3"]%string).
  repeat constructor; simpl; intuition discriminate.
Defined.

Lemma submit_upserts_unlocked_witness :
  let r := screen demoFilled in
  let o := submitAllPicks r (demoSubmitEnv false) demoPriorDatabase in
  let p := demoPick "u1" (Some (IsoInstant 1757192400000)) in
  In p (tempPicks r)
  /\ map (fun row => (user_id row, game_id row, side row, locked row))
         (picks_table demoPriorDatabase)
     = [("u1", "g1", AWAY, true); ("u2", "g1", AWAY, true)]%string
  /\ so_result o = Submitted 3 "Friends" Loaded
  /\ List.length (filter (sameKey p) (picks_table (so_db o))) = 1%nat
  /\ (forall row, In row (picks_table (so_db o)) -> sameKey p row = true ->
        side row = HOME /\ line_value row = (-3 # 1)%Q
        /\ unlock_at row = Some (IsoInstant 1757192400000)
        /\ locked row = false)
  /\ List.length (picks_table (so_db o)) = 4%nat.
Proof.
  intros r o p.
  assert (Hin : In p (tempPicks r)) by (left; reflexivity).
  assert (Hres : so_result o = Submitted 3 "Friends" Loaded) by reflexivity.
  split; [exact Hin | split; [reflexivity | split; [exact Hres |]]].
  destruct (submit_upserts_unlocked r (demoSubmitEnv false) demoPriorDatabase)
    as (_ & _ & Hrun).
  destruct (Hrun 3 "Friends"%string Loaded Hres demo_games_distinct)
    as [Hpicks _].
  destruct (Hpicks p Hin) as [Hcount Hrows].
  split; [exact Hcount | split; [exact Hrows | reflexivity]].
Defined.

Lemma visibility_window_witness :
  let r := demoMemberScreen (Some "u2"%string) in
  let pick := demoPick "u1" (Some (IsoInstant 1757192400000)) in
  userId r = Some (user_id pick)
  /\ isPickVisible r 1756825200000 pick = false
  /\ isPickVisible r 1757192400000 pick = true
  /\ isPickVisible (demoMemberScreen (Some "u1"%string)) 1756825200000 pick = true.
Proof.
  intros r pick.
  destruct (visibility_window r pick) as [_ Hmember].
  destruct (Hmember eq_refl) as [Hother _].
  assert (Hne : currentUserId r <> Some (user_id pick)) by discriminate.
  destruct (Hother 1757192400000 1756825200000 Hne eq_refl) as [Hbefore _].
  destruct (Hother 1757192400000 1757192400000 Hne eq_refl) as [_ Hafter].
  destruct (visibility_window (demoMemberScreen (Some "u1"%string)) pick)
    as [_ Hown].
  destruct (Hown eq_refl) as [_ Howner].
  split; [reflexivity | split; [| split]].
  - apply Hbefore. reflexivity.
  - apply Hafter. discriminate.
  - apply Howner. reflexivity.
Defined.

Lemma visibility_determined_witness :
  let r := demoMemberScreen (Some "u2"%string) in
  let p1 := demoPick "u1" (Some (IsoInstant 1757192400000)) in
  let p2 := demoPick "u3" (Some (IsoInstant 1757192400000)) in
  unlock_at p1 = unlock_at p2
  /\ isPickVisible r 1757192400000 p1 = isPickVisible r 1757192400000 p2.
Proof.
  intros r p1 p2. split; [reflexivity |].
  destruct (visibility_determined r r p1 p2 1757192400000 1757192400000
              eq_refl eq_refl eq_refl) as [Hsame _].
  apply Hsame. reflexivity.
Defined.

(* ================================================================== *)
(** * loadSlateAndPicks                                                 *)
(* ================================================================== *)

Lemma find_none_iff (f : Pick -> bool) (l : list Pick) :
  find f l = None <-> forall p, In p l -> f p = false.
Proof.
  split.
  - intros H p Hin. exact (find_none f l H p Hin).
  - induction l as [| a l IH]; intros H; [reflexivity |].
    simpl. rewrite (H a (or_introl eq_refl)).
    apply IH. intros p Hp. apply H. right. exact Hp.
Qed.

(** The state setters of a load that succeeds. *)
Lemma loaded_updates (r : Screen) (e : LoadEnv) (db : Database) :
  lo_result (loadSlateAndPicks r e db) = Loaded ->
  exists lid uid,
    truthyString (leagueId r) = Some lid /\ le_auth e = AuthUser uid
    /\ lo_updates (loadSlateAndPicks r e db)
       = [SetLoading true;
          SetGamesWithLines (slateCards lid r db (storedPicks lid uid r db));
          SetPicks (storedPicks lid uid r db); SetTempPicks [];
          SetLoading false; SetRefreshing false].
Proof.
  unfold loadSlateAndPicks.
  destruct (truthyString (leagueId r)) as [lid |]; [| discriminate].
  destruct (le_auth e) as [uid | |]; try discriminate.
  destruct (le_slateError e); [discriminate |].
  destruct (le_picksError e); [discriminate |].
  intros _. exists lid, uid. repeat split.
Qed.

(** The state setters of a load that does not. *)
Lemma not_loaded_updates (r : Screen) (e : LoadEnv) (db : Database) :
  lo_result (loadSlateAndPicks r e db) <> Loaded ->
  lo_updates (loadSlateAndPicks r e db) = []
  \/ lo_updates (loadSlateAndPicks r e db)
     = [SetLoading true; SetLoading false; SetRefreshing false].
Proof.
  unfold loadSlateAndPicks.
  destruct (truthyString (leagueId r)); [| left; reflexivity].
  destruct (le_auth e); try (right; reflexivity).
  destruct (le_slateError e); [right; reflexivity |].
  destruct (le_picksError e); [right; reflexivity |].
  intros H. contradiction H. reflexivity.
Qed.

Lemma storedPicks_spec (lid uid : string) (r : Screen) (db : Database)
    (pick : Pick) :
  In pick (storedPicks lid uid r db)
  <-> In pick (picks_table db) /\ inScope lid uid r pick.
Proof.
  unfold storedPicks, inScope. rewrite filter_In.
  rewrite !andb_true_iff, !String.eqb_eq, !Z.eqb_eq. tauto.
Qed.

Lemma slateCards_spec (lid : string) (r : Screen) (db : Database)
    (picksData : list Pick) (card : GameWithLine) :
  In card (slateCards lid r db picksData) ->
  existingPick card = find (isGame (Line.game_id (line card))) picksData
  /\ In (mkSlateRow (line card) (Some (game card))) (slate_table db)
  /\ Line.league_id (line card) = lid
  /\ Line.season (line card) = currentSeason r
  /\ Line.week (line card) = currentWeek r.
Proof.
  unfold slateCards. intros Hin. apply in_flat_map in Hin.
  destruct Hin as (row & Hrow & Hcard).
  apply filter_In in Hrow. destruct Hrow as [Hrow Hscope].
  rewrite !andb_true_iff, String.eqb_eq, !Z.eqb_eq in Hscope.
  destruct row as [sl gm]. cbn [slate games] in *.
  destruct gm as [g |]; [| destruct Hcard].
  destruct Hcard as [Hcard | []]. subst card.
  cbn [existingPick line game].
  split; [reflexivity |]. split; [exact Hrow |]. tauto.
Qed.

(** X1.  A load that succeeds leaves the session empty and both spinners
    off; the picks of the screen are the stored picks of the league of
    the route, the signed-in user and the season and week on display,
    in the order of the table; each card comes from a slate row of that
    league, season and week that has a game, and shows the stored pick
    for the game of its line when there is one. *)
Theorem load_shows_stored_picks (r : Screen) (e : LoadEnv) (db : Database)
    (s : Screen) :
  lo_result (loadSlateAndPicks r e db) = Loaded ->
  let s' := applyUpdates (lo_updates (loadSlateAndPicks r e db)) s in
  exists lid uid,
    truthyString (leagueId r) = Some lid /\ le_auth e = AuthUser uid
    /\ tempPicks s' = [] /\ loading s' = false /\ refreshing s' = false
    /\ picks s' = storedPicks lid uid r db
    /\ (forall pick, In pick (picks s') <->
          In pick (picks_table db) /\ inScope lid uid r pick)
    /\ (forall card, In card (gamesWithLines s') ->
          existingPick card
          = find (isGame (Line.game_id (line card))) (picks s')
          /\ In (mkSlateRow (line card) (Some (game card))) (slate_table db)
          /\ Line.league_id (line card) = lid
          /\ Line.season (line card) = currentSeason r
          /\ Line.week (line card) = currentWeek r).
Proof.
  intros Hres s'. subst s'.
  destruct (loaded_updates r e db Hres) as (lid & uid & Hlid & Hauth & Hup).
  rewrite Hup. exists lid, uid.
  cbn [applyUpdates fold_left applyUpdate tempPicks loading refreshing
       picks gamesWithLines].
  repeat (split; [first [assumption | reflexivity] |]).
  split.
  - intros pick. apply storedPicks_spec.
  - intros card Hin. apply (slateCards_spec lid r db _ card Hin).
Qed.

(** X2.  Whatever the world answers, a load for a route with a league
    ends with both spinners off; a load that does not succeed leaves the
    cards, the stored picks on screen and the session as they were.  A
    load for a route without league sets nothing and asks nothing: after
    a pull to refresh the spinner stays on. *)
Theorem load_failure_keeps_screen (r : Screen) (e : LoadEnv) (db : Database)
    (s : Screen) :
  let o := loadSlateAndPicks r e db in
  let s' := applyUpdates (lo_updates o) s in
  (truthyString (leagueId r) <> None ->
   loading s' = false /\ refreshing s' = false)
  /\ (lo_result o <> Loaded ->
      gamesWithLines s' = gamesWithLines s /\ picks s' = picks s
      /\ tempPicks s' = tempPicks s)
  /\ (truthyString (leagueId r) = None ->
      lo_updates o = [] /\ lo_requests o = []
      /\ forall w, screen w = r ->
           refreshing (screen (snd (onRefresh e w))) = true).
Proof.
  intros o s'. subst o s'. split; [| split].
  - intros Hlid. unfold loadSlateAndPicks.
    destruct (truthyString (leagueId r)); [| contradiction].
    destruct (le_auth e); try (split; reflexivity).
    destruct (le_slateError e); [split; reflexivity |].
    destruct (le_picksError e); split; reflexivity.
  - intros Hres.
    destruct (not_loaded_updates r e db Hres) as [Hup | Hup]; rewrite Hup;
      repeat split.
  - intros Hlid. unfold onRefresh, runLoad, loadSlateAndPicks.
    rewrite Hlid. repeat split.
    intros w Hw. rewrite Hw, Hlid. reflexivity.
Qed.

(** X3.  'Clear Selections' empties the session and writes nothing,
    whatever the reload answers.  When the reload succeeds every pick a
    card shows is a stored one; when it does not, the cards are left as
    they were, so a card that showed a cleared pick still shows it and
    stays disabled. *)
Theorem clear_empties_session (e : LoadEnv) (w : World) :
  let res := fst (clearSelections e w) in
  let w' := snd (clearSelections e w) in
  tempPicks (screen w') = [] /\ database w' = database w
  /\ (res = Loaded ->
      forall card pick, In card (gamesWithLines (screen w')) ->
        existingPick card = Some pick -> In pick (picks_table (database w)))
  /\ (res <> Loaded ->
      gamesWithLines (screen w') = gamesWithLines (screen w)
      /\ forall card available,
           In card (gamesWithLines (screen w)) ->
           isSome (existingPick card) = true ->
           disabled (renderGame (screen w') available card) = true).
Proof.
  intros res w'. subst res w'.
  unfold clearSelections, runLoad. cbn [fst snd screen database].
  set (s0 := applyUpdates [SetTempPicks []] (screen w)).
  split; [| split; [reflexivity | split]].
  - apply reload_keeps_empty. reflexivity.
  - intros Hres card pick Hin Hshow.
    destruct (loaded_updates _ _ _ Hres) as (lid & uid & _ & _ & Hup).
    rewrite Hup in Hin.
    cbn [applyUpdates fold_left applyUpdate gamesWithLines] in Hin.
    destruct (slateCards_spec _ _ _ _ _ Hin) as (Hfind & _).
    rewrite Hshow in Hfind. symmetry in Hfind. apply find_some in Hfind.
    apply (storedPicks_spec lid uid (screen w)), Hfind.
  - intros Hres.
    assert (Hcards : gamesWithLines
                       (applyUpdates
                          (lo_updates (loadSlateAndPicks (screen w) e (database w)))
                          s0) = gamesWithLines (screen w)).
    { destruct (not_loaded_updates _ _ _ Hres) as [Hup | Hup]; rewrite Hup;
        reflexivity. }
    split; [exact Hcards |].
    intros card available _ Hshow. unfold renderGame. cbn [disabled].
    rewrite Hshow. apply orb_true_r.
Qed.

(* ================================================================== *)
(** * The session as the cards build it                                 *)
(* ================================================================== *)

(** A call of [handlePickSide] leaves the state alone or stores
    [newTempPick], in the session and on the cards of the game. *)
Lemma selectSide_step (e : PickEnv) (g : string) (sd : Side) (v : Q)
    (s : Screen) :
  snd (selectSide e g sd v s) = s
  \/ exists lg uid,
       league s = Some lg /\ pe_auth e = AuthUser uid
       /\ find (isGame g) (picks s) = None
       /\ (isSome (find (isGame g) (tempPicks s)) = true
           \/ tempPicksCount s < pickLimit s)
       /\ snd (selectSide e g sd v s)
          = applyUpdates
              [SetTempPicks
                 (if isSome (find (isGame g) (tempPicks s))
                  then map (fun p => if isGame g p
                                     then newTempPick lg uid s e g sd v else p)
                           (tempPicks s)
                  else tempPicks s ++ [newTempPick lg uid s e g sd v]);
               SetGamesWithLines
                 (map (fun gwl => if String.eqb (Game.id (game gwl)) g
                                  then mkGameWithLine (game gwl) (line gwl)
                                         (Some (newTempPick lg uid s e g sd v))
                                  else gwl) (gamesWithLines s))] s.
Proof.
  unfold selectSide, handlePickSide, pickLimit, tempPicksCount.
  destruct (league s) as [lg |]; [| left; reflexivity].
  destruct (pe_auth e) as [uid | |]; try (left; reflexivity).
  destruct (find (isGame g) (picks s)) eqn:Hsub; [left; reflexivity |].
  cbn [isSome].
  destruct (isSome (find (isGame g) (tempPicks s))) eqn:Htmp; cbn [negb andb].
  - right. exists lg, uid. repeat split. left. reflexivity.
  - destruct (Z.of_nat (List.length (tempPicks s)) >=? orDefault (League.pick_limit lg) 5)
      eqn:Hge; [left; reflexivity |].
    right. exists lg, uid. repeat split. right.
    rewrite Z.geb_leb in Hge. apply Z.leb_gt in Hge. exact Hge.
Qed.

Lemma sessionPick_frame (lg : League.t) (s s' : Screen) (p : Pick) :
  currentSeason s' = currentSeason s -> currentWeek s' = currentWeek s ->
  sessionPick lg s p -> sessionPick lg s' p.
Proof.
  unfold sessionPick. intros Hs Hw H. rewrite Hs, Hw. exact H.
Qed.

Lemma sessionPick_new (lg : League.t) (uid : string) (s : Screen)
    (e : PickEnv) (g : string) (sd : Side) (v : Q) :
  sessionPick lg s (newTempPick lg uid s e g sd v).
Proof.
  unfold sessionPick, newTempPick. cbn. repeat split. eexists. reflexivity.
Qed.

Lemma selectSide_sessionPicks (e : PickEnv) (g : string) (sd : Side) (v : Q)
    (s : Screen) (lg : League.t) :
  league s = Some lg ->
  Forall (sessionPick lg s) (tempPicks s) ->
  Forall (sessionPick lg s) (tempPicks (snd (selectSide e g sd v s))).
Proof.
  intros Hlg Hall.
  destruct (selectSide_step e g sd v s)
    as [Hsame | (lg' & uid & Hlg' & _ & _ & _ & Hstep)];
    [rewrite Hsame; exact Hall |].
  assert (lg' = lg) by congruence. subst lg'.
  rewrite Hstep. cbn [applyUpdates fold_left applyUpdate tempPicks].
  destruct (isSome (find (isGame g) (tempPicks s))).
  - apply Forall_forall. intros p Hin. apply in_map_iff in Hin.
    destruct Hin as (q & Hq & Hqin).
    destruct (isGame g q); subst p; [apply sessionPick_new |].
    rewrite Forall_forall in Hall. apply Hall, Hqin.
  - apply Forall_app. split; [exact Hall |].
    constructor; [apply sessionPick_new | constructor].
Qed.

(** X4.  Over any sequence of calls of [handlePickSide], every temporary
    pick of the session is of the league of the screen and of the season
    and week on display, is not locked, carries no result and no points,
    and has an unlock time; the empty session is such a session. *)
Theorem session_picks_are_fresh (s : Screen) (lg : League.t) (ts : list Tap) :
  league s = Some lg ->
  Forall (sessionPick lg s) (tempPicks s) ->
  Forall (sessionPick lg s) (tempPicks (taps ts s)).
Proof.
  revert s. induction ts as [| t ts IH]; intros s Hlg Hall; [exact Hall |].
  change (taps (t :: ts) s) with (taps ts (tap s t)).
  destruct (selectSide_frame (tap_env t) (tap_game t) (tap_side t)
              (tap_value t) s) as (_ & Hl & _ & _ & _ & _ & Hse & Hwk).
  fold (tap s t) in Hl, Hse, Hwk.
  assert (Hstep : Forall (sessionPick lg (tap s t)) (tempPicks (tap s t))).
  { eapply Forall_impl; [| apply (selectSide_sessionPicks _ _ _ _ s lg Hlg Hall)].
    intros p. apply sessionPick_frame; assumption. }
  assert (Hlg' : league (tap s t) = Some lg) by congruence.
  specialize (IH (tap s t) Hlg' Hstep).
  eapply Forall_impl; [| exact IH].
  intros p. apply sessionPick_frame; congruence.
Qed.

Lemma NoDup_snoc {A : Type} (l : list A) (x : A) :
  NoDup l -> ~ In x l -> NoDup (l ++ [x]).
Proof.
  induction l as [| a l IH]; intros Hnd Hx; simpl.
  - constructor; [intros [] | constructor].
  - inversion Hnd as [| b m Ha Hl]; subst. constructor.
    + intros Hin. apply in_app_or in Hin. destruct Hin as [Hin | [Hin | []]].
      * contradiction.
      * apply Hx. left. symmetry. exact Hin.
    + apply IH; [exact Hl |]. intros Hin. apply Hx. right. exact Hin.
Qed.

(** A press on a card does nothing, or goes through [handlePickSide] on
    its append branch: the card showed no pick, so the session held none
    for its game. *)
Lemma pressCard_cases (s : Screen) (c : CardPress) :
  cardsShowSession s ->
  pressCard s c = s
  \/ exists item v lg uid,
       nth_error (gamesWithLines s) (cp_index c) = Some item
       /\ existingPick item = None /\ loading s = false
       /\ isGameStarted (cp_clock c)
            (renderGame s (cp_lines_available c) item) = false
       /\ linesAvailable (renderGame s (cp_lines_available c) item) = true
       /\ spreadOf (cp_side c) (line item) = Some v
       /\ league s = Some lg /\ pe_auth (cp_env c) = AuthUser uid
       /\ find (isGame (Game.id (game item))) (picks s) = None
       /\ find (isGame (Game.id (game item))) (tempPicks s) = None
       /\ tempPicksCount s < pickLimit s
       /\ pressCard s c
          = applyUpdates
              [SetTempPicks
                 (tempPicks s
                  ++ [newTempPick lg uid s (cp_env c) (Game.id (game item))
                                  (cp_side c) v]);
               SetGamesWithLines
                 (map (fun gwl =>
                         if String.eqb (Game.id (game gwl)) (Game.id (game item))
                         then mkGameWithLine (game gwl) (line gwl)
                                (Some (newTempPick lg uid s (cp_env c)
                                         (Game.id (game item)) (cp_side c) v))
                         else gwl) (gamesWithLines s))] s.
Proof.
  intros Hshow. unfold pressCard.
  destruct (nth_error (gamesWithLines s) (cp_index c)) as [item |] eqn:Hnth;
    [| left; reflexivity].
  unfold pressTeam, handlePick, isLocked, renderGame.
  cbn [disabled gameWithLine].
  destruct (loading s) eqn:Hload; [left; reflexivity |].
  destruct (existingPick item) as [shown |] eqn:Hex; [left; reflexivity |].
  cbn [isSome orb negb andb].
  set (props := mkGameCardProps item (cp_lines_available c) false).
  destruct (isGameStarted (cp_clock c) props) eqn:Hstart; [left; reflexivity |].
  cbn [orb negb andb].
  destruct (linesAvailable props) eqn:Hlines; [| left; reflexivity].
  destruct (spreadOf (cp_side c) (line item)) as [v |] eqn:Hspread;
    [| left; reflexivity].
  assert (Hnone : find (isGame (Game.id (game item))) (tempPicks s) = None).
  { apply find_none_iff. intros p Hp.
    destruct (isGame (Game.id (game item)) p) eqn:Hg; [| reflexivity].
    unfold isGame in Hg. apply String.eqb_eq in Hg.
    assert (Hsome : isSome (existingPick item) = true).
    { apply (Hshow p item Hp); [| congruence].
      apply nth_error_In with (n := cp_index c). exact Hnth. }
    rewrite Hex in Hsome. discriminate. }
  destruct (selectSide_step (cp_env c) (Game.id (game item)) (cp_side c) v s)
    as [Hsame | (lg & uid & Hlg & Hauth & Hsub & Hroom & Hstep)];
    [left; exact Hsame |].
  right. exists item, v, lg, uid.
  rewrite Hnone in Hroom, Hstep. cbn [isSome] in Hroom, Hstep.
  destruct Hroom as [Habs | Hroom]; [discriminate |].
  repeat (split; [first [assumption | reflexivity] |]).
  exact Hstep.
Qed.

Lemma pressCard_invariant (s : Screen) (c : CardPress) :
  cardsShowSession s -> NoDup (map game_id (tempPicks s)) ->
  cardsShowSession (pressCard s c)
  /\ NoDup (map game_id (tempPicks (pressCard s c)))
  /\ exists added, tempPicks (pressCard s c) = tempPicks s ++ added.
Proof.
  intros Hshow Hnd.
  destruct (pressCard_cases s c Hshow)
    as [Hsame | (item & v & lg & uid & Hnth & Hex & _ & _ & _ & _ & _ & _ & _
                 & Hnone & _ & Hstep)].
  - rewrite Hsame. split; [exact Hshow | split; [exact Hnd |]].
    exists []. symmetry. apply app_nil_r.
  - rewrite Hstep.
    cbn [applyUpdates fold_left applyUpdate tempPicks gamesWithLines].
    set (g := Game.id (game item)) in *.
    set (n := newTempPick lg uid s (cp_env c) g (cp_side c) v) in *.
    split; [| split].
    + intros pick card Hpick Hcard Hid.
      cbn [tempPicks gamesWithLines] in Hpick, Hcard.
      apply in_map_iff in Hcard. destruct Hcard as (old & Hold & Holdin).
      destruct (String.eqb (Game.id (game old)) g) eqn:Hg; subst card;
        [reflexivity |].
      apply in_app_or in Hpick. destruct Hpick as [Hpick | [Hpick | []]].
      * apply (Hshow pick old Hpick Holdin Hid).
      * subst pick. apply String.eqb_neq in Hg. contradiction Hg.
    + rewrite map_app. apply NoDup_snoc; [exact Hnd |].
      intros Hin. apply in_map_iff in Hin. destruct Hin as (p & Hp & Hpin).
      pose proof (proj1 (find_none_iff _ _) Hnone p Hpin) as Hno.
      unfold isGame in Hno. apply String.eqb_neq in Hno.
      apply Hno. exact Hp.
    + exists [n]. reflexivity.
Qed.

(** A press handled on the render on display. *)
Lemma pressCardOn_current (s : Screen) (c : CardPress) :
  pressCardOn s c s = pressCard s c.
Proof.
  unfold pressCardOn, pressCard.
  destruct (nth_error (gamesWithLines s) (cp_index c)) as [item |]; [| reflexivity].
  destruct (pressTeam (cp_side c) (cp_clock c)
              (renderGame s (cp_lines_available c) item)) as [[[g sd] v] |];
    [| reflexivity].
  unfold selectSide. destruct (handlePickSide s (cp_env c) g sd v). reflexivity.
Qed.

(** A late handler leaves the state as it is, or sets the session and
    the cards to what it computed from its own render. *)
Lemma pressCardOn_fields (r : Screen) (c : CardPress) (cur : Screen) :
  league (pressCardOn r c cur) = league cur
  /\ (pressCardOn r c cur = cur
      \/ (tempPicks (pressCardOn r c cur) = tempPicks (pressCard r c)
          /\ gamesWithLines (pressCardOn r c cur)
             = gamesWithLines (pressCard r c))).
Proof.
  unfold pressCardOn, pressCard.
  destruct (nth_error (gamesWithLines r) (cp_index c)) as [item |];
    [| split; [reflexivity | left; reflexivity]].
  destruct (pressTeam (cp_side c) (cp_clock c)
              (renderGame r (cp_lines_available c) item)) as [[[g sd] v] |];
    [| split; [reflexivity | left; reflexivity]].
  unfold selectSide.
  destruct (handlePickSide_updates r (cp_env c) g sd v) as [H | (tp & gl & H)];
    destruct (handlePickSide r (cp_env c) g sd v) as [res us];
    cbn [snd] in *; subst us.
  - split; [reflexivity | left; reflexivity].
  - split; [reflexivity | right; split; reflexivity].
Qed.

Lemma pressCard_within_limit (s : Screen) (c : CardPress) :
  tempPicksCount s <= pickLimit s ->
  tempPicksCount (pressCard s c) <= pickLimit s
  /\ league (pressCard s c) = league s.
Proof.
  intros Hlim. unfold pressCard.
  destruct (nth_error (gamesWithLines s) (cp_index c)) as [item |];
    [| split; [exact Hlim | reflexivity]].
  destruct (pressTeam (cp_side c) (cp_clock c)
              (renderGame s (cp_lines_available c) item)) as [[[g sd] v] |];
    [| split; [exact Hlim | reflexivity]].
  split; [apply selectSide_within_limit, Hlim |].
  apply (selectSide_frame (cp_env c) g sd v s).
Qed.

(** What every state of a run of presses satisfies. *)
Lemma latePress_invariant (P : Screen -> Prop) (lgs : option League.t) :
  (forall s, P s <->
     (cardsShowSession s /\ NoDup (map game_id (tempPicks s))
      /\ tempPicksCount s <= pickLimit s /\ league s = lgs)) ->
  forall history p,
    Forall P history -> Forall P (latePress history p).
Proof.
  intros HP history p Hall. unfold latePress.
  destruct history as [| cur rest]; [constructor |].
  constructor; [| exact Hall].
  set (r := nth (lp_behind p) (cur :: rest) cur).
  assert (Hcur : P cur) by (inversion Hall; assumption).
  assert (Hr : P r).
  { destruct (nth_in_or_default (lp_behind p) (cur :: rest) cur) as [Hin | Hd].
    - rewrite Forall_forall in Hall. apply Hall, Hin.
    - unfold r. rewrite Hd. exact Hcur. }
  apply HP in Hcur. destruct Hcur as (Cs & Cn & Cl & Cg).
  apply HP in Hr. destruct Hr as (Rs & Rn & Rl & Rg).
  destruct (pressCard_invariant r (lp_press p) Rs Rn) as (Ns & Nn & _).
  destruct (pressCard_within_limit r (lp_press p) Rl) as (Nl & Ng).
  destruct (pressCardOn_fields r (lp_press p) cur) as (Hlg & [Hsame | [Htp Hgl]]).
  - rewrite Hsame. apply HP. repeat split; assumption.
  - apply HP.
    assert (Hlim : pickLimit (pressCardOn r (lp_press p) cur) = pickLimit r).
    { unfold pickLimit. rewrite Hlg, Cg, Rg. reflexivity. }
    split; [| split; [| split]].
    + intros pick card Hpick Hcard Hid. rewrite Htp in Hpick. rewrite Hgl in Hcard.
      apply (Ns pick card Hpick Hcard Hid).
    + rewrite Htp. exact Nn.
    + rewrite Hlim. unfold tempPicksCount in *. rewrite Htp. exact Nl.
    + rewrite Hlg. exact Cg.
Qed.

Lemma latePresses_serial (cs : list CardPress) :
  forall (s : Screen) (rest : list Screen),
    exists older,
      fold_left latePress (map (mkLatePress 0) cs) (s :: rest)
      = pressCards cs s :: older.
Proof.
  induction cs as [| c cs IH]; intros s rest; [exists rest; reflexivity |].
  cbn [map fold_left latePress lp_behind lp_press nth].
  rewrite pressCardOn_current.
  change (pressCards (c :: cs) s) with (pressCards cs (pressCard s c)).
  apply IH.
Qed.

(** X5.  On a screen whose cards show the session (a card whose game is
    in the session shows a pick), as after a load, whose session holds
    one pick per game and is within the limit: over any run of presses
    on cards, also when a press is handled after later presses have set
    the state, every state of the run holds at most one pick per game,
    stays within the limit, and has its cards show its session.  When
    the presses are handled one after the other the session moreover
    only grows at its end; a handler that finishes late can drop picks
    from it. *)
Theorem cards_pick_each_game_once (s : Screen) :
  cardsShowSession s -> NoDup (map game_id (tempPicks s)) ->
  tempPicksCount s <= pickLimit s ->
  (forall ps s', In s' (latePresses ps s) ->
      cardsShowSession s' /\ NoDup (map game_id (tempPicks s'))
      /\ tempPicksCount s' <= pickLimit s' /\ pickLimit s' = pickLimit s)
  /\ (forall cs,
        hd s (latePresses (map (mkLatePress 0) cs) s) = pressCards cs s
        /\ exists added, tempPicks (pressCards cs s) = tempPicks s ++ added)
  /\ (forall c1 c2,
        tempPicks (pressCardOn s c2 (pressCard s c1)) = tempPicks (pressCard s c1)
        \/ tempPicks (pressCardOn s c2 (pressCard s c1)) = tempPicks (pressCard s c2)).
Proof.
  intros Hshow Hnd Hlim.
  split; [| split].
  - intros ps s' Hin.
    set (P := fun x : Screen =>
                cardsShowSession x /\ NoDup (map game_id (tempPicks x))
                /\ tempPicksCount x <= pickLimit x /\ league x = league s).
    assert (HP : forall x, P x <->
                   (cardsShowSession x /\ NoDup (map game_id (tempPicks x))
                    /\ tempPicksCount x <= pickLimit x /\ league x = league s))
      by (intros x; reflexivity).
    assert (Hall : forall qs h, Forall P h -> Forall P (fold_left latePress qs h)).
    { induction qs as [| q qs IH]; intros h Hh; [exact Hh |].
      cbn [fold_left]. apply IH.
      apply (latePress_invariant P (league s) HP), Hh. }
    assert (Hs : Forall P [s]).
    { constructor; [| constructor]. repeat split; assumption. }
    pose proof (Hall ps [s] Hs) as Hrun.
    rewrite Forall_forall in Hrun.
    destruct (Hrun s' Hin) as (H1 & H2 & H3 & H4).
    repeat split; try assumption.
    unfold pickLimit. rewrite H4. reflexivity.
  - intros cs. split.
    { unfold latePresses.
      destruct (latePresses_serial cs s []) as (older & Hrun).
      rewrite Hrun. reflexivity. }
    revert s Hshow Hnd Hlim. induction cs as [| c cs IH]; intros s Hshow Hnd Hlim.
    + exists []. symmetry. apply app_nil_r.
    + change (pressCards (c :: cs) s) with (pressCards cs (pressCard s c)).
      destruct (pressCard_invariant s c Hshow Hnd) as (Hshow1 & Hnd1 & add1 & Hadd1).
      destruct (pressCard_within_limit s c Hlim) as (Hlim1 & Hlg1).
      assert (Hlim1' : tempPicksCount (pressCard s c) <= pickLimit (pressCard s c)).
      { unfold pickLimit in *. rewrite Hlg1. exact Hlim1. }
      destruct (IH _ Hshow1 Hnd1 Hlim1') as (add2 & Hadd2).
      exists (add1 ++ add2). rewrite Hadd2, Hadd1. symmetry. apply app_assoc.
  - intros c1 c2.
    destruct (pressCardOn_fields s c2 (pressCard s c1)) as (_ & [Hsame | [Htp _]]).
    + left. rewrite Hsame. reflexivity.
    + right. exact Htp.
Qed.

(** Two presses on one render, on the cards of g1 and of g2: the handler
    of the second sets the session it computed from that render, and the
    pick for g1 is gone, from the session and from its card. *)
Example late_press_drops_a_pick :
  map (fun x => map game_id (tempPicks x))
      (latePresses [mkLatePress 0 (demoCardPress 0 HOME);
                    mkLatePress 1 (demoCardPress 1 AWAY)]
                   (demoScreen (JsNum 3)))
  = [["g2"]; ["g1"]; []]%string
  /\ map (fun x => map game_id (tempPicks x))
         (latePresses [mkLatePress 0 (demoCardPress 0 HOME);
                       mkLatePress 0 (demoCardPress 1 AWAY)]
                      (demoScreen (JsNum 3)))
     = [["g1"; "g2"]; ["g1"]; []]%string.
Proof. vm_compute. split; reflexivity. Qed.

(** X6.  On such a screen a press on a card either changes nothing or
    appends one pick to the session: for the game of the card, of the
    side pressed, at the spread of that side on the line of the card.
    It changes nothing when the list is loading, when the card shows a
    pick, when the kickoff of the game is not after the reading of the
    clock at the render of the card, when the lines are marked
    unavailable, or when the line has no spread for that side. *)
Theorem card_press_picks_displayed_spread (s : Screen) (c : CardPress) :
  cardsShowSession s ->
  (pressCard s c = s
   \/ exists item v n,
        nth_error (gamesWithLines s) (cp_index c) = Some item
        /\ spreadOf (cp_side c) (line item) = Some v
        /\ tempPicks (pressCard s c) = tempPicks s ++ [n]
        /\ game_id n = Game.id (game item)
        /\ side n = cp_side c /\ line_value n = v)
  /\ (forall item,
        nth_error (gamesWithLines s) (cp_index c) = Some item ->
        loading s = true
        \/ isSome (existingPick item) = true
        \/ (exists k, Game.kickoff (game item) = IsoInstant k /\ k <= cp_clock c)
        \/ cp_lines_available c = Some false
        \/ spreadOf (cp_side c) (line item) = None ->
        pressCard s c = s).
Proof.
  intros Hshow. split.
  - destruct (pressCard_cases s c Hshow)
      as [Hsame | (item & v & lg & uid & Hnth & _ & _ & _ & _ & Hspread & _ & _
                   & _ & _ & _ & Hstep)]; [left; exact Hsame |].
    right. exists item, v.
    exists (newTempPick lg uid s (cp_env c) (Game.id (game item)) (cp_side c) v).
    rewrite Hstep. repeat split; assumption.
  - intros item Hnth Hwhy. unfold pressCard. rewrite Hnth.
    unfold pressTeam, handlePick, isLocked, isGameStarted, linesAvailable,
      renderGame.
    cbn [disabled gameWithLine lines_available].
    destruct Hwhy as [H | [H | [(k & Hk & Hle) | [H | H]]]].
    + rewrite H. reflexivity.
    + rewrite H, orb_true_r. reflexivity.
    + rewrite Hk. cbn [parseDate].
      replace (k <=? cp_clock c) with true by (symmetry; apply Z.leb_le, Hle).
      rewrite orb_true_r. reflexivity.
    + rewrite H. cbn [negb andb]. rewrite !andb_false_r.
      destruct (_ || _); reflexivity.
    + rewrite H.
      destruct (_ || _); [reflexivity |]. destruct (_ && _); reflexivity.
Qed.

(* ================================================================== *)
(** * After a submission                                                *)
(* ================================================================== *)

Lemma find_isSome_in (f : Pick -> bool) (l : list Pick) (x : Pick) :
  In x l -> f x = true -> exists y, find f l = Some y.
Proof.
  intros Hin Hf. destruct (find f l) as [y |] eqn:Hfind; [exists y; reflexivity |].
  rewrite (find_none f l Hfind x Hin) in Hf. discriminate.
Qed.

(** The state setters of a run that ends with 'Picks Submitted!'. *)
Lemma submitted_updates (r : Screen) (e : SubmitEnv) (db : Database)
    (c : Z) (nm : string) (rl : LoadResult) :
  so_result (submitAllPicks r e db) = Submitted c nm rl ->
  let reload := loadSlateAndPicks r (se_load e) (so_db (submitAllPicks r e db)) in
  rl = lo_result reload
  /\ so_updates (submitAllPicks r e db)
     = [SetSubmitting true; SetTempPicks []] ++ lo_updates reload
       ++ [SetSubmitting false].
Proof.
  unfold submitAllPicks.
  destruct (league r); [| discriminate].
  destruct (Z.of_nat (List.length (tempPicks r)) =? 0); [discriminate |].
  destruct (se_auth e); try discriminate.
  destruct (se_upsertError e); [discriminate |].
  cbn [so_result so_db so_updates].
  intros H. injection H as _ _ Hrl. split; [symmetry; exact Hrl | reflexivity].
Qed.

Lemma carries_inScope (lid uid : string) (r : Screen) (p row : Pick) :
  inScope lid uid r p -> carries (pickWrite p) row -> inScope lid uid r row.
Proof.
  unfold inScope, carries, pickWrite. cbn.
  intros (H1 & H2 & H3 & H4) (C1 & C2 & C3 & C4 & _).
  repeat split; congruence.
Qed.

(** X7.  After 'Submit N Picks' has succeeded and the reload that
    follows has succeeded, for a session with one pick per game whose
    picks are of the league of the route, the user of the reload and the
    season and week on display: the session is empty; for each submitted
    pick the picks of the screen hold a row for its game, every row that
    they hold for its game has the league, user, season, week, side,
    line value and unlock time of the pick and [locked] false, and every
    further call of [handlePickSide] for its game ends with 'Pick
    Already Submitted' and changes nothing. *)
Theorem submitted_picks_become_immutable (e : SubmitEnv) (w : World)
    (lid uid : string) (c : Z) (nm : string) :
  truthyString (leagueId (screen w)) = Some lid ->
  le_auth (se_load e) = AuthUser uid ->
  fst (pressSubmitButton e w) = Submitted c nm Loaded ->
  NoDup (map game_id (tempPicks (screen w))) ->
  Forall (inScope lid uid (screen w)) (tempPicks (screen w)) ->
  let s' := screen (snd (pressSubmitButton e w)) in
  tempPicks s' = []
  /\ forall p, In p (tempPicks (screen w)) ->
       (exists row, In row (picks s') /\ game_id row = game_id p)
       /\ (forall row, In row (picks s') -> game_id row = game_id p ->
             league_id row = league_id p /\ user_id row = user_id p
             /\ season row = season p /\ week row = week p
             /\ side row = side p /\ line_value row = line_value p
             /\ unlock_at row = unlock_at p /\ locked row = false)
       /\ forall e' sd v lg uid',
            league s' = Some lg -> pe_auth e' = AuthUser uid' ->
            selectSide e' (game_id p) sd v s' = (AlreadySubmitted, s').
Proof.
  intros Hlid Hauth Hres Hnd Hscope s'. subst s'.
  unfold pressSubmitButton, runSubmit in *. cbn [fst snd screen] in *.
  set (r := screen w) in *. set (db := database w) in *.
  destruct (submitted_inv _ _ _ _ _ _ Hres) as (_ & Hpt & _ & Hempty).
  destruct (submitted_updates _ _ _ _ _ _ Hres) as (Hrl & Hup).
  symmetry in Hrl.
  destruct (loaded_updates _ _ _ Hrl) as (lid' & uid' & Hlid' & Hauth' & Hload).
  assert (lid' = lid) by congruence. assert (uid' = uid) by congruence.
  subst lid' uid'.
  assert (Hpicks : picks (applyUpdates (so_updates (submitAllPicks r e db)) r)
                   = storedPicks lid uid r (so_db (submitAllPicks r e db))).
  { rewrite Hup, Hload. reflexivity. }
  rewrite Forall_forall in Hscope.
  assert (Hndw : NoDup (map w_game_id (map pickWrite (tempPicks r))))
    by (rewrite map_map; exact Hnd).
  split; [apply Hempty |].
  intros p Hin.
  assert (Hinw : In (pickWrite p) (map pickWrite (tempPicks r)))
    by (apply in_map, Hin).
  assert (Hrow : exists row,
             In row (picks (applyUpdates (so_updates (submitAllPicks r e db)) r))
             /\ game_id row = game_id p).
  { destruct (upsertRows_written (se_serverNow e) (map pickWrite (tempPicks r))
                (picks_table db) (pickWrite p) Hndw Hinw) as (row & Hrow & Hcar).
    exists row. split.
    - rewrite Hpicks. apply storedPicks_spec. split; [rewrite Hpt; exact Hrow |].
      apply (carries_inScope lid uid r p row (Hscope p Hin) Hcar).
    - apply carries_pickWrite in Hcar. apply Hcar. }
  split; [exact Hrow | split].
  - intros row Hin' Hg. rewrite Hpicks in Hin'.
    apply storedPicks_spec in Hin'. destruct Hin' as [Hin' Hsc].
    rewrite Hpt in Hin'.
    assert (Hkey : conflicts onConflict (pickWrite p) row = true).
    { rewrite conflicts_pickWrite. unfold sameKey.
      destruct (Hscope p Hin) as (P1 & P2 & P3 & P4).
      destruct Hsc as (R1 & R2 & R3 & R4).
      rewrite P1, P2, P3, P4, R1, R2, R3, R4, Hg.
      rewrite !String.eqb_refl, !Z.eqb_refl. reflexivity. }
    destruct (upsertRows_origin _ _ _ _ _ Hin') as [[_ Hno] | (w0 & Hw & Hcar)].
    + rewrite (Hno _ Hinw) in Hkey. discriminate.
    + assert (Hwp : w0 = pickWrite p).
      { apply (NoDup_map_inj w_game_id _ _ _ Hndw Hw Hinw).
        destruct Hcar as (_ & _ & _ & _ & Hg' & _). cbn [pickWrite w_game_id].
        congruence. }
      subst w0. apply carries_pickWrite in Hcar.
      destruct Hcar as (C1 & C2 & C3 & C4 & _ & C6 & C7 & C8 & C9).
      repeat split; assumption.
  - destruct Hrow as (row & Hrow & Hg).
    intros e' sd v lg uid2 Hlg Hauth2.
    destruct (find_isSome_in (isGame (game_id p)) _ row Hrow) as (y & Hy).
    { apply isGame_self. exact Hg. }
    unfold selectSide, handlePickSide. rewrite Hlg, Hauth2, Hy. reflexivity.
Qed.

(** X8.  The stored picks weigh on a call of [handlePickSide] only
    through the game of the call: on two screens with the same league
    and session, neither of which stores a pick for the game, the call
    ends the same way and leaves the same session, however many picks
    each screen stores.  So after a submission has emptied the session,
    a league with a positive limit accepts a first pick again. *)
Theorem limit_ignores_stored_picks (s1 s2 : Screen) (e : PickEnv)
    (g : string) (sd : Side) (v : Q) :
  league s1 = league s2 -> tempPicks s1 = tempPicks s2 ->
  currentSeason s1 = currentSeason s2 -> currentWeek s1 = currentWeek s2 ->
  find (isGame g) (picks s1) = None -> find (isGame g) (picks s2) = None ->
  fst (selectSide e g sd v s1) = fst (selectSide e g sd v s2)
  /\ tempPicks (snd (selectSide e g sd v s1))
     = tempPicks (snd (selectSide e g sd v s2))
  /\ (forall lg uid,
        league s1 = Some lg -> pe_auth e = AuthUser uid ->
        tempPicks s1 = [] -> 0 < pickLimit s1 ->
        fst (selectSide e g sd v s1)
        = Selected 1 (pickLimit s1) (1 =? pickLimit s1)).
Proof.
  intros Hlg Htp Hse Hwk Hp1 Hp2. split; [| split].
  - unfold selectSide, handlePickSide. rewrite Hlg, Htp, Hse, Hwk, Hp1, Hp2.
    destruct (league s2); [| reflexivity].
    destruct (pe_auth e); try reflexivity. cbn [isSome].
    destruct (negb (isSome (find (isGame g) (tempPicks s2)))
              && (Z.of_nat (List.length (tempPicks s2)) >=? _)); reflexivity.
  - unfold selectSide, handlePickSide. rewrite Hlg, Htp, Hse, Hwk, Hp1, Hp2.
    destruct (league s2); [| exact Htp].
    destruct (pe_auth e); try exact Htp. cbn [isSome].
    destruct (negb (isSome (find (isGame g) (tempPicks s2)))
              && (Z.of_nat (List.length (tempPicks s2)) >=? _));
      [exact Htp | reflexivity].
  - intros lg uid Hl Hauth Hempty Hpos.
    unfold selectSide, handlePickSide, pickLimit in *.
    rewrite Hl in *. rewrite Hauth, Hp1, Hempty. cbn.
    replace (0 >=? orDefault (League.pick_limit lg) 5) with false
      by (rewrite Z.geb_leb; symmetry; apply Z.leb_gt; exact Hpos).
    reflexivity.
Qed.

(* ================================================================== *)
(** * The rest of the slate screen                                      *)
(* ================================================================== *)

(** X9.  The bottom of the screen.  With a stored pick on screen it
    shows the submitted section and neither button, whatever the session
    holds.  Without one, 'Submit' is offered exactly when the session
    holds [pickLimit] picks (disabled while a submission runs), 'Clear'
    exactly when it holds some picks but not [pickLimit], never both;
    and 'Need N more' is shown for a session under the limit and not
    empty, with N the picks missing. *)
Theorem pick_summary_controls (r : Screen) :
  (picks r <> [] ->
   pickSummary r = SubmittedSection (submittedPicksCount r) (currentWeek r))
  /\ (picks r = [] ->
      exists needMore submitButton clearButton,
        pickSummary r
        = SelectionSection (tempPicksCount r) (pickLimit r)
                           needMore submitButton clearButton
        /\ (submitButton = Some (submitting r)
            <-> tempPicksCount r = pickLimit r)
        /\ (submitButton = None <-> tempPicksCount r <> pickLimit r)
        /\ (clearButton = true
            <-> 0 < tempPicksCount r /\ tempPicksCount r <> pickLimit r)
        /\ (submitButton <> None -> clearButton = false)
        /\ (forall n, needMore = Some n ->
              0 < n /\ 0 < tempPicksCount r
              /\ tempPicksCount r + n = pickLimit r)
        /\ (0 < tempPicksCount r < pickLimit r -> needMore <> None)).
Proof.
  unfold pickSummary, hasSubmittedPicks, submittedPicksCount, canSubmit. split.
  - intros Hne. destruct (picks r) as [| p l]; [contradiction |].
    reflexivity.
  - intros Hnil. rewrite Hnil. cbn [List.length Z.of_nat Z.ltb Z.compare].
    do 3 eexists. split; [reflexivity |].
    destruct (Z.eqb_spec (tempPicksCount r) (pickLimit r)) as [Heq | Hne];
      destruct (Z.ltb_spec 0 (tempPicksCount r)) as [Hpos | Hnpos];
      destruct (Z.ltb_spec (tempPicksCount r) (pickLimit r)) as [Hlt | Hnlt];
      cbn [andb negb];
      repeat split; intros; try discriminate; try congruence; try lia;
      match goal with
      | H : Some _ = Some _ |- _ => injection H as H; lia
      | _ => idtac
      end.
Qed.

Lemma open_card_lines_available (side : Side) (p : GameCardProps) (v : Q) :
  spreadOf side (line (gameWithLine p)) = Some v ->
  lines_available p <> Some false -> linesAvailable p = true.
Proof.
  intros Hv Hflag. unfold linesAvailable.
  assert (Hs : isSome (Line.spread_home (line (gameWithLine p)))
               || isSome (Line.spread_away (line (gameWithLine p))) = true).
  { destruct side; cbn [spreadOf] in Hv; rewrite Hv; cbn [isSome];
      [reflexivity | apply orb_true_r]. }
  rewrite Hs.
  destruct (lines_available p) as [[|] |]; try reflexivity.
  contradiction Hflag. reflexivity.
Qed.

(** X11.  On a card that is open (not disabled, not locked, lines not
    marked unavailable), a press on a side that has a spread selects
    that side at that spread.  When the spread is 0 the card shows the
    fallback text 'N/A' in its place, as it does for a missing spread,
    and the press still selects the side at 0; any other spread is shown
    as the number, with a plus sign when positive. *)
Theorem zero_spread_shown_as_missing (side : Side) (gameDay : string)
    (clock : Z) (p : GameCardProps) (v : Q) :
  spreadOf side (line (gameWithLine p)) = Some v ->
  disabled p = false -> isLocked clock p = false ->
  lines_available p <> Some false ->
  pressTeam side clock p = Some (Game.id (game (gameWithLine p)), side, v)
  /\ (Qnum v = 0 -> spreadDisplay side gameDay p = ShowFallback "N/A")
  /\ (Qnum v <> 0 ->
      spreadDisplay side gameDay p
      = if 0 <? Qnum v then ShowPlus v else ShowNumber v).
Proof.
  intros Hv Hdis Hlock Hflag.
  pose proof (open_card_lines_available side p v Hv Hflag) as Hlines.
  assert (Hstart : isGameStarted clock p = false).
  { unfold isLocked in Hlock. apply orb_false_elim in Hlock. tauto. }
  split; [| split].
  - unfold pressTeam, handlePick.
    rewrite Hdis, Hlock, Hstart, Hlines, Hv. reflexivity.
  - intros Hzero. unfold spreadDisplay, truthyNumber, getSpreadFallback,
      getPublishMessage.
    rewrite Hv, Hzero, Hlines. reflexivity.
  - intros Hnz. unfold spreadDisplay, truthyNumber, positiveNumber.
    rewrite Hv. apply Z.eqb_neq in Hnz. rewrite Hnz. reflexivity.
Qed.

(* ================================================================== *)
(** * MemberPicksScreen: grouping the rows by week                      *)
(* ================================================================== *)

Lemma sameWeek_inWeek (row : PickWithGame.t) (g : WeeklyPicks) :
  sameWeek (season (PickWithGame.pick row)) (week (PickWithGame.pick row)) g
  = inWeek g row.
Proof.
  unfold sameWeek, inWeek.
  rewrite (Z.eqb_sym (wp_season g)), (Z.eqb_sym (wp_week g)). reflexivity.
Qed.

Lemma inWeek_key (g g' : WeeklyPicks) (row : PickWithGame.t) :
  inWeek g row = true -> inWeek g' row = true -> weekKey g = weekKey g'.
Proof.
  unfold inWeek, weekKey. rewrite !andb_true_iff, !Z.eqb_eq.
  intros [H1 H2] [H3 H4]. f_equal; congruence.
Qed.

Lemma inWeek_same_key (g g' : WeeklyPicks) (row : PickWithGame.t) :
  weekKey g = weekKey g' -> inWeek g row = inWeek g' row.
Proof.
  unfold inWeek, weekKey. intros H. injection H as H1 H2.
  rewrite H1, H2. reflexivity.
Qed.

(** The row is pushed onto the group of its week when there is one... *)
Lemma addToGroups_found (row : PickWithGame.t) (groups : list WeeklyPicks) :
  NoDup (map weekKey groups) ->
  existsb (fun g => inWeek g row) groups = true ->
  addToGroups row groups
  = map (fun g => if inWeek g row
                  then mkWeeklyPicks (wp_week g) (wp_season g)
                                     (wp_picks g ++ [row])
                  else g) groups.
Proof.
  induction groups as [| g rest IH]; intros Hnd Hex; [discriminate |].
  cbn [addToGroups map]. rewrite sameWeek_inWeek.
  cbn [map] in Hnd. inversion Hnd as [| k ks Hnotin Hnd']; subst.
  destruct (inWeek g row) eqn:Hg.
  - f_equal. symmetry. rewrite <- (map_id rest) at 2.
    apply map_ext_in. intros g' Hin.
    destruct (inWeek g' row) eqn:Hg'; [| reflexivity].
    exfalso. apply Hnotin. rewrite (inWeek_key g g' row Hg Hg').
    apply in_map, Hin.
  - f_equal. apply IH; [exact Hnd' |].
    cbn [existsb] in Hex. rewrite Hg in Hex. exact Hex.
Qed.

(** ... and opens a new group at the end otherwise. *)
Lemma addToGroups_new (row : PickWithGame.t) (groups : list WeeklyPicks) :
  existsb (fun g => inWeek g row) groups = false ->
  addToGroups row groups
  = groups ++ [mkWeeklyPicks (week (PickWithGame.pick row))
                             (season (PickWithGame.pick row)) [row]].
Proof.
  induction groups as [| g rest IH]; intros Hex; [reflexivity |].
  cbn [addToGroups app]. rewrite sameWeek_inWeek.
  cbn [existsb] in Hex. apply orb_false_elim in Hex. destruct Hex as [Hg Hrest].
  rewrite Hg. f_equal. apply IH, Hrest.
Qed.

Lemma filter_snoc {A : Type} (f : A -> bool) (l : list A) (x : A) :
  filter f (l ++ [x]) = filter f l ++ (if f x then [x] else []).
Proof.
  rewrite filter_app. cbn [filter]. destruct (f x); reflexivity.
Qed.

Lemma groupsOf_add (data : list PickWithGame.t) (groups : list WeeklyPicks)
    (row : PickWithGame.t) :
  groupsOf data groups -> groupsOf (data ++ [row]) (addToGroups row groups).
Proof.
  intros (Hnd & Hpicks & Hcover).
  destruct (existsb (fun g => inWeek g row) groups) eqn:Hex.
  - rewrite (addToGroups_found row groups Hnd Hex).
    set (push := fun g => if inWeek g row
                          then mkWeeklyPicks (wp_week g) (wp_season g)
                                             (wp_picks g ++ [row])
                          else g).
    assert (Hkey : forall g, weekKey (push g) = weekKey g).
    { intros g. unfold push. destruct (inWeek g row); reflexivity. }
    split; [| split].
    + rewrite map_map. rewrite (map_ext _ weekKey Hkey). exact Hnd.
    + intros g' Hin. apply in_map_iff in Hin. destruct Hin as (g & Hg & Hgin).
      destruct (Hpicks g Hgin) as [Hf Hne].
      assert (Hin' : forall x, inWeek g' x = inWeek g x).
      { intros x. apply inWeek_same_key. rewrite <- Hg. apply Hkey. }
      rewrite (filter_ext _ _ Hin'), filter_snoc.
      subst g'. unfold push. destruct (inWeek g row); cbn [wp_picks].
      * rewrite Hf. split; [reflexivity |].
        intros Habs. apply app_eq_nil in Habs. destruct Habs; discriminate.
      * rewrite app_nil_r. split; assumption.
    + intros x Hx. apply in_app_or in Hx. destruct Hx as [Hx | [Hx | []]].
      * destruct (Hcover x Hx) as (g & Hgin & Hgx).
        exists (push g). split; [apply in_map, Hgin |].
        rewrite (inWeek_same_key (push g) g x (Hkey g)). exact Hgx.
      * subst x. apply existsb_exists in Hex. destruct Hex as (g & Hgin & Hgx).
        exists (push g). split; [apply in_map, Hgin |].
        rewrite (inWeek_same_key (push g) g row (Hkey g)). exact Hgx.
  - rewrite (addToGroups_new row groups Hex).
    set (new := mkWeeklyPicks (week (PickWithGame.pick row))
                              (season (PickWithGame.pick row)) [row]).
    assert (Hnew : inWeek new row = true).
    { unfold inWeek, new. cbn. rewrite !Z.eqb_refl. reflexivity. }
    assert (Hnone : forall g, In g groups -> inWeek g row = false).
    { intros g Hg. destruct (inWeek g row) eqn:Hgr; [| reflexivity].
      assert (existsb (fun g => inWeek g row) groups = true)
        by (apply existsb_exists; exists g; split; assumption).
      congruence. }
    split; [| split].
    + rewrite map_app. apply NoDup_snoc; [exact Hnd |].
      intros Hin. apply in_map_iff in Hin. destruct Hin as (g & Hk & Hg).
      pose proof (Hnone g Hg) as Hno.
      rewrite (inWeek_same_key g new row Hk), Hnew in Hno. discriminate.
    + intros g Hin. apply in_app_or in Hin. destruct Hin as [Hin | [Hin | []]].
      * destruct (Hpicks g Hin) as [Hf Hne].
        rewrite filter_snoc, (Hnone g Hin), app_nil_r. split; assumption.
      * subst g. rewrite filter_snoc, Hnew.
        assert (Hempty : filter (inWeek new) data = []).
        { destruct (filter (inWeek new) data) as [| x t] eqn:Hf; [reflexivity |].
          assert (Hx : In x (filter (inWeek new) data))
            by (rewrite Hf; left; reflexivity).
          apply filter_In in Hx. destruct Hx as [Hx Hnx].
          destruct (Hcover x Hx) as (g & Hg & Hgx).
          pose proof (Hnone g Hg) as Hno.
          rewrite (inWeek_same_key g new row (inWeek_key g new x Hgx Hnx)), Hnew
            in Hno. discriminate. }
        rewrite Hempty. split; [reflexivity | discriminate].
    + intros x Hx. apply in_app_or in Hx. destruct Hx as [Hx | [Hx | []]].
      * destruct (Hcover x Hx) as (g & Hgin & Hgx).
        exists g. split; [apply in_or_app; left; exact Hgin | exact Hgx].
      * subst x. exists new. split; [| exact Hnew].
        apply in_or_app. right. left. reflexivity.
Qed.

Lemma groupsOf_groupedPicks (data : list PickWithGame.t) :
  groupsOf data (groupedPicks data).
Proof.
  unfold groupedPicks.
  assert (Hgen : forall rest done groups,
            groupsOf done groups ->
            groupsOf (done ++ rest)
                     (fold_left (fun gs row => addToGroups row gs) rest groups)).
  { induction rest as [| row rest IH]; intros done groups H.
    - rewrite app_nil_r. exact H.
    - cbn [fold_left].
      replace (done ++ row :: rest) with ((done ++ [row]) ++ rest)
        by (rewrite <- app_assoc; reflexivity).
      apply IH, groupsOf_add, H. }
  apply (Hgen data [] []).
  split; [constructor | split]; intros x [].
Qed.

Lemma addToGroups_perm (row : PickWithGame.t) (groups : list WeeklyPicks) :
  Permutation (List.concat (map wp_picks (addToGroups row groups)))
              (List.concat (map wp_picks groups) ++ [row]).
Proof.
  induction groups as [| g rest IH]; [apply Permutation_refl |].
  cbn [addToGroups].
  destruct (sameWeek _ _ g); cbn [map List.concat wp_picks].
  - rewrite <- !app_assoc. apply Permutation_app_head, Permutation_app_comm.
  - rewrite <- app_assoc. apply Permutation_app_head, IH.
Qed.

Lemma groupedPicks_perm (data : list PickWithGame.t) :
  Permutation (List.concat (map wp_picks (groupedPicks data))) data.
Proof.
  unfold groupedPicks.
  assert (Hgen : forall rest groups,
            Permutation
              (List.concat
                 (map wp_picks
                    (fold_left (fun gs row => addToGroups row gs) rest groups)))
              (List.concat (map wp_picks groups) ++ rest)).
  { induction rest as [| row rest IH]; intros groups.
    - rewrite app_nil_r. apply Permutation_refl.
    - cbn [fold_left]. eapply Permutation_trans; [apply IH |].
      eapply Permutation_trans;
        [apply Permutation_app_tail, addToGroups_perm |].
      rewrite <- app_assoc. apply Permutation_refl. }
  apply (Hgen data []).
Qed.

(** ** Sorting the weeks *)

Lemma insertWeek_perm (x : WeeklyPicks) (l : list WeeklyPicks) :
  Permutation (insertWeek x l) (x :: l).
Proof.
  induction l as [| y l IH]; [apply Permutation_refl |].
  cbn [insertWeek]. destruct (compareWeeks x y <=? 0); [apply Permutation_refl |].
  eapply Permutation_trans; [apply perm_skip, IH | apply perm_swap].
Qed.

Lemma sortWeeks_perm (l : list WeeklyPicks) : Permutation (sortWeeks l) l.
Proof.
  induction l as [| x l IH]; [apply Permutation_refl |].
  cbn [sortWeeks].
  eapply Permutation_trans; [apply insertWeek_perm | apply perm_skip, IH].
Qed.

Lemma notAfter_spec (a b : WeeklyPicks) :
  notAfter a b
  <-> wp_season b < wp_season a
      \/ (wp_season a = wp_season b /\ wp_week b <= wp_week a).
Proof.
  unfold notAfter, compareWeeks.
  destruct (Z.eqb_spec (wp_season a) (wp_season b)); cbn [negb]; lia.
Qed.

Lemma notAfter_trans (a b c : WeeklyPicks) :
  notAfter a b -> notAfter b c -> notAfter a c.
Proof. rewrite !notAfter_spec. lia. Qed.

Lemma notAfter_total (a b : WeeklyPicks) : notAfter a b \/ notAfter b a.
Proof. rewrite !notAfter_spec. lia. Qed.

Lemma insertWeek_sorted (x : WeeklyPicks) (l : list WeeklyPicks) :
  StronglySorted notAfter l -> StronglySorted notAfter (insertWeek x l).
Proof.
  induction l as [| y l IH]; intros Hs.
  - constructor; constructor.
  - cbn [insertWeek]. inversion Hs as [| y' l' Hl Hy]; subst.
    destruct (Z.leb_spec (compareWeeks x y) 0) as [Hle | Hgt].
    + constructor; [exact Hs |]. constructor; [exact Hle |].
      eapply Forall_impl; [| exact Hy].
      intros z Hz. apply (notAfter_trans x y z); assumption.
    + constructor; [apply IH, Hl |].
      assert (Hyx : notAfter y x).
      { destruct (notAfter_total x y) as [H | H]; [unfold notAfter in H; lia | exact H]. }
      apply Forall_forall. intros z Hz.
      apply (Permutation_in _ (insertWeek_perm x l)) in Hz.
      destruct Hz as [Hz | Hz]; [subst z; exact Hyx |].
      rewrite Forall_forall in Hy. apply Hy, Hz.
Qed.

Lemma sortWeeks_sorted (l : list WeeklyPicks) :
  StronglySorted notAfter (sortWeeks l).
Proof.
  induction l as [| x l IH]; [constructor |].
  cbn [sortWeeks]. apply insertWeek_sorted, IH.
Qed.

Lemma sorted_distinct_moreRecent (l : list WeeklyPicks) :
  StronglySorted notAfter l -> NoDup (map weekKey l) ->
  StronglySorted moreRecent l.
Proof.
  induction l as [| x l IH]; intros Hs Hnd; [constructor |].
  inversion Hs as [| x' l' Hl Hx]; subst.
  cbn [map] in Hnd. inversion Hnd as [| k ks Hnotin Hnd']; subst.
  constructor; [apply IH; assumption |].
  apply Forall_forall. intros y Hy.
  rewrite Forall_forall in Hx. pose proof (Hx y Hy) as Hxy.
  apply notAfter_spec in Hxy. unfold moreRecent.
  destruct Hxy as [Hlt | [Heq Hle]]; [left; exact Hlt |].
  right. split; [exact Heq |].
  assert (Hne : wp_week y <> wp_week x).
  { intros Hw. apply Hnotin.
    replace (weekKey x) with (weekKey y)
      by (unfold weekKey; f_equal; congruence).
    apply in_map, Hy. }
  lia.
Qed.

(** X12.  The weeks shown for the rows of a member: every row is in the
    group of its season and week, each group holds exactly the rows of
    its season and week, in the order of the query, and is not empty;
    and the groups come most recent first, each strictly before the
    next, so no week is listed twice. *)
Theorem weeks_partition_the_rows (data : list PickWithGame.t) :
  (forall g, In g (weeklyPicksArray data) ->
     wp_picks g = filter (inWeek g) data /\ wp_picks g <> [])
  /\ (forall row, In row data ->
        exists g, In g (weeklyPicksArray data) /\ In row (wp_picks g))
  /\ StronglySorted moreRecent (weeklyPicksArray data)
  /\ NoDup (map weekKey (weeklyPicksArray data))
  /\ Permutation (List.concat (map wp_picks (weeklyPicksArray data))) data.
Proof.
  destruct (groupsOf_groupedPicks data) as (Hnd & Hpicks & Hcover).
  pose proof (sortWeeks_perm (groupedPicks data)) as Hperm.
  fold (weeklyPicksArray data) in Hperm.
  assert (Hnd' : NoDup (map weekKey (weeklyPicksArray data))).
  { apply (Permutation_NoDup (l := map weekKey (groupedPicks data)));
      [apply Permutation_map, Permutation_sym, Hperm | exact Hnd]. }
  split; [| split; [| split; [| split]]].
  - intros g Hg. apply Hpicks. apply (Permutation_in _ Hperm), Hg.
  - intros row Hrow. destruct (Hcover row Hrow) as (g & Hg & Hgr).
    exists g. split; [apply (Permutation_in _ (Permutation_sym Hperm)), Hg |].
    destruct (Hpicks g Hg) as [Hf _]. rewrite Hf.
    apply filter_In. split; assumption.
  - apply sorted_distinct_moreRecent; [apply sortWeeks_sorted | exact Hnd'].
  - exact Hnd'.
  - eapply Permutation_trans; [| apply groupedPicks_perm].
    clear - Hperm.
    induction Hperm; cbn [map List.concat].
    + apply Permutation_refl.
    + apply Permutation_app_head, IHHperm.
    + rewrite !app_assoc. apply Permutation_app_tail, Permutation_app_comm.
    + eapply Permutation_trans; eassumption.
Qed.

(* ================================================================== *)
(** * MemberPicksScreen: what a week shows                              *)
(* ================================================================== *)

Lemma isPickVisible_unlock (r : MemberPicksScreen) (t : Z) (p q : Pick) :
  unlock_at p = unlock_at q -> isPickVisible r t p = isPickVisible r t q.
Proof.
  intros H. unfold isPickVisible. rewrite H. reflexivity.
Qed.

Lemma isPickVisible_later (r : MemberPicksScreen) (t t' : Z) (p : Pick) :
  t <= t' -> isPickVisible r t p = true -> isPickVisible r t' p = true.
Proof.
  intros Hle. unfold isPickVisible.
  destruct (strictEq (currentUserId r) (userId r)); [reflexivity |].
  destruct (unlock_at p) as [s |]; [| reflexivity].
  destruct (negb (truthyDateString s)); [reflexivity |].
  destruct (parseDate s) as [u |]; [| discriminate].
  rewrite !Z.geb_leb. intros H. apply Z.leb_le in H. apply Z.leb_le. lia.
Qed.

Lemma isPickVisible_owner (r : MemberPicksScreen) (t : Z) (p : Pick) :
  strictEq (currentUserId r) (userId r) = true -> isPickVisible r t p = true.
Proof.
  intros H. unfold isPickVisible. rewrite H. reflexivity.
Qed.

Lemma hidden_has_unlock (r : MemberPicksScreen) (t : Z) (p : Pick) :
  isPickVisible r t p = false ->
  exists s, unlock_at p = Some s /\ truthyDateString s = true.
Proof.
  unfold isPickVisible.
  destruct (strictEq (currentUserId r) (userId r)); [discriminate |].
  destruct (unlock_at p) as [s |]; [| discriminate].
  destruct (truthyDateString s) eqn:Hs; [| discriminate].
  intros _. exists s. split; [reflexivity | exact Hs].
Qed.

(** X13.  The card of a pick that is hidden at the reading of its render
    shows the teams, the gray padlock badge 'LOCKED' and the unlock
    time, and nothing of the pick: two rows with the same game and the
    same unlock time give the same card, whatever their side, line
    value, result, points and lock.  Hidden or not, colour, icon and
    text of the badge go together: the badge is one of five. *)
Theorem hidden_card_shows_nothing (r : MemberPicksScreen) (t : Z)
    (item : PickWithGame.t) :
  (isPickVisible r t (PickWithGame.pick item) = false ->
   (exists s,
      unlock_at (PickWithGame.pick item) = Some s
      /\ renderPick r t item
         = mkPickCard (option_map PickWithGame.away (PickWithGame.games item))
                      (option_map PickWithGame.home (PickWithGame.games item))
                      (mkBadge "#6c757d" Padlock "LOCKED")
                      (PickHidden (Some s)))
   /\ forall item',
        PickWithGame.games item' = PickWithGame.games item ->
        unlock_at (PickWithGame.pick item')
        = unlock_at (PickWithGame.pick item) ->
        renderPick r t item' = renderPick r t item)
  /\ In (cardBadge (renderPick r t item))
        [mkBadge "#6c757d" Padlock "LOCKED";
         mkBadge "#28a745" CheckMark "WIN";
         mkBadge "#dc3545" CrossMark "LOSS";
         mkBadge "#ffc107" MinusSign "PUSH";
         mkBadge "#007bff" Hourglass "PENDING"].
Proof.
  split.
  - intros Hhid.
    destruct (hidden_has_unlock r t _ Hhid) as (s & Hs & Htruthy).
    assert (Hcard : forall it,
              PickWithGame.games it = PickWithGame.games item ->
              unlock_at (PickWithGame.pick it)
              = unlock_at (PickWithGame.pick item) ->
              renderPick r t it
              = mkPickCard
                  (option_map PickWithGame.away (PickWithGame.games item))
                  (option_map PickWithGame.home (PickWithGame.games item))
                  (mkBadge "#6c757d" Padlock "LOCKED")
                  (PickHidden (Some s))).
    { intros it Hg Hu. unfold renderPick.
      rewrite (isPickVisible_unlock r t _ _ Hu), Hhid, Hg, Hu, Hs, Htruthy.
      reflexivity. }
    split.
    + exists s. split; [exact Hs |]. apply Hcard; reflexivity.
    + intros item' Hg Hu. rewrite (Hcard item' Hg Hu).
      symmetry. apply Hcard; reflexivity.
  - unfold renderPick, getStatusColor, getStatusIcon, getStatusText.
    cbn [cardBadge].
    destruct (isPickVisible r t (PickWithGame.pick item)); cbn [negb];
      [| left; reflexivity].
    destruct (result (PickWithGame.pick item)) as [[| |] |];
      [right; left | right; right; left | right; right; right; left |];
      try reflexivity.
    destruct (locked (PickWithGame.pick item));
      [left | right; right; right; right; left]; reflexivity.
Qed.

Lemma tally_sum (l : list PickWithGame.t) :
  (List.length (filter (hasResult WIN) l)
   + List.length (filter (hasResult LOSS) l)
   + List.length (filter (hasResult PUSH) l)
   + List.length (filter noResult l) = List.length l)%nat.
Proof.
  induction l as [| a l IH]; [reflexivity |].
  cbn [filter].
  destruct (hasResult WIN a) eqn:Hw, (hasResult LOSS a) eqn:Hl,
    (hasResult PUSH a) eqn:Hp, (noResult a) eqn:Hn;
    cbn [List.length]; try lia; exfalso;
    unfold hasResult, noResult in Hw, Hl, Hp, Hn;
    destruct (result (PickWithGame.pick a)) as [[| |] |];
    cbn in Hw, Hl, Hp, Hn; discriminate.
Qed.

Lemma filterVisible_length (r : MemberPicksScreen) (clock : nat -> Z)
    (l : list PickWithGame.t) :
  forall k, (List.length (filterVisible r clock k l) <= List.length l)%nat.
Proof.
  induction l as [| a l IH]; intros k; [cbn; lia |].
  cbn [filterVisible]. specialize (IH (S k)).
  destruct (isPickVisible r (clock k) (PickWithGame.pick a));
    cbn [List.length]; lia.
Qed.

Lemma filterVisible_owner (r : MemberPicksScreen) (clock : nat -> Z)
    (l : list PickWithGame.t) :
  strictEq (currentUserId r) (userId r) = true ->
  forall k, filterVisible r clock k l = l.
Proof.
  intros Hown. induction l as [| a l IH]; intros k; [reflexivity |].
  cbn [filterVisible]. rewrite (isPickVisible_owner r _ _ Hown), IH.
  reflexivity.
Qed.

Lemma filterVisible_hidden (r : MemberPicksScreen) (clock : nat -> Z)
    (l l' : list PickWithGame.t) :
  Forall2 (fun a b => a = b \/ (neverVisible r clock a /\ neverVisible r clock b))
          l l' ->
  forall k, filterVisible r clock k l = filterVisible r clock k l'.
Proof.
  induction 1 as [| a b l l' Hab _ IH]; intros k; [reflexivity |].
  cbn [filterVisible]. destruct Hab as [Heq | [Ha Hb]].
  - subst b. rewrite IH. reflexivity.
  - rewrite (Ha k), (Hb k). apply IH.
Qed.

(** X14.  The header of a week counts visible picks only: wins, losses,
    pushes and pending add up to the picks that passed the filter, and
    with the locked count to the picks of the week.  Replacing picks
    that are hidden at every reading by other such picks changes none
    of the five numbers.  To the member whose picks they are, nothing
    is locked and every card shows its pick. *)
Theorem week_header_counts_visible_only (r : MemberPicksScreen)
    (clock : nat -> Z) (item : WeeklyPicks) :
  let sec := renderWeekSection r clock item in
  (weekWins sec + weekLosses sec + weekPushes sec + weekPending sec
   + lockedCount sec = List.length (wp_picks item))%nat
  /\ (forall item',
        Forall2 (fun a b => a = b
                            \/ (neverVisible r clock a /\ neverVisible r clock b))
                (wp_picks item) (wp_picks item') ->
        let sec' := renderWeekSection r clock item' in
        weekWins sec' = weekWins sec /\ weekLosses sec' = weekLosses sec
        /\ weekPushes sec' = weekPushes sec
        /\ weekPending sec' = weekPending sec
        /\ lockedCount sec' = lockedCount sec)
  /\ (strictEq (currentUserId r) (userId r) = true ->
      lockedCount sec = 0%nat
      /\ Forall (fun card => isPicked (cardDetails card) = true)
                (weekCards sec)).
Proof.
  intros sec. subst sec. unfold renderWeekSection.
  cbn [weekWins weekLosses weekPushes weekPending lockedCount weekCards].
  split; [| split].
  - pose proof (tally_sum (filterVisible r clock 0 (wp_picks item))) as Hsum.
    pose proof (filterVisible_length r clock (wp_picks item) 0) as Hlen.
    lia.
  - intros item' Hrel.
    cbn [weekWins weekLosses weekPushes weekPending lockedCount].
    rewrite <- (filterVisible_hidden r clock _ _ Hrel 0).
    rewrite <- (Forall2_length Hrel). repeat split.
  - intros Hown. rewrite (filterVisible_owner r clock _ Hown).
    split; [lia |].
    generalize (List.length (wp_picks item)).
    induction (wp_picks item) as [| a l IH]; intros k; cbn [renderPicks];
      constructor; [| apply IH].
    unfold renderPick. cbn [cardDetails].
    rewrite (isPickVisible_owner r _ _ Hown). reflexivity.
Qed.

Lemma renderPicks_nth (r : MemberPicksScreen) (clock : nat -> Z)
    (l : list PickWithGame.t) :
  forall k i row,
    nth_error l i = Some row ->
    nth_error (renderPicks r clock k l) i
    = Some (renderPick r (clock (k + i)%nat) row).
Proof.
  induction l as [| a l IH]; intros k i row Hnth; [destruct i; discriminate |].
  destruct i as [| i]; cbn [nth_error renderPicks] in *.
  - injection Hnth as Hnth. subst a. rewrite Nat.add_0_r. reflexivity.
  - rewrite (IH (S k) i row Hnth). do 3 f_equal. lia.
Qed.

Lemma filterVisible_in (r : MemberPicksScreen) (clock : nat -> Z)
    (l : list PickWithGame.t) :
  forall k row,
    In row (filterVisible r clock k l) ->
    exists i, nth_error l i = Some row
              /\ isPickVisible r (clock (k + i)%nat) (PickWithGame.pick row) = true.
Proof.
  induction l as [| a l IH]; intros k row Hin; [destruct Hin |].
  cbn [filterVisible] in Hin.
  destruct (isPickVisible r (clock k) (PickWithGame.pick a)) eqn:Hv.
  - destruct Hin as [Heq | Hin].
    + subst a. exists 0%nat. rewrite Nat.add_0_r. split; [reflexivity | exact Hv].
    + destruct (IH (S k) row Hin) as (i & Hnth & Hvis).
      exists (S i). split; [exact Hnth |].
      replace (k + S i)%nat with (S k + i)%nat by lia. exact Hvis.
  - destruct (IH (S k) row Hin) as (i & Hnth & Hvis).
    exists (S i). split; [exact Hnth |].
    replace (k + S i)%nat with (S k + i)%nat by lia. exact Hvis.
Qed.

(** X15.  When the clock does not run backwards during the pass, every
    pick that the header counted as visible is drawn with its details:
    the header never counts a pick that its card hides. *)
Theorem header_and_cards_agree (r : MemberPicksScreen) (clock : nat -> Z)
    (item : WeeklyPicks) :
  (forall k k', (k <= k')%nat -> clock k <= clock k') ->
  forall row,
    In row (filterVisible r clock 0 (wp_picks item)) ->
    exists i card,
      nth_error (wp_picks item) i = Some row
      /\ nth_error (weekCards (renderWeekSection r clock item)) i = Some card
      /\ isPicked (cardDetails card) = true.
Proof.
  intros Hmono row Hin.
  destruct (filterVisible_in r clock _ 0 row Hin) as (i & Hnth & Hvis).
  exists i. eexists. split; [exact Hnth |].
  unfold renderWeekSection. cbn [weekCards].
  split; [apply renderPicks_nth, Hnth |].
  unfold renderPick. cbn [cardDetails].
  assert (Hle : clock (0 + i)%nat
                <= clock (List.length (wp_picks item) + i)%nat)
    by (apply Hmono; lia).
  rewrite (isPickVisible_later r _ _ _ Hle Hvis).
  reflexivity.
Qed.

(* ================================================================== *)
(** * Changing the week                                                 *)
(* ================================================================== *)


Lemma applyUpdates_week (us : list Update) (s : Screen) :
  currentWeek (applyUpdates us s) = currentWeek s
  /\ currentSeason (applyUpdates us s) = currentSeason s.
Proof.
  revert s. induction us as [| u us IH]; intros s; [split; reflexivity |].
  cbn [applyUpdates fold_left]. fold (applyUpdates us (applyUpdate s u)).
  destruct (IH (applyUpdate s u)) as [Hw Hs]. rewrite Hw, Hs.
  destruct u; split; reflexivity.
Qed.


(** [loadLeague] sets the league or nothing. *)
Lemma loadLeague_event (e : LeagueEnv) (s : Screen) :
  exists ev, loadLeague e s = screenEvent s ev /\ isWeekPressed ev = false.
Proof.
  unfold loadLeague.
  destruct (ge_auth e); try (exists (StateSet []); split; reflexivity).
  destruct (ge_error e); [exists (StateSet []); split; reflexivity |].
  destruct (ge_leagues e) as [lg |].
  - exists (LeagueSet (Some (withRole lg (ge_role e)))). split; reflexivity.
  - exists (StateSet []). split; reflexivity.
Qed.

Lemma pressWeekButton_range (s : Screen) (b : WeekButton) :
  1 <= currentWeek s <= 15 -> 1 <= currentWeek (pressWeekButton s b) <= 15.
Proof.
  intros H0. destruct b; unfold pressWeekButton, pressPreviousWeek, pressNextWeek.
  - destruct (Z.leb_spec (currentWeek s) 1); [exact H0 |].
    cbn [setCurrentWeek currentWeek]. lia.
  - rewrite Z.geb_leb.
    destruct (Z.leb_spec 15 (currentWeek s)); [exact H0 |].
    cbn [setCurrentWeek currentWeek]. lia.
Qed.

Lemma screenEvent_week (s : Screen) (ev : ScreenEvent) :
  isWeekPressed ev = false -> currentWeek (screenEvent s ev) = currentWeek s.
Proof.
  destruct ev as [b | us | v]; cbn [isWeekPressed screenEvent].
  - discriminate.
  - intros _. apply applyUpdates_week.
  - intros _. reflexivity.
Qed.

(** X10.  The week on display stays between 1 and 15: from a week in
    that range, over any run of presses on the week buttons mixed in any
    order with what loads and handlers set.  A press with its effect is
    such a run, of the press and then of what the two loads set, and it
    leaves storage as it is.  'Previous' at week 1 and 'next' at week 15
    change nothing and run no load; elsewhere 'next' moves the week up
    by one and 'previous' down by one, whatever the loads answer. *)
Theorem week_buttons_stay_in_season (s : Screen) :
  1 <= currentWeek s <= 15 ->
  (forall evs, 1 <= currentWeek (fold_left screenEvent evs s) <= 15)
  /\ (forall b ge le db,
        database (changeWeek b ge le (mkWorld s db)) = db
        /\ exists evs,
             forallb (fun ev => negb (isWeekPressed ev)) evs = true
             /\ screen (changeWeek b ge le (mkWorld s db))
                = fold_left screenEvent (WeekPressed b :: evs) s)
  /\ (currentWeek s = 1 ->
      forall ge le db,
        changeWeek PreviousWeek ge le (mkWorld s db) = mkWorld s db)
  /\ (currentWeek s = 15 ->
      forall ge le db,
        changeWeek NextWeek ge le (mkWorld s db) = mkWorld s db)
  /\ (currentWeek s < 15 ->
      forall ge le db,
        currentWeek (screen (changeWeek NextWeek ge le (mkWorld s db)))
        = currentWeek s + 1)
  /\ (1 < currentWeek s ->
      forall ge le db,
        currentWeek (screen (changeWeek PreviousWeek ge le (mkWorld s db)))
        = currentWeek s - 1).
Proof.
  intros Hrange.
  assert (Hevents : forall b ge le db,
            database (changeWeek b ge le (mkWorld s db)) = db
            /\ exists evs,
                 forallb (fun ev => negb (isWeekPressed ev)) evs = true
                 /\ screen (changeWeek b ge le (mkWorld s db))
                    = fold_left screenEvent (WeekPressed b :: evs) s).
  { intros b ge le db. unfold changeWeek. cbn [screen database].
    destruct (currentWeek (pressWeekButton s b) =? currentWeek s).
    - split; [reflexivity |]. exists []. split; reflexivity.
    - unfold slateEffect, runLoad. cbn [screen database snd].
      destruct (truthyString (leagueId (pressWeekButton s b))).
      + cbn [screen database]. split; [reflexivity |].
        destruct (loadLeague_event ge (pressWeekButton s b)) as (ev & Hev & Hno).
        exists [ev; StateSet (lo_updates (loadSlateAndPicks (pressWeekButton s b)
                                            le db))].
        split; [cbn [forallb]; rewrite Hno; reflexivity |].
        cbn [fold_left screenEvent]. rewrite Hev. reflexivity.
      + cbn [screen database]. split; [reflexivity |].
        exists []. split; reflexivity. }
  assert (Hweek : forall evs s0,
            forallb (fun ev => negb (isWeekPressed ev)) evs = true ->
            currentWeek (fold_left screenEvent evs s0) = currentWeek s0).
  { induction evs as [| ev evs IH]; intros s0 Hall; [reflexivity |].
    cbn [forallb] in Hall. apply andb_prop in Hall. destruct Hall as [Hev Hall].
    cbn [fold_left]. rewrite (IH _ Hall).
    apply screenEvent_week. destruct (isWeekPressed ev); [discriminate | reflexivity]. }
  assert (Hchange : forall b ge le db,
            currentWeek (screen (changeWeek b ge le (mkWorld s db)))
            = currentWeek (pressWeekButton s b)).
  { intros b ge le db. destruct (Hevents b ge le db) as (_ & evs & Hno & Hrun).
    rewrite Hrun. cbn [fold_left screenEvent]. apply Hweek, Hno. }
  split; [| split; [exact Hevents | split; [| split; [| split]]]].
  - intros evs. clear Hevents Hweek Hchange. revert s Hrange.
    induction evs as [| ev evs IH]; intros s Hrange; [exact Hrange |].
    cbn [fold_left]. apply IH.
    destruct ev as [b | us | v].
    + apply pressWeekButton_range, Hrange.
    + rewrite (screenEvent_week s (StateSet us) eq_refl). exact Hrange.
    + exact Hrange.
  - intros H1 ge le db.
    assert (Hsame : pressWeekButton s PreviousWeek = s).
    { unfold pressWeekButton, pressPreviousWeek. rewrite H1. reflexivity. }
    unfold changeWeek. cbn [screen database].
    rewrite Hsame, Z.eqb_refl. reflexivity.
  - intros H15 ge le db.
    assert (Hsame : pressWeekButton s NextWeek = s).
    { unfold pressWeekButton, pressNextWeek. rewrite H15. reflexivity. }
    unfold changeWeek. cbn [screen database].
    rewrite Hsame, Z.eqb_refl. reflexivity.
  - intros Hlt ge le db. rewrite Hchange.
    unfold pressWeekButton, pressNextWeek. rewrite Z.geb_leb.
    destruct (Z.leb_spec 15 (currentWeek s)); [lia |].
    cbn [setCurrentWeek currentWeek]. lia.
  - intros Hgt ge le db. rewrite Hchange.
    unfold pressWeekButton, pressPreviousWeek.
    destruct (Z.leb_spec (currentWeek s) 1); [lia |].
    cbn [setCurrentWeek currentWeek]. lia.
Qed.

(* ================================================================== *)
(** * From the standings to a member's picks                            *)
(* ================================================================== *)

(** X17.  A press on one's own row of the standings opens 'My Picks' and
    never the member screen.  So on the member screen that 'View Picks'
    opens for the same signed-in user, the viewer is never taken for the
    member: a pick with unlock time [T] is visible exactly from [T] on,
    whoever it belongs to. *)
Theorem standings_open_other_members_only (route : option string)
    (auth : AuthReply) (memberId memberName : string)
    (r : MemberPicksScreen) :
  memberScreenOf (handleMemberClick route auth memberId memberName) auth
  = Some r ->
  auth <> AuthUser memberId
  /\ userId r = Some memberId
  /\ currentUserId r <> Some memberId
  /\ forall t p T,
       unlock_at p = Some (IsoInstant T) ->
       isPickVisible r t p = (T <=? t).
Proof.
  unfold handleMemberClick, memberScreenOf.
  destruct (truthyString route) as [lid |]; [| discriminate].
  assert (Hvis : forall viewer,
            viewer <> Some memberId ->
            forall t p T,
              unlock_at p = Some (IsoInstant T) ->
              isPickVisible (mkMemberPicksScreen viewer (Some memberId)) t p
              = (T <=? t)).
  { intros viewer Hne t p T Hu. unfold isPickVisible.
    cbn [currentUserId userId]. rewrite Hu.
    destruct (strictEq viewer (Some memberId)) eqn:Heq.
    - apply strictEq_owner in Heq. contradiction.
    - cbn. apply Z.geb_leb. }
  destruct auth as [id | |]; [| | discriminate].
  - destruct (String.eqb_spec memberId id) as [Heq | Hne]; [discriminate |].
    intros H. injection H as H. subst r. cbn [userId currentUserId].
    assert (Hviewer : getCurrentUser (AuthUser id) <> Some memberId).
    { unfold getCurrentUser, truthyString.
      destruct (String.eqb id EmptyString); [discriminate |]. congruence. }
    repeat split; [congruence | exact Hviewer | apply Hvis, Hviewer].
  - intros H. injection H as H. subst r. cbn [userId currentUserId getCurrentUser].
    repeat split; [discriminate | discriminate | apply Hvis; discriminate].
Qed.

(* ================================================================== *)
(** * The countdown of the home screen                                  *)
(* ================================================================== *)

(** X18.  The countdown never overstates the time left and understates
    it by less than one of its smaller unit: 'Game time!' is shown
    exactly when the date is not after the clock; 'Dd Hh' stands for at
    least D days and H hours and less than an hour more, with H under
    24; 'Hh Mm' for at least H hours and M minutes and less than a
    minute more, with M under 60; 'Mm' for at least M minutes and less
    than a minute more. *)
Theorem countdown_bounds (clock t : Z) :
  (formatTimeUntil clock (Some t) = GameTime <-> t <= clock)
  /\ (forall d h, formatTimeUntil clock (Some t) = DaysHours d h ->
        0 < d /\ 0 <= h < 24
        /\ d * 86400000 + h * 3600000 <= t - clock
           < d * 86400000 + (h + 1) * 3600000)
  /\ (forall h m, formatTimeUntil clock (Some t) = HoursMinutes h m ->
        0 < h < 24 /\ 0 <= m < 60
        /\ h * 3600000 + m * 60000 <= t - clock
           < h * 3600000 + (m + 1) * 60000)
  /\ (forall m, formatTimeUntil clock (Some t) = Minutes m ->
        0 <= m < 60 /\ m * 60000 <= t - clock < (m + 1) * 60000)
  /\ formatTimeUntil clock (Some t) <> MinutesNaN.
Proof.
  unfold formatTimeUntil.
  set (diff := t - clock).
  change (1000 * 60 * 60 * 24) with 86400000.
  change (1000 * 60 * 60) with 3600000.
  change (1000 * 60) with 60000.
  destruct (Z.leb_spec diff 0) as [Hle | Hpos].
  - repeat split; intros; try discriminate; lia.
  - assert (Hrd : Z.rem diff 86400000 = diff mod 86400000)
      by (apply Z.rem_mod_nonneg; lia).
    assert (Hrh : Z.rem diff 3600000 = diff mod 3600000)
      by (apply Z.rem_mod_nonneg; lia).
    rewrite Hrd, Hrh.
    pose proof (Z.div_mod diff 86400000 ltac:(lia)) as Hd.
    pose proof (Z.mod_pos_bound diff 86400000 ltac:(lia)) as Hdb.
    pose proof (Z.div_mod (diff mod 86400000) 3600000 ltac:(lia)) as Hh.
    pose proof (Z.mod_pos_bound (diff mod 86400000) 3600000 ltac:(lia)) as Hhb.
    pose proof (Z.div_mod diff 3600000 ltac:(lia)) as Hh2.
    pose proof (Z.mod_pos_bound diff 3600000 ltac:(lia)) as Hh2b.
    pose proof (Z.div_mod (diff mod 3600000) 60000 ltac:(lia)) as Hm.
    pose proof (Z.mod_pos_bound (diff mod 3600000) 60000 ltac:(lia)) as Hmb.
    set (D := diff / 86400000) in *.
    set (H := diff mod 86400000 / 3600000) in *.
    set (M := diff mod 3600000 / 60000) in *.
    assert (HD : 0 <= D) by (apply Z.div_pos; lia).
    assert (HH : 0 <= H < 24).
    { split; [apply Z.div_pos; lia |]. apply Z.div_lt_upper_bound; lia. }
    assert (HM : 0 <= M < 60).
    { split; [apply Z.div_pos; lia |]. apply Z.div_lt_upper_bound; lia. }
    destruct (Z.ltb_spec 0 D) as [HDpos | HDzero].
    + split; [split; [discriminate | lia] |].
      split; [| repeat split; intros; discriminate].
      intros d h Heq. injection Heq as Hd' Hh'. subst d h. lia.
    + assert (D = 0) by lia.
      assert (Hsmall : diff mod 86400000 = diff) by lia.
      destruct (Z.ltb_spec 0 H) as [HHpos | HHzero].
      * split; [split; [discriminate | lia] |].
        split; [intros; discriminate |].
        split; [| repeat split; intros; discriminate].
        intros h m Heq. injection Heq as Hh' Hm'. subst h m.
        rewrite Hsmall in Hh.
        assert (Hq : diff / 3600000 = H) by (unfold H; rewrite Hsmall; reflexivity).
        rewrite Hq in Hh2. lia.
      * assert (H = 0) by lia.
        split; [split; [discriminate | lia] |].
        split; [intros; discriminate |].
        split; [intros; discriminate |].
        split; [| discriminate].
        intros m Heq. injection Heq as Hm'. subst m.
        rewrite Hsmall in Hh.
        assert (Hq : diff mod 3600000 = diff) by lia.
        rewrite Hq in Hm, Hmb. lia.
Qed.

(* ================================================================== *)
(** * The unlock time over the week                                     *)
(* ================================================================== *)

(** X19.  In a zone that is regular over the weeks concerned (it may
    change its offset during them), the unlock time of a pick depends on
    the week of the call only: two calls in the same week, Sunday to
    Saturday by the time of the device, get the same one.  Counted from
    the call it lies at most 6 days and 17 hours ahead and less than 7
    hours back, plus the [drift]: the offset of the zone at the call
    minus its offset at noon of the Saturday (an hour in the week in
    which the clocks go back, nothing in a week without transition).
    Without drift it is not after the call exactly when the call is made
    on Saturday from 17:00 on, and such a pick is visible to every member
    from the moment it is made. *)
Theorem unlock_time_over_the_week (z : JSDate.Zone) (now : Z) :
  JSDate.regularWeek z now = true ->
  let local := JSDate.LocalTime z now in
  let noon :=
    JSDate.MakeDate (JSDate.saturdayOf local) (12 * JSDate.msPerHour) in
  let u := saturdayUnlock z now in
  let drift := JSDate.offsetAt z now - JSDate.offsetOfLocal z noon in
  (forall now',
      JSDate.regularWeek z now' = true ->
      JSDate.saturdayOf (JSDate.LocalTime z now') = JSDate.saturdayOf local ->
      saturdayUnlock z now' = u)
  /\ (- 7 * JSDate.msPerHour + drift < u - now
      /\ u - now <= 6 * JSDate.msPerDay + 17 * JSDate.msPerHour + drift)
  /\ (drift = 0 ->
      (u <= now
       <-> JSDate.WeekDay local = 6
           /\ 17 * JSDate.msPerHour <= JSDate.TimeWithinDay local))
  /\ (drift = 0 ->
      JSDate.WeekDay local = 6 ->
      17 * JSDate.msPerHour <= JSDate.TimeWithinDay local ->
      forall r p t,
        unlock_at p = Some (toISOString u) ->
        now <= t -> isPickVisible r t p = true).
Proof.
  intros Hreg local noon u drift.
  destruct (saturdayUnlock_closed z now Hreg) as (Hclosed & Hfive & _).
  fold local in Hclosed, Hfive. fold noon in Hclosed, Hfive. fold u in Hclosed, Hfive.
  pose proof (WeekDay_range local) as Hwd.
  pose proof (Z.div_mod local JSDate.msPerDay
                ltac:(unfold JSDate.msPerDay; lia)) as Hdm.
  pose proof (Z.mod_pos_bound local JSDate.msPerDay
                ltac:(unfold JSDate.msPerDay; lia)) as Hmb.
  fold (JSDate.Day local) in Hdm. fold (JSDate.TimeWithinDay local) in Hdm, Hmb.
  assert (Hnow : now = local - JSDate.offsetAt z now)
    by (unfold local, JSDate.LocalTime; lia).
  assert (Hval : u - now
                 = (6 - JSDate.WeekDay local) * JSDate.msPerDay
                   + 17 * JSDate.msPerHour - JSDate.TimeWithinDay local + drift).
  { rewrite Hfive. unfold JSDate.UTC, drift, noon, JSDate.MakeDate,
      JSDate.saturdayOf.
    unfold JSDate.msPerDay, JSDate.msPerHour in *. lia. }
  assert (Hpast : drift = 0 ->
                  (u <= now
                   <-> JSDate.WeekDay local = 6
                       /\ 17 * JSDate.msPerHour <= JSDate.TimeWithinDay local)).
  { intros H0. rewrite H0 in Hval.
    unfold JSDate.msPerDay, JSDate.msPerHour in *.
    split; [intros H | intros [H6 H17]]; nia. }
  split; [| split; [| split]].
  - intros now' Hreg' Hsame.
    destruct (saturdayUnlock_closed z now' Hreg') as (Hclosed' & _).
    rewrite Hclosed', Hclosed. unfold noon. rewrite Hsame. reflexivity.
  - unfold JSDate.msPerDay, JSDate.msPerHour in *. split; nia.
  - exact Hpast.
  - intros H0 H6 H17 r p t Hu Ht. unfold isPickVisible. rewrite Hu.
    destruct (strictEq (currentUserId r) (userId r)); [reflexivity |].
    cbn. rewrite Z.geb_leb. apply Z.leb_le.
    pose proof (proj2 (Hpast H0) (conj H6 H17)). lia.
Qed.

(* ================================================================== *)
(** * The further properties at work on the examples                    *)
(* ================================================================== *)

Lemma load_shows_stored_picks_witness :
  lo_result (loadSlateAndPicks (demoScreen (JsNum 3)) demoLoadEnv
                               demoStoredDatabase) = Loaded
  /\ exists lid uid,
       truthyString (leagueId (demoScreen (JsNum 3))) = Some lid
       /\ le_auth demoLoadEnv = AuthUser uid
       /\ picks (applyUpdates
                   (lo_updates (loadSlateAndPicks (demoScreen (JsNum 3))
                                  demoLoadEnv demoStoredDatabase))
                   (demoScreen (JsNum 3)))
          = storedPicks lid uid (demoScreen (JsNum 3)) demoStoredDatabase.
Proof.
  assert (Hres : lo_result (loadSlateAndPicks (demoScreen (JsNum 3)) demoLoadEnv
                              demoStoredDatabase) = Loaded) by reflexivity.
  split; [exact Hres |].
  destruct (load_shows_stored_picks (demoScreen (JsNum 3)) demoLoadEnv
              demoStoredDatabase (demoScreen (JsNum 3)) Hres)
    as (lid & uid & Hlid & Hauth & _ & _ & _ & Hpicks & _).
  exists lid, uid. repeat split; assumption.
Defined.

Lemma load_failure_keeps_screen_witness :
  lo_result (loadSlateAndPicks demoSubmittedScreen
               (mkLoadEnv (AuthUser "u1") true false) demoDatabase) <> Loaded
  /\ picks (applyUpdates
              (lo_updates (loadSlateAndPicks demoSubmittedScreen
                             (mkLoadEnv (AuthUser "u1") true false)
                             demoDatabase))
              demoSubmittedScreen)
     = picks demoSubmittedScreen.
Proof.
  assert (Hres : lo_result (loadSlateAndPicks demoSubmittedScreen
                              (mkLoadEnv (AuthUser "u1") true false)
                              demoDatabase) <> Loaded) by discriminate.
  split; [exact Hres |].
  destruct (load_failure_keeps_screen demoSubmittedScreen
              (mkLoadEnv (AuthUser "u1") true false) demoDatabase
              demoSubmittedScreen) as (_ & Hkeep & _).
  destruct (Hkeep Hres) as (_ & Hpicks & _). exact Hpicks.
Defined.

Lemma clear_empties_session_witness :
  tempPicks (screen (snd (clearSelections demoLoadEnv demoTwoPicked))) = []
  /\ database (snd (clearSelections demoLoadEnv demoTwoPicked))
     = database demoTwoPicked.
Proof.
  destruct (clear_empties_session demoLoadEnv demoTwoPicked) as (H1 & H2 & _).
  split; assumption.
Defined.

Lemma session_picks_are_fresh_witness :
  league (demoScreen (JsNum 3)) = Some (demoLeague (JsNum 3))
  /\ Forall (sessionPick (demoLeague (JsNum 3)) (demoScreen (JsNum 3)))
            (tempPicks (taps [demoTap "g1" HOME (-3 # 1)%Q;
                              demoTap "g2" AWAY (3 # 1)%Q]
                             (demoScreen (JsNum 3)))).
Proof.
  split; [reflexivity |].
  apply (session_picks_are_fresh (demoScreen (JsNum 3)) (demoLeague (JsNum 3))).
  - reflexivity.
  - constructor.
Defined.

Lemma demo_cards_show_session : cardsShowSession (demoScreen (JsNum 3)).
Proof.
  intros pick card Hin. destruct Hin.
Defined.

Lemma cards_pick_each_game_once_witness :
  let ps := [mkLatePress 0 (demoCardPress 0 HOME);
             mkLatePress 1 (demoCardPress 1 AWAY);
             mkLatePress 1 (demoCardPress 0 AWAY)] in
  let s' := hd (demoScreen (JsNum 3)) (latePresses ps (demoScreen (JsNum 3))) in
  tempPicksCount (demoScreen (JsNum 3)) <= pickLimit (demoScreen (JsNum 3))
  /\ In s' (latePresses ps (demoScreen (JsNum 3)))
  /\ NoDup (map game_id (tempPicks s'))
  /\ tempPicksCount s' <= pickLimit s'.
Proof.
  intros ps s'.
  assert (Hlim : tempPicksCount (demoScreen (JsNum 3))
                 <= pickLimit (demoScreen (JsNum 3))) by (vm_compute; discriminate).
  assert (Hin : In s' (latePresses ps (demoScreen (JsNum 3)))) by (left; reflexivity).
  split; [exact Hlim | split; [exact Hin |]].
  destruct (cards_pick_each_game_once (demoScreen (JsNum 3))
              demo_cards_show_session (NoDup_nil _) Hlim)
    as (Hall & _).
  destruct (Hall ps s' Hin) as (_ & Hnd & Hcount & _).
  split; assumption.
Defined.

Lemma card_press_picks_displayed_spread_witness :
  pressCard (demoScreen (JsNum 3)) (demoCardPress 0 HOME) = demoScreen (JsNum 3)
  \/ exists item v n,
       nth_error (gamesWithLines (demoScreen (JsNum 3))) 0 = Some item
       /\ spreadOf HOME (line item) = Some v
       /\ tempPicks (pressCard (demoScreen (JsNum 3)) (demoCardPress 0 HOME))
          = tempPicks (demoScreen (JsNum 3)) ++ [n]
       /\ game_id n = Game.id (game item)
       /\ side n = HOME /\ line_value n = v.
Proof.
  destruct (card_press_picks_displayed_spread (demoScreen (JsNum 3))
              (demoCardPress 0 HOME) demo_cards_show_session) as [Hpress _].
  exact Hpress.
Defined.

Lemma demo_session_in_scope :
  Forall (inScope "lg1" "u1" (tap (screen demoTwoPicked) demoThirdTap))
         (tempPicks (tap (screen demoTwoPicked) demoThirdTap)).
Proof.
  repeat constructor.
Defined.

Lemma submitted_picks_become_immutable_witness :
  let p := demoPick "u1" (Some (IsoInstant 1757192400000)) in
  let w := mkWorld (screen demoFilled) demoPriorDatabase in
  let s' := screen (snd (pressSubmitButton (demoSubmitEnv false) w)) in
  In p (tempPicks (screen w))
  /\ fst (pressSubmitButton (demoSubmitEnv false) w) = Submitted 3 "Friends" Loaded
  /\ tempPicks s' = []
  /\ (forall row, In row (picks s') -> game_id row = "g1"%string ->
        side row = HOME /\ line_value row = (-3 # 1)%Q
        /\ unlock_at row = Some (IsoInstant 1757192400000)
        /\ locked row = false)
  /\ selectSide demoPickEnv "g1" AWAY (3 # 1)%Q s' = (AlreadySubmitted, s').
Proof.
  intros p w s'.
  assert (Hin : In p (tempPicks (screen w))) by (left; reflexivity).
  assert (Hres : fst (pressSubmitButton (demoSubmitEnv false) w)
                 = Submitted 3 "Friends" Loaded) by reflexivity.
  split; [exact Hin | split; [exact Hres |]].
  destruct (submitted_picks_become_immutable (demoSubmitEnv false) w
              "lg1"%string "u1"%string 3 "Friends"%string
              eq_refl eq_refl Hres demo_games_distinct demo_session_in_scope)
    as [Hempty Hall].
  split; [exact Hempty |].
  destruct (Hall p Hin) as (_ & Hrows & Hcall).
  split.
  - intros row Hrow Hg.
    destruct (Hrows row Hrow Hg) as (_ & _ & _ & _ & Hs & Hv & Hu & Hl).
    repeat split; assumption.
  - apply (Hcall demoPickEnv AWAY (3 # 1)%Q (demoLeague (JsNum 3)) "u1"%string);
      reflexivity.
Defined.

Lemma limit_ignores_stored_picks_witness :
  find (isGame "g2") (picks demoSubmittedScreen) = None
  /\ fst (selectSide demoPickEnv "g2" AWAY (3 # 1)%Q (demoScreen (JsNum 3)))
     = fst (selectSide demoPickEnv "g2" AWAY (3 # 1)%Q demoSubmittedScreen).
Proof.
  split; [reflexivity |].
  destruct (limit_ignores_stored_picks (demoScreen (JsNum 3)) demoSubmittedScreen
              demoPickEnv "g2"%string AWAY (3 # 1)%Q
              eq_refl eq_refl eq_refl eq_refl eq_refl eq_refl) as [Hsame _].
  exact Hsame.
Defined.

Lemma pick_summary_controls_witness :
  picks demoSubmittedScreen <> []
  /\ pickSummary demoSubmittedScreen = SubmittedSection 1 1.
Proof.
  assert (Hne : picks demoSubmittedScreen <> []) by discriminate.
  split; [exact Hne |].
  destruct (pick_summary_controls demoSubmittedScreen) as [Hsub _].
  exact (Hsub Hne).
Defined.

Lemma week_buttons_stay_in_season_witness :
  1 <= currentWeek (screen demoTwoPicked) <= 15
  /\ 1 <= currentWeek
            (fold_left screenEvent
               [WeekPressed PreviousWeek; WeekPressed NextWeek;
                StateSet [SetTempPicks []]; WeekPressed NextWeek;
                LeagueSet None; WeekPressed PreviousWeek]
               (screen demoTwoPicked)) <= 15
  /\ currentWeek
       (screen (changeWeek NextWeek demoLeagueEnv demoLoadEnv
                  (mkWorld (screen demoTwoPicked) (database demoTwoPicked))))
     = 2.
Proof.
  assert (Hrange : 1 <= currentWeek (screen demoTwoPicked) <= 15)
    by (cbn; lia).
  split; [exact Hrange |].
  destruct (week_buttons_stay_in_season (screen demoTwoPicked) Hrange)
    as (Hruns & _ & _ & _ & Hnext & _).
  split; [apply Hruns |].
  apply (Hnext ltac:(cbn; lia) demoLeagueEnv demoLoadEnv (database demoTwoPicked)).
Defined.

Lemma zero_spread_shown_as_missing_witness :
  spreadOf HOME (line (gameWithLine demoPickEmCard)) = Some (0 # 1)%Q
  /\ pressTeam HOME 1756825200000 demoPickEmCard = Some ("g7"%string, HOME, (0 # 1)%Q)
  /\ spreadDisplay HOME "SAT" demoPickEmCard = ShowFallback "N/A".
Proof.
  assert (Hflag : lines_available demoPickEmCard <> Some false) by discriminate.
  destruct (zero_spread_shown_as_missing HOME "SAT"%string 1756825200000
              demoPickEmCard (0 # 1)%Q eq_refl eq_refl eq_refl Hflag)
    as (Hpress & Hzero & _).
  split; [reflexivity | split; [exact Hpress | apply Hzero; reflexivity]].
Defined.

Lemma weeks_partition_the_rows_witness :
  map weekKey (weeklyPicksArray demoRows) = [(2025, 2); (2025, 1); (2024, 15)]
  /\ StronglySorted moreRecent (weeklyPicksArray demoRows).
Proof.
  split; [reflexivity |].
  destruct (weeks_partition_the_rows demoRows) as (_ & _ & Hsorted & _).
  exact Hsorted.
Defined.

Lemma hidden_card_shows_nothing_witness :
  isPickVisible (demoMemberScreen (Some "u2"%string)) 1756825200000
                (PickWithGame.pick (demoRow 2025 1 "g1" (Some WIN))) = false
  /\ renderPick (demoMemberScreen (Some "u2"%string)) 1756825200000
                (demoRow 2025 1 "g1" (Some LOSS))
     = renderPick (demoMemberScreen (Some "u2"%string)) 1756825200000
                  (demoRow 2025 1 "g1" (Some WIN)).
Proof.
  assert (Hhid : isPickVisible (demoMemberScreen (Some "u2"%string)) 1756825200000
                   (PickWithGame.pick (demoRow 2025 1 "g1" (Some WIN))) = false)
    by reflexivity.
  split; [exact Hhid |].
  destruct (hidden_card_shows_nothing (demoMemberScreen (Some "u2"%string))
              1756825200000 (demoRow 2025 1 "g1" (Some WIN))) as [Hhidden _].
  destruct (Hhidden Hhid) as [_ Hsame].
  apply Hsame; reflexivity.
Defined.

Lemma week_header_counts_visible_only_witness :
  let sec := renderWeekSection (demoMemberScreen (Some "u2"%string)) demoClock
                               demoWeek in
  (weekWins sec + weekLosses sec + weekPushes sec + weekPending sec
   + lockedCount sec = 2)%nat
  /\ lockedCount sec = 1%nat.
Proof.
  intros sec.
  destruct (week_header_counts_visible_only
              (demoMemberScreen (Some "u2"%string)) demoClock demoWeek)
    as [Hsum _].
  split; [exact Hsum | reflexivity].
Defined.

Lemma demo_clock_runs_forward :
  forall k k', (k <= k')%nat -> demoClock k <= demoClock k'.
Proof.
  intros k k' H. unfold demoClock. lia.
Defined.

Lemma header_and_cards_agree_witness :
  In (demoRow 2025 1 "g2" (Some PUSH))
     (filterVisible (demoMemberScreen (Some "u2"%string)) demoClock 0
                    (wp_picks demoWeek))
  /\ exists i card,
       nth_error (wp_picks demoWeek) i = Some (demoRow 2025 1 "g2" (Some PUSH))
       /\ nth_error (weekCards (renderWeekSection
                                  (demoMemberScreen (Some "u2"%string))
                                  demoClock demoWeek)) i = Some card
       /\ isPicked (cardDetails card) = true.
Proof.
  assert (Hin : In (demoRow 2025 1 "g2" (Some PUSH))
                   (filterVisible (demoMemberScreen (Some "u2"%string))
                                  demoClock 0 (wp_picks demoWeek)))
    by (left; reflexivity).
  split; [exact Hin |].
  exact (header_and_cards_agree (demoMemberScreen (Some "u2"%string)) demoClock
           demoWeek demo_clock_runs_forward _ Hin).
Defined.


Lemma standings_open_other_members_only_witness :
  memberScreenOf (handleMemberClick (Some "lg1"%string) (AuthUser "u2")
                                    "u1" "alice") (AuthUser "u2")
  = Some (demoMemberScreen (Some "u2"%string))
  /\ isPickVisible (demoMemberScreen (Some "u2"%string)) 1756825200000
                   (demoPick "u1" (Some (IsoInstant 1757192400000)))
     = (1757192400000 <=? 1756825200000).
Proof.
  assert (Hopen : memberScreenOf
                    (handleMemberClick (Some "lg1"%string) (AuthUser "u2")
                                       "u1" "alice") (AuthUser "u2")
                  = Some (demoMemberScreen (Some "u2"%string))) by reflexivity.
  split; [exact Hopen |].
  destruct (standings_open_other_members_only (Some "lg1"%string) (AuthUser "u2")
              "u1"%string "alice"%string _ Hopen) as (_ & _ & _ & Hvis).
  apply Hvis. reflexivity.
Defined.

Lemma countdown_bounds_witness :
  formatTimeUntil 1756825200000 (Some 1757188800000) = DaysHours 4 5
  /\ 4 * 86400000 + 5 * 3600000 <= 1757188800000 - 1756825200000
     < 4 * 86400000 + (5 + 1) * 3600000.
Proof.
  split; [reflexivity |].
  destruct (countdown_bounds 1756825200000 1757188800000) as (_ & Hdays & _).
  destruct (Hdays 4 5 eq_refl) as (_ & _ & Hbound). exact Hbound.
Defined.

Lemma unlock_time_over_the_week_witness :
  JSDate.regularWeek easternZone2026 1793507400000 = true
  /\ saturdayUnlock easternZone2026 1793507400000 - 1793507400000
     <= 6 * JSDate.msPerDay + 17 * JSDate.msPerHour
        + (JSDate.offsetAt easternZone2026 1793507400000
           - JSDate.offsetOfLocal easternZone2026
               (JSDate.MakeDate
                  (JSDate.saturdayOf
                     (JSDate.LocalTime easternZone2026 1793507400000))
                  (12 * JSDate.msPerHour)))
  /\ JSDate.offsetAt easternZone2026 1793507400000
     - JSDate.offsetOfLocal easternZone2026
         (JSDate.MakeDate
            (JSDate.saturdayOf (JSDate.LocalTime easternZone2026 1793507400000))
            (12 * JSDate.msPerHour))
     = JSDate.msPerHour.
Proof.
  assert (Hreg : JSDate.regularWeek easternZone2026 1793507400000 = true)
    by (vm_compute; reflexivity).
  split; [exact Hreg | split; [| vm_compute; reflexivity]].
  destruct (unlock_time_over_the_week easternZone2026 1793507400000 Hreg)
    as (_ & (_ & Hbound) & _).
  exact Hbound.
Defined.
